(** * data-extraction-tool: the review, dispatch and wizard logic of the frontend

    A shallow embedding of the workflow code of the React components
    ([RawDataReviewApproval], [PipelineExecution], [ExtractionWizard],
    [ExtractionFormV2], [PipelineResultsViewer]) together with the properties
    the specification states about them.

    Conventions of the embedding:
    - a JavaScript string is a [string]: the sequence of its code units, for
      code units below 256 (the Latin-1 range);
    - [null]/[undefined] fields are [option]s, and the truthiness tests of the
      source ([!x], [x || y], [x ? a : b]) are written out;
    - a [Set] is the list of its elements in insertion order, without
      repetition; [Array.from] of it is that list;
    - every [useState] cell of a component is a field of its state record and
      every handler a function on that record; what a handler learns from the
      network or from the user is an argument of the function.
    The first part holds the definitions, the second part the theorems. *)

From Stdlib Require Import ZArith NArith Ascii String.
From stdpp Require Import base decidable option list strings gmap.

Local Open Scope Z_scope.
Set Warnings "-clear-no-such-hyp".

(** ** JavaScript strings *)

Module Js.

(** The code unit of a character. *)
Definition code (c : ascii) : N := N_of_ascii c.

(** [String.prototype.toLowerCase] on one code unit: A-Z and the Latin-1
    capitals U+00C0..U+00DE (the multiplication sign U+00D7 excepted) move
    up by 32, every other code unit below 256 is unchanged. *)
Definition lower_char (c : ascii) : ascii :=
  let n := code c in
  if (((65 <=? n) && (n <=? 90)) ||
      ((192 <=? n) && (n <=? 222) && negb (n =? 215)))%N
  then ascii_of_N (n + 32) else c.

Fixpoint toLowerCase (s : string) : string :=
  match s with
  | EmptyString => EmptyString
  | String c s' => String (lower_char c) (toLowerCase s')
  end.

(** White space and line terminators removed by [String.prototype.trim]:
    TAB, LF, VT, FF, CR, SP and NBSP. *)
Definition is_white_space (c : ascii) : bool :=
  let n := code c in
  ((n =? 9) || (n =? 10) || (n =? 11) || (n =? 12) || (n =? 13) ||
   (n =? 32) || (n =? 160))%N.

Fixpoint trimStart (s : string) : string :=
  match s with
  | EmptyString => EmptyString
  | String c s' => if is_white_space c then trimStart s' else s
  end.

Fixpoint trimEnd (s : string) : string :=
  match s with
  | EmptyString => EmptyString
  | String c s' =>
      match trimEnd s' with
      | EmptyString => if is_white_space c then EmptyString
                       else String c EmptyString
      | r => String c r
      end
  end.

Definition trim (s : string) : string := trimEnd (trimStart s).

(** [s.trim().toLowerCase()], the form in which a keyword is stored. *)
Definition normalize (s : string) : string := toLowerCase (trim s).

(** [h.startsWith(n)] *)
Fixpoint startsWith (h n : string) : bool :=
  match n, h with
  | EmptyString, _ => true
  | String _ _, EmptyString => false
  | String a n', String b h' => Ascii.eqb a b && startsWith h' n'
  end.

(** [h.includes(n)]: [n] occurs at some position of [h]. *)
Fixpoint includes (h n : string) : bool :=
  startsWith h n ||
  match h with
  | EmptyString => false
  | String _ h' => includes h' n
  end.

(** Truthiness of a possibly absent string: absent and empty are falsy. *)
Definition truthy_string (o : option string) : bool :=
  match o with
  | Some s => negb (String.eqb s EmptyString)
  | None => false
  end.

(** [o || d] for a possibly absent number [o] and a number [d]. *)
Definition number_or (o : option Z) (d : Z) : Z :=
  match o with
  | Some n => if n =? 0 then d else n
  | None => d
  end.

(** [s ? s.length : 0] for a possibly absent string. *)
Definition length_or_zero (o : option string) : Z :=
  match o with
  | Some s => if String.eqb s EmptyString then 0 else Z.of_nat (String.length s)
  | None => 0
  end.

(** [o > k] for a possibly absent number: [undefined > k] is false. *)
Definition number_gt (o : option Z) (k : Z) : bool :=
  match o with
  | Some n => k <? n
  | None => false
  end.

(** [arr.filter((x, i) => p x i)] *)
Fixpoint filter_from {A} (p : A → nat → bool) (k : nat) (l : list A) : list A :=
  match l with
  | [] => []
  | x :: l' =>
      if p x k then x :: filter_from p (S k) l' else filter_from p (S k) l'
  end.

Definition filteri {A} (p : A → nat → bool) (l : list A) : list A :=
  filter_from p 0 l.

(** [arr.reduce((sum, x) => sum + f x, 0)] *)
Definition reduce_sum {A} (f : A → Z) (l : list A) : Z :=
  foldl (λ sum x, sum + f x) 0 l.

(** The sum of a list of numbers, used to state what a [reduce] computes. *)
Definition sumZ (l : list Z) : Z := foldr Z.add 0 l.

End Js.

(** ** JavaScript [Set]s, in insertion order *)

Module JsSet.
Section ops.
Context {A : Type} `{EqDecision A}.

Definition has (s : list A) (x : A) : bool := bool_decide (x ∈ s).

Definition add (s : list A) (x : A) : list A :=
  if has s x then s else s ++ [x].

Definition delete (s : list A) (x : A) : list A :=
  filter (λ y, y ≠ x) s.

(** [new Set(iterable)] *)
Definition of_list (l : list A) : list A := foldl add [] l.

Definition size (s : list A) : nat := length s.

(** [s.has(x) ? s.delete(x) : s.add(x)] on a copy of [s] *)
Definition toggle (s : list A) (x : A) : list A :=
  if has s x then delete s x else add s x.
End ops.
End JsSet.

(** ** RawDataReviewApproval.jsx: the approval gate *)

Module RawDataReviewApproval.

Record Source := {
  source_id : option string;
  url : string;
  title : option string;
  source_type : string;
  depth : Z;
  cleaned_content : option string;
  cleaned_content_length : option Z;
  raw_content : option string;
  fetch_error : option string;
  fetch_timestamp : option string;
  parent_url : option string
}.

#[global] Instance Source_eq_dec : EqDecision Source.
Proof. solve_decision. Defined.

Record ExtractionData := {
  ed_sources : option (list Source);
  primary_url : option string;
  primary_title : option string;
  detected_card_name : option string;
  detected_bank : option string;
  extraction_id : option string;
  raw_extraction_id : option string
}.

(** *** SourceCard *)

(** [keywords.filter(kw =>
      source.cleaned_content?.toLowerCase().includes(kw.toLowerCase()))]:
    without content the optional chain is [undefined] and nothing passes. *)
Definition keywordMatches (source : Source) (keywords : list string) : list string :=
  match cleaned_content source with
  | None => []
  | Some c =>
      filter (λ kw, Js.includes (Js.toLowerCase c) (Js.toLowerCase kw)) keywords
  end.

(** The badge [keywordMatches.length > 5 && <span>High Relevance</span>]. *)
Definition highRelevanceBadge (source : Source) (keywords : list string) : bool :=
  Nat.ltb 5 (length (keywordMatches source keywords)).

(** *** The component state *)

Record State := {
  sources : list Source;
  selectedSources : list nat;
  expandedSources : list nat;
  saving : bool;
  searchQuery : string;
  filterType : string;
  showSelectedOnly : bool
}.

Definition initialState : State :=
  {| sources := []; selectedSources := []; expandedSources := [];
     saving := false; searchQuery := ""; filterType := "all";
     showSelectedOnly := false |}.

Definition setSources (v : list Source) (st : State) : State :=
  {| sources := v; selectedSources := selectedSources st;
     expandedSources := expandedSources st; saving := saving st;
     searchQuery := searchQuery st; filterType := filterType st;
     showSelectedOnly := showSelectedOnly st |}.

Definition setSelectedSources (v : list nat) (st : State) : State :=
  {| sources := sources st; selectedSources := v;
     expandedSources := expandedSources st; saving := saving st;
     searchQuery := searchQuery st; filterType := filterType st;
     showSelectedOnly := showSelectedOnly st |}.

Definition setExpandedSources (v : list nat) (st : State) : State :=
  {| sources := sources st; selectedSources := selectedSources st;
     expandedSources := v; saving := saving st;
     searchQuery := searchQuery st; filterType := filterType st;
     showSelectedOnly := showSelectedOnly st |}.

Definition setSaving (v : bool) (st : State) : State :=
  {| sources := sources st; selectedSources := selectedSources st;
     expandedSources := expandedSources st; saving := v;
     searchQuery := searchQuery st; filterType := filterType st;
     showSelectedOnly := showSelectedOnly st |}.

Definition setSearchQuery (v : string) (st : State) : State :=
  {| sources := sources st; selectedSources := selectedSources st;
     expandedSources := expandedSources st; saving := saving st;
     searchQuery := v; filterType := filterType st;
     showSelectedOnly := showSelectedOnly st |}.

Definition setFilterType (v : string) (st : State) : State :=
  {| sources := sources st; selectedSources := selectedSources st;
     expandedSources := expandedSources st; saving := saving st;
     searchQuery := searchQuery st; filterType := v;
     showSelectedOnly := showSelectedOnly st |}.

Definition setShowSelectedOnly (v : bool) (st : State) : State :=
  {| sources := sources st; selectedSources := selectedSources st;
     expandedSources := expandedSources st; saving := saving st;
     searchQuery := searchQuery st; filterType := filterType st;
     showSelectedOnly := v |}.

(** [!s.fetch_error && s.cleaned_content_length > 100] *)
Definition autoSelectable (s : Source) : bool :=
  negb (Js.truthy_string (fetch_error s)) &&
  Js.number_gt (cleaned_content_length s) 100.

(** [new Set(sources.map((s, i) => (... ? i : null)).filter(i => i !== null))] *)
Definition validSources (srcs : list Source) : list nat :=
  JsSet.of_list
    (omap id (imap (λ i s, if autoSelectable s then Some i else None) srcs)).

(** The effect run when [extractionData] changes. *)
Definition onExtractionData (ed : option ExtractionData) (st : State) : State :=
  match ed with
  | Some d =>
      match ed_sources d with
      | Some srcs => setSelectedSources (validSources srcs) (setSources srcs st)
      | None => st
      end
  | None => st
  end.

(** *** The filtered view and the index handed to each card *)

Definition includes_opt (o : option string) (q : string) : bool :=
  match o with
  | Some s => Js.includes (Js.toLowerCase s) (Js.toLowerCase q)
  | None => false
  end.

Definition matchesFilters (st : State) (source : Source) (index : nat) : bool :=
  let matchesSearch :=
    String.eqb (searchQuery st) "" ||
    Js.includes (Js.toLowerCase (url source)) (Js.toLowerCase (searchQuery st)) ||
    includes_opt (title source) (searchQuery st) ||
    includes_opt (cleaned_content source) (searchQuery st) in
  let matchesType :=
    String.eqb (filterType st) "all" ||
    String.eqb (source_type source) (filterType st) in
  let matchesSelected :=
    negb (showSelectedOnly st) || JsSet.has (selectedSources st) index in
  matchesSearch && matchesType && matchesSelected.

Definition filteredSources (st : State) : list Source :=
  Js.filteri (matchesFilters st) (sources st).

(** [arr.findIndex(p)], [None] standing for -1. *)
Fixpoint findIndex {A} (p : A → bool) (l : list A) : option nat :=
  match l with
  | [] => None
  | x :: l' => if p x then Some 0%nat else S <$> findIndex p l'
  end.

(** [sources.findIndex(s => s.url === source.url
                            && s.source_id === source.source_id)] *)
Definition actualIndex (st : State) (source : Source) : option nat :=
  findIndex (λ s, bool_decide (url s = url source) &&
                  bool_decide (source_id s = source_id source))
            (sources st).

(** *** Handlers *)

Definition handleToggleSelect (index : nat) (st : State) : State :=
  setSelectedSources (JsSet.toggle (selectedSources st) index) st.

Definition handleToggleExpand (index : nat) (st : State) : State :=
  setExpandedSources (JsSet.toggle (expandedSources st) index) st.

Definition handleSelectAll (st : State) : State :=
  setSelectedSources (JsSet.of_list (imap (λ i _, i) (sources st))) st.

Definition handleSelectNone (st : State) : State :=
  setSelectedSources [] st.

Definition handleSelectValid (st : State) : State :=
  setSelectedSources (validSources (sources st)) st.

Definition handleExpandAll (st : State) : State :=
  setExpandedSources (JsSet.of_list (imap (λ i _, i) (sources st))) st.

Definition handleCollapseAll (st : State) : State :=
  setExpandedSources [] st.

(** *** Approval *)

(** A source as sent to [onApprove]: the source with its length filled in,
    plus the two approval fields. *)
Record ApprovedSource := {
  base : Source;
  approved : bool;
  approved_at : string
}.

Definition with_length (n : Z) (s : Source) : Source :=
  {| source_id := source_id s; url := url s; title := title s;
     source_type := source_type s; depth := depth s;
     cleaned_content := cleaned_content s;
     cleaned_content_length := Some n;
     raw_content := raw_content s; fetch_error := fetch_error s;
     fetch_timestamp := fetch_timestamp s; parent_url := parent_url s |}.

(** The object built by the [.map] of [handleApprove]; [stamp] is what
    [new Date().toISOString()] gives for this source. *)
Definition approveSource (stamp : string) (source : Source) : ApprovedSource :=
  {| base :=
       with_length
         (Js.number_or (cleaned_content_length source)
                       (Js.length_or_zero (cleaned_content source)))
         source;
     approved := true;
     approved_at := stamp |}.

(** [x || y] on numbers. *)
Definition or_num (x y : Z) : Z := if x =? 0 then y else x.

(** The summand of the [reduce] of [handleApprove]. *)
Definition approvedLength (s : ApprovedSource) : Z :=
  Js.number_or (cleaned_content_length (base s))
    (or_num (Js.length_or_zero (cleaned_content (base s)))
            (or_num (Js.length_or_zero (raw_content (base s))) 0)).

Record ApprovalData := {
  ad_primary_url : option string;
  ad_primary_title : option string;
  ad_detected_card_name : option string;
  ad_detected_bank : option string;
  keywords_used : list string;
  ad_sources : list ApprovedSource;
  total_sources : nat;
  total_content_length : Z;
  ad_raw_extraction_id : option string
}.

Definition approvedSources (clock : nat → string) (st : State) : list ApprovedSource :=
  imap (λ k source, approveSource (clock k) source)
       (Js.filteri (λ _ i, JsSet.has (selectedSources st) i) (sources st)).

(** [handleApprove]: the record handed to [onApprove], if any, and the
    state afterwards. Reading [extractionData.primary_url] of an absent
    [extractionData] throws; the [catch] then reports it and [onApprove] is
    not called. [clock k] is the time read for the [k]-th approved
    source. *)
Definition handleApprove (clock : nat → string) (extractionData : option ExtractionData)
    (keywords : list string) (st : State) : State * option ApprovalData :=
  let approved := approvedSources clock st in
  let totalContentLength := Js.reduce_sum approvedLength approved in
  (setSaving false (setSaving true st),
   match extractionData with
   | None => None
   | Some ed =>
       Some {| ad_primary_url := primary_url ed;
               ad_primary_title := primary_title ed;
               ad_detected_card_name := detected_card_name ed;
               ad_detected_bank := detected_bank ed;
               keywords_used := keywords;
               ad_sources := approved;
               total_sources := length approved;
               total_content_length := totalContentLength;
               ad_raw_extraction_id :=
                 if Js.truthy_string (extraction_id ed) then extraction_id ed
                 else raw_extraction_id ed |}
   end).

(** *** The checksum length, in the words of the specification *)

(** The length recorded for the cleaned content; a length of zero counts as
    absent. *)
Definition recordedLength (s : Source) : option Z :=
  match cleaned_content_length s with
  | Some n => if n =? 0 then None else Some n
  | None => None
  end.

(** The number of characters of a text, zero for an absent text. *)
Definition textLength (o : option string) : Z :=
  match o with
  | Some c => Z.of_nat (String.length c)
  | None => 0
  end.

(** The content length of a source: its cleaned content length (the
    recorded length or, when none is recorded, the length of the cleaned
    content), falling back to the length of the raw content when the cleaned
    length is absent. *)
Definition checksumLength (s : Source) : Z :=
  match recordedLength s with
  | Some n => n
  | None =>
      if textLength (cleaned_content s) =? 0 then textLength (raw_content s)
      else textLength (cleaned_content s)
  end.

(** *** The statistics shown on the page *)

Definition totalSources (st : State) : nat := length (sources st).

Definition selectedCount (st : State) : nat := JsSet.size (selectedSources st).

Definition totalChars (st : State) : Z :=
  Js.reduce_sum (λ s, Js.number_or (cleaned_content_length s) 0)
    (Js.filteri (λ _ i, JsSet.has (selectedSources st) i) (sources st)).

Definition errorCount (st : State) : nat :=
  length (filter (λ s, Js.truthy_string (fetch_error s)) (sources st)).

(** The selection is well formed when it holds every position once and
    only positions of the source list. *)
Definition selection_wf (st : State) : Prop :=
  NoDup (selectedSources st) ∧
  ∀ i, i ∈ selectedSources st → (i < length (sources st))%nat.

(** *** What the user can do to the component *)

Inductive Action :=
| ExtractionDataChanged (ed : option ExtractionData)
| ToggleSelect (source : Source)
| ToggleExpand (source : Source)
| SelectAll | SelectNone | SelectValid | ExpandAll | CollapseAll
| Search (q : string) | FilterType (t : string) | SelectedOnly (b : bool).

(** A card exists only for a displayed source, and its checkbox toggles the
    index [actualIndex] found for it. *)
Definition act (a : Action) (st : State) : State :=
  match a with
  | ExtractionDataChanged ed => onExtractionData ed st
  | ToggleSelect source =>
      if bool_decide (source ∈ filteredSources st) then
        match actualIndex st source with
        | Some i => handleToggleSelect i st
        | None => st
        end
      else st
  | ToggleExpand source =>
      if bool_decide (source ∈ filteredSources st) then
        match actualIndex st source with
        | Some i => handleToggleExpand i st
        | None => st
        end
      else st
  | SelectAll => handleSelectAll st
  | SelectNone => handleSelectNone st
  | SelectValid => handleSelectValid st
  | ExpandAll => handleExpandAll st
  | CollapseAll => handleCollapseAll st
  | Search q => setSearchQuery q st
  | FilterType t => setFilterType t st
  | SelectedOnly b => setShowSelectedOnly b st
  end.

(** The state after a sequence of actions on a freshly mounted component. *)
Definition run (actions : list Action) : State :=
  foldl (λ st a, act a st) initialState actions.

End RawDataReviewApproval.


(** ** PipelineExecution (DataStoreVectorization.jsx): category to pipeline dispatch *)

Module PipelineExecution.

Definition CATEGORY_PIPELINE_MAP : gmap string (list string) :=
  list_to_map
    [ ("cashback", ["cashback"]); ("lounge", ["lounge_access"]);
      ("golf", ["golf"]); ("dining", ["dining"]);
      ("travel", ["travel_benefits"]); ("insurance", ["insurance"]);
      ("rewards", ["rewards_points"]); ("movie", ["movie"]);
      ("fee", ["fee_waiver"]); ("lifestyle", ["lifestyle"]);
      ("eligibility", []); ("general", []) ].

(** [CATEGORY_PIPELINE_MAP[c] || []] for a table [m] *)
Definition pipelinesOf (m : gmap string (list string)) (c : string) : list string :=
  default [] (m !! c).

(** [const mapped = new Set();
     cats.forEach(c => (m[c] || []).forEach(p => mapped.add(p)))] *)
Definition mappedPipelines (m : gmap string (list string)) (cats : list string) : list string :=
  foldl (λ mapped c, foldl JsSet.add mapped (pipelinesOf m c)) [] cats.

(** What the vector service returned for the selected card: the chunk
    count and the object [category_breakdown], as its keys in order with
    their counts. *)
Record CardChunks := {
  total_chunks : Z;
  category_breakdown : option (list (string * Z))
}.

Record State := {
  step : nat;
  cardChunks : option CardChunks;
  selectedCategories : list string;
  selectedPipelines : list string
}.

Definition setSelection (cats pipes : list string) (st : State) : State :=
  {| step := step st; cardChunks := cardChunks st;
     selectedCategories := cats; selectedPipelines := pipes |}.

Definition toggleCategoryWith (m : gmap string (list string)) (cat : string) (st : State) : State :=
  let next := JsSet.toggle (selectedCategories st) cat in
  setSelection next (mappedPipelines m next) st.

Definition selectAllCategoriesWith (m : gmap string (list string)) (st : State) : State :=
  match cardChunks st with
  | None => st
  | Some chunks =>
      match category_breakdown chunks with
      | None => st
      | Some breakdown =>
          let all := JsSet.of_list (map fst breakdown) in
          setSelection all (mappedPipelines m all) st
      end
  end.

Definition toggleCategory : string → State → State :=
  toggleCategoryWith CATEGORY_PIPELINE_MAP.

Definition selectAllCategories : State → State :=
  selectAllCategoriesWith CATEGORY_PIPELINE_MAP.

(** The clear button next to [Select All]. *)
Definition clearCategories (st : State) : State := setSelection [] [] st.

(** [toggle(selectedPipelines, setSelectedPipelines, p)]: the manual
    adjustment of one pipeline below the category list. *)
Definition togglePipeline (p : string) (st : State) : State :=
  setSelection (selectedCategories st) (JsSet.toggle (selectedPipelines st) p) st.

(** [pipeline_names: Array.from(selectedPipelines)] of [runPipelines] *)
Definition pipeline_names (st : State) : list string := selectedPipelines st.

End PipelineExecution.

(** ** The keyword list shared by ExtractionWizard and ExtractionFormV2 *)

Module KeywordList.

Definition DEFAULT_KEYWORDS : list string :=
  [ "benefit"; "reward"; "cashback"; "discount"; "lounge"; "airport";
    "travel"; "insurance"; "annual fee"; "interest rate"; "eligibility";
    "minimum salary"; "points"; "miles"; "complimentary"; "free";
    "cinema"; "golf"; "concierge"; "valet"; "dining"; "shopping";
    "partner"; "merchant"; "offer"; "promotion"; "feature";
    "aed"; "usd"; "%"; "per month"; "per year"; "waived";
    "mastercard"; "visa"; "diners"; "platinum"; "signature"; "world";
    "credit limit"; "supplementary"; "apply"; "requirement" ].

(** The two [useState] cells the keyword handlers work on. *)
Record State := {
  keywords : list string;
  newKeyword : string
}.

Definition initialState : State :=
  {| keywords := DEFAULT_KEYWORDS; newKeyword := "" |}.

Definition setNewKeyword (v : string) (st : State) : State :=
  {| keywords := keywords st; newKeyword := v |}.

(** [const kw = newKeyword.trim().toLowerCase();
     if (kw && !keywords.includes(kw)) { setKeywords([...keywords, kw]);
                                         setNewKeyword(''); }] *)
Definition addKeyword (st : State) : State :=
  let kw := Js.normalize (newKeyword st) in
  if negb (String.eqb kw "") && negb (bool_decide (kw ∈ keywords st))
  then {| keywords := keywords st ++ [kw]; newKeyword := "" |}
  else st.

(** [setKeywords(keywords.filter(k => k !== kw))] *)
Definition removeKeyword (kw : string) (st : State) : State :=
  {| keywords := filter (λ k, k ≠ kw) (keywords st); newKeyword := newKeyword st |}.

(** [setKeywords([...DEFAULT_KEYWORDS])] *)
Definition resetKeywords (st : State) : State :=
  {| keywords := DEFAULT_KEYWORDS; newKeyword := newKeyword st |}.

(** The operations of the keyword step: typing into the input, the add
    button (or Enter), the remove button of a keyword, the reset button. *)
Inductive Op :=
| Type_ (text : string)
| Add
| Remove (kw : string)
| Reset.

Definition apply (op : Op) (st : State) : State :=
  match op with
  | Type_ text => setNewKeyword text st
  | Add => addKeyword st
  | Remove kw => removeKeyword kw st
  | Reset => resetKeywords st
  end.

Definition run (ops : list Op) : State := foldl (λ st op, apply op st) initialState ops.

(** A keyword is in stored form when it is trimmed, lowercase and not
    empty. *)
Definition stored (k : string) : Prop := Js.normalize k = k ∧ k ≠ "".

Definition wf (st : State) : Prop :=
  NoDup (keywords st) ∧ Forall stored (keywords st).

End KeywordList.

(** ** ExtractionWizard (V4 unified extraction wizard) *)

Module ExtractionWizard.

Inductive Mode := single_card | bank_wide.
Inductive SourceType := url | text | pdf.

#[global] Instance Mode_eq_dec : EqDecision Mode.
Proof. solve_decision. Defined.
#[global] Instance SourceType_eq_dec : EqDecision SourceType.
Proof. solve_decision. Defined.

Record Session := { session_id : string }.
Record File := { file_name : string }.
Record Card := { card_id : string; card_name : string; is_selected : bool }.
Record UrlEntry := { entry_url : string; url_is_selected : bool }.
Record FetchedSource := { source_id : string; approval_status : string }.

(** The [useState] cells, grouped as the source groups them. *)
Record SessionState := {
  session : option Session;
  step : nat;
  loading : bool;
  error : string
}.

Record InputState := {
  mode : Mode;
  sourceType : SourceType;
  singleCardUrl : string;
  textContent : string;
  selectedFile : option File;
  selectedBank : string;
  banks : list string
}.

Record AdvancedOptions := {
  showAdvanced : bool;
  processPdfs : bool;
  bypassCache : bool;
  maxDepth : Z;
  followLinks : bool;
  usePlaywright : bool
}.

Record CardsState := { cards : list Card; selectedCardIds : list string }.

Record UrlsState := {
  urls : list UrlEntry;
  selectedUrls : list string;
  urlViewMode : string
}.

Record SourcesState := {
  sources : list FetchedSource;
  expandedSources : list string;
  fetchStats : option Z;
  saveResult : option string
}.

Record State := {
  sess : SessionState;
  input : InputState;
  advanced : AdvancedOptions;
  cardsSt : CardsState;
  urlsSt : UrlsState;
  kw : KeywordList.State;
  sourcesSt : SourcesState
}.

Definition initialState : State :=
  {| sess := {| session := None; step := 1; loading := false; error := "" |};
     input := {| mode := single_card; sourceType := url; singleCardUrl := "";
                 textContent := ""; selectedFile := None; selectedBank := "";
                 banks := [] |};
     advanced := {| showAdvanced := false; processPdfs := true;
                    bypassCache := false; maxDepth := 2; followLinks := true;
                    usePlaywright := true |};
     cardsSt := {| cards := []; selectedCardIds := [] |};
     urlsSt := {| urls := []; selectedUrls := []; urlViewMode := "relevance" |};
     kw := KeywordList.initialState;
     sourcesSt := {| sources := []; expandedSources := []; fetchStats := None;
                     saveResult := None |} |}.

Definition withSess (f : SessionState → SessionState) (st : State) : State :=
  {| sess := f (sess st); input := input st; advanced := advanced st;
     cardsSt := cardsSt st; urlsSt := urlsSt st; kw := kw st;
     sourcesSt := sourcesSt st |}.

Definition setSession (v : option Session) : State → State :=
  withSess (λ s, {| session := v; step := step s; loading := loading s;
                    error := error s |}).

Definition setStep (v : nat) : State → State :=
  withSess (λ s, {| session := session s; step := v; loading := loading s;
                    error := error s |}).

Definition setLoading (v : bool) : State → State :=
  withSess (λ s, {| session := session s; step := step s; loading := v;
                    error := error s |}).

Definition setError (v : string) : State → State :=
  withSess (λ s, {| session := session s; step := step s; loading := loading s;
                    error := v |}).

Definition setCardsState (v : CardsState) (st : State) : State :=
  {| sess := sess st; input := input st; advanced := advanced st;
     cardsSt := v; urlsSt := urlsSt st; kw := kw st; sourcesSt := sourcesSt st |}.

(** [const handleError = (msg) => { setError(msg); setLoading(false); }] *)
Definition handleError (msg : string) (st : State) : State :=
  setLoading false (setError msg st).

(** *** What the wizard sends and what it is answered *)

Record Options := {
  process_pdfs : bool;
  bypass_cache : bool;
  max_depth : Z;
  follow_links : bool;
  use_playwright : bool
}.

Record Body := {
  body_mode : Mode;
  options : Options;
  single_card_url : option string;
  text_content : option string;
  source_type : option string;
  bank_key : option string
}.

Inductive Endpoint :=
| PostSessions (body : Body)
| PostSessionsUpload (file : File) (opts : Options)
| PostDiscoverCards (sid : string)
| GetCards (sid : string).

(** The observable trace of a handler: the requests it makes and the
    session and step it sets, in order. *)
Inductive Event :=
| Request (e : Endpoint)
| SetSession (s : Session)
| SetStep (n : nat).

(** The steps a trace enters, in order. *)
Definition stepsEntered (tr : list Event) : list nat :=
  omap (λ e, match e with SetStep n => Some n | _ => None end) tr.

(** The requests of a trace that concern cards. *)
Definition isCardRequest (e : Event) : bool :=
  match e with
  | Request (PostDiscoverCards _) | Request (GetCards _) => true
  | _ => false
  end.

(** The answer to a session creation request: the request or the decoding
    of its answer throws with a message, the server refuses with a
    [detail], or the server answers with the session. *)
Inductive CreateReply :=
| CreateThrows (message : string)
| CreateRefused (detail : option string)
| CreateOk (data : Session).

(** The answers to the two requests of [discoverCards]. *)
Inductive CardsReply :=
| DiscoverThrows (message : string)
| CardsThrows (message : string)
| CardsOk (cards : option (list Card)).

Record Network := { create_reply : CreateReply; cards_reply : CardsReply }.

Definition currentOptions (st : State) : Options :=
  {| process_pdfs := processPdfs (advanced st);
     bypass_cache := bypassCache (advanced st);
     max_depth := maxDepth (advanced st);
     follow_links := followLinks (advanced st);
     use_playwright := usePlaywright (advanced st) |}.

(** *** Step 2: discover cards *)

Definition discoverCards (net : Network) (sid : string) (st : State) : State * list Event :=
  match cards_reply net with
  | DiscoverThrows msg =>
      (setLoading false (handleError msg st), [Request (PostDiscoverCards sid)])
  | CardsThrows msg =>
      (setLoading false (handleError msg st),
       [Request (PostDiscoverCards sid); Request (GetCards sid)])
  | CardsOk cs =>
      let found := default [] cs in
      let st1 :=
        setCardsState
          {| cards := found;
             selectedCardIds := map card_id (filter (λ c, is_selected c) found) |}
          st in
      (setLoading false (setStep 2 st1),
       [Request (PostDiscoverCards sid); Request (GetCards sid); SetStep 2])
  end.

(** *** Step 1: create the session *)

(** The [try] block once the request has been sent: [k] is what follows
    [setSession(data)]. *)
Definition afterCreate (net : Network) (req : Endpoint)
    (k : Session → State → State * list Event) (st : State) : State * list Event :=
  match create_reply net with
  | CreateThrows msg => (handleError msg st, [Request req])
  | CreateRefused detail => (handleError (default "" detail) st, [Request req])
  | CreateOk data =>
      let '(st', tr) := k data (setSession (Some data) st) in
      (st', Request req :: SetSession data :: tr)
  end.

Definition createSession (net : Network) (st0 : State) : State * list Event :=
  let st := setError "" (setLoading true st0) in
  let i := input st in
  let body0 :=
    {| body_mode := mode i; options := currentOptions st;
       single_card_url := None; text_content := None; source_type := None;
       bank_key := None |} in
  let enterUrls := λ (_ : Session) (s : State), (setStep 4 s, [SetStep 4]) in
  let thenDiscover := λ (d : Session) (s : State), discoverCards net (session_id d) s in
  match mode i with
  | single_card =>
      match sourceType i with
      | url =>
          if String.eqb (singleCardUrl i) ""
          then (handleError "Please enter a card URL" st, [])
          else
            afterCreate net
              (PostSessions
                 {| body_mode := mode i; options := currentOptions st;
                    single_card_url := Some (singleCardUrl i);
                    text_content := None; source_type := None;
                    bank_key := None |})
              thenDiscover st
      | text =>
          if String.eqb (Js.trim (textContent i)) ""
          then (handleError "Please enter some text" st, [])
          else
            afterCreate net
              (PostSessions
                 {| body_mode := mode i; options := currentOptions st;
                    single_card_url := None;
                    text_content := Some (textContent i);
                    source_type := Some "text"; bank_key := None |})
              enterUrls st
      | pdf =>
          match selectedFile i with
          | None => (handleError "Please select a PDF file" st, [])
          | Some f =>
              afterCreate net (PostSessionsUpload f (currentOptions st))
                enterUrls st
          end
      end
  | bank_wide =>
      if String.eqb (selectedBank i) ""
      then (handleError "Please select a bank" st, [])
      else
        afterCreate net
          (PostSessions
             {| body_mode := mode i; options := currentOptions st;
                single_card_url := None; text_content := None;
                source_type := None; bank_key := Some (selectedBank i) |})
          thenDiscover st
  end.

(** The Back button of the URL step:
    [setStep(mode === 'single_card' &&
             (sourceType === 'text' || sourceType === 'pdf') ? 1 : 2)] *)
Definition backFromUrls (st : State) : State :=
  setStep
    (if bool_decide (mode (input st) = single_card) &&
        (bool_decide (sourceType (input st) = text) ||
         bool_decide (sourceType (input st) = pdf))
     then 1 else 2)%nat
    st.

(** *** Keyword management *)

Definition withKw (f : KeywordList.State → KeywordList.State) (st : State) : State :=
  {| sess := sess st; input := input st; advanced := advanced st;
     cardsSt := cardsSt st; urlsSt := urlsSt st; kw := f (kw st);
     sourcesSt := sourcesSt st |}.

Definition addKeyword : State → State := withKw KeywordList.addKeyword.
Definition removeKeyword (k : string) : State → State :=
  withKw (KeywordList.removeKeyword k).
Definition resetKeywords : State → State := withKw KeywordList.resetKeywords.

(** *** Reset *)

Definition reset (st : State) : State :=
  {| sess := {| session := None; step := 1; loading := loading (sess st);
                error := "" |};
     input := {| mode := mode (input st); sourceType := sourceType (input st);
                 singleCardUrl := ""; textContent := ""; selectedFile := None;
                 selectedBank := selectedBank (input st);
                 banks := banks (input st) |};
     advanced := advanced st;
     cardsSt := {| cards := []; selectedCardIds := [] |};
     urlsSt := {| urls := []; selectedUrls := [];
                  urlViewMode := urlViewMode (urlsSt st) |};
     kw := {| KeywordList.keywords := KeywordList.DEFAULT_KEYWORDS;
              KeywordList.newKeyword := KeywordList.newKeyword (kw st) |};
     sourcesSt := {| sources := [];
                     expandedSources := expandedSources (sourcesSt st);
                     fetchStats := None; saveResult := None |} |}.

End ExtractionWizard.

(** ** ExtractionFormV2 (DataStoreVectorization.jsx) *)

Module ExtractionFormV2.

Record Link := {
  url : string;
  link_text : string;
  relevance : string
}.

(** The answer of [extractionAPIv2.discoverUrls]. *)
Record DiscoveryResult := {
  discovered_links : list Link;
  pdf_links : list Link
}.

(** What the discovery request gives: it throws an error carrying
    [err.response?.data?.detail] and [err.message], or it answers. *)
Inductive DiscoverReply :=
| DiscoverThrows (detail : option string) (message : option string)
| DiscoverOk (result : DiscoveryResult).

Record State := {
  inputType : string;
  inputValue : string;
  loading : bool;
  discovering : bool;
  error : string;
  success : bool;
  showAdvanced : bool;
  step : nat;
  discoveryResult : option DiscoveryResult;
  selectedUrls : list string;
  kw : KeywordList.State;
  showKeywordStep : bool;
  processPdfs : bool;
  bypassCache : bool;
  useFlexibleExtraction : bool
}.

Definition initialState : State :=
  {| inputType := "url"; inputValue := ""; loading := false;
     discovering := false; error := ""; success := false;
     showAdvanced := false; step := 1; discoveryResult := None;
     selectedUrls := []; kw := KeywordList.initialState;
     showKeywordStep := false; processPdfs := true; bypassCache := false;
     useFlexibleExtraction := true |}.

(** The cells [handleDiscover] writes, the other cells kept. *)
Definition update (err : string) (disc : bool) (res : option DiscoveryResult)
    (sel : list string) (stp : nat) (st : State) : State :=
  {| inputType := inputType st; inputValue := inputValue st;
     loading := loading st; discovering := disc; error := err;
     success := success st; showAdvanced := showAdvanced st; step := stp;
     discoveryResult := res; selectedUrls := sel; kw := kw st;
     showKeywordStep := showKeywordStep st; processPdfs := processPdfs st;
     bypassCache := bypassCache st;
     useFlexibleExtraction := useFlexibleExtraction st |}.

Definition withKw (f : KeywordList.State → KeywordList.State) (st : State) : State :=
  {| inputType := inputType st; inputValue := inputValue st;
     loading := loading st; discovering := discovering st; error := error st;
     success := success st; showAdvanced := showAdvanced st; step := step st;
     discoveryResult := discoveryResult st; selectedUrls := selectedUrls st;
     kw := f (kw st);
     showKeywordStep := showKeywordStep st; processPdfs := processPdfs st;
     bypassCache := bypassCache st;
     useFlexibleExtraction := useFlexibleExtraction st |}.

Definition addKeyword : State → State := withKw KeywordList.addKeyword.
Definition removeKeyword (k : string) : State → State :=
  withKw (KeywordList.removeKeyword k).
Definition resetKeywords : State → State := withKw KeywordList.resetKeywords.

(** [[...result.discovered_links.filter(l => l.relevance === 'high').map(l => l.url),
      ...result.pdf_links.filter(l => l.relevance === 'high').map(l => l.url)]] *)
Definition highRelevance (result : DiscoveryResult) : list string :=
  map url (filter (λ l, relevance l = "high") (discovered_links result)) ++
  map url (filter (λ l, relevance l = "high") (pdf_links result)).

(** [a || b || 'Discovery failed'] on possibly absent strings *)
Definition errorMessage (detail message : option string) : string :=
  if Js.truthy_string detail then default "" detail
  else if Js.truthy_string message then default "" message
  else "Discovery failed".

Definition handleDiscover (reply : DiscoverReply) (st : State) : State :=
  if String.eqb (Js.trim (inputValue st)) ""
  then update "Please enter a URL" (discovering st) (discoveryResult st)
         (selectedUrls st) (step st) st
  else
    match reply with
    | DiscoverThrows detail message =>
        update (errorMessage detail message) false (discoveryResult st)
          (selectedUrls st) (step st) st
    | DiscoverOk result =>
        update "" false (Some result) (highRelevance result) 2 st
    end.

(** Whether the row of a link is shown as selected:
    [selectedUrls.includes(link.url)]. *)
Definition isSelected (st : State) (l : Link) : bool :=
  bool_decide (url l ∈ selectedUrls st).

End ExtractionFormV2.

(** ** PipelineResultsViewer: the benefits of a pipeline run, with deletion *)

Module PipelineResultsViewer.

Record Benefit := {
  benefit_id : string;
  title : string;
  description : string;
  confidence_level : string;
  extraction_method : string;
  value : option string
}.

#[global] Instance Benefit_eq_dec : EqDecision Benefit.
Proof. solve_decision. Defined.

Record Results := { all_benefits : list Benefit }.

(** The props [results], [rawDataId] and [onBenefitDeleted] (whether a
    callback was given) and the [useState] cells of the component. *)
Record Viewer := {
  results : Results;
  rawDataId : option string;
  onBenefitDeleted : bool;
  expandedBenefits : list string;
  deletingBenefits : list string;
  deletedBenefits : list string
}.

Definition mount (r : Results) (raw : option string) (cb : bool) : Viewer :=
  {| results := r; rawDataId := raw; onBenefitDeleted := cb;
     expandedBenefits := []; deletingBenefits := []; deletedBenefits := [] |}.

Definition setDeleting (v : list string) (w : Viewer) : Viewer :=
  {| results := results w; rawDataId := rawDataId w;
     onBenefitDeleted := onBenefitDeleted w;
     expandedBenefits := expandedBenefits w;
     deletingBenefits := v; deletedBenefits := deletedBenefits w |}.

Definition setDeleted (v : list string) (w : Viewer) : Viewer :=
  {| results := results w; rawDataId := rawDataId w;
     onBenefitDeleted := onBenefitDeleted w;
     expandedBenefits := expandedBenefits w;
     deletingBenefits := deletingBenefits w; deletedBenefits := v |}.

Definition setExpanded (v : list string) (w : Viewer) : Viewer :=
  {| results := results w; rawDataId := rawDataId w;
     onBenefitDeleted := onBenefitDeleted w;
     expandedBenefits := v;
     deletingBenefits := deletingBenefits w;
     deletedBenefits := deletedBenefits w |}.

Definition toggleBenefit (id : string) (w : Viewer) : Viewer :=
  setExpanded (JsSet.toggle (expandedBenefits w) id) w.

(** What the handler does to the outside, in order. *)
Inductive Event :=
| Alert (msg : string)
| Confirm (benefitTitle : string)
| DeleteRequest (rawId benefitId : string)
| BenefitDeleted (benefitId : string).

Inductive DeleteReply := DeleteOk | DeleteThrows (msg : string).

(** [handleDeleteBenefit(benefitId, benefitTitle)]; [confirmed] is the
    answer to [window.confirm] and [reply] the outcome of the request. *)
Definition handleDeleteBenefit (confirmed : bool) (reply : DeleteReply)
    (benefitId benefitTitle : string) (w : Viewer) : Viewer * list Event :=
  if negb (Js.truthy_string (rawDataId w))
  then (w, [Alert "Cannot delete: Raw data ID is not available"])
  else if negb confirmed then (w, [Confirm benefitTitle])
  else
    let rawId := default "" (rawDataId w) in
    let w1 := setDeleting (JsSet.add (deletingBenefits w) benefitId) w in
    match reply with
    | DeleteOk =>
        let w2 := setDeleted (JsSet.add (deletedBenefits w1) benefitId) w1 in
        (setDeleting (JsSet.delete (deletingBenefits w2) benefitId) w2,
         [Confirm benefitTitle; DeleteRequest rawId benefitId] ++
         (if onBenefitDeleted w then [BenefitDeleted benefitId] else []))
    | DeleteThrows msg =>
        (setDeleting (JsSet.delete (deletingBenefits w1) benefitId) w1,
         [Confirm benefitTitle; DeleteRequest rawId benefitId;
          Alert ("Failed to delete benefit: " +:+ msg)])
    end.

(** [results.all_benefits.filter(b => !deletedBenefits.has(b.benefit_id))] *)
Definition visibleBenefits (w : Viewer) : list Benefit :=
  filter (λ b, negb (JsSet.has (deletedBenefits w) (benefit_id b)))
         (all_benefits (results w)).

(** [stats.totalBenefits = results.all_benefits?.length || 0] *)
Definition totalBenefits (w : Viewer) : Z :=
  Z.of_nat (length (all_benefits (results w))).

(** The badge of the benefits section:
    [stats.totalBenefits - deletedBenefits.size] *)
Definition badge (w : Viewer) : Z :=
  totalBenefits w - Z.of_nat (JsSet.size (deletedBenefits w)).

(** The trash button of a card: present for a visible benefit, disabled
    while that benefit is being deleted. *)
Definition clickDelete (confirmed : bool) (reply : DeleteReply) (b : Benefit)
    (w : Viewer) : Viewer * list Event :=
  if bool_decide (b ∈ visibleBenefits w) &&
     negb (JsSet.has (deletingBenefits w) (benefit_id b))
  then handleDeleteBenefit confirmed reply (benefit_id b) (title b) w
  else (w, []).

End PipelineResultsViewer.

(** ** Sample data *)

Module Samples.
Import RawDataReviewApproval.

Definition source (id : string) (content : option string) (len : option Z)
    (raw : option string) (err : option string) : Source :=
  {| source_id := Some id; url := "https://bank.example/" +:+ id;
     title := None; source_type := "web"; depth := 0;
     cleaned_content := content; cleaned_content_length := len;
     raw_content := raw; fetch_error := err;
     fetch_timestamp := None; parent_url := None |}.

(** A page whose text contains five of the keywords below. *)
Definition fivePage : Source :=
  source "five" (Some "Cashback at the Lounge, Golf, Dining and Travel")
         (Some 47) None None.

Definition fiveKeywords : list string :=
  ["cashback"; "lounge"; "golf"; "dining"; "travel"].

(** A page in which a keyword only occurs inside a longer word. *)
Definition embeddedPage : Source :=
  source "embedded" (Some "Supercashback OFFER") (Some 19) None None.

(** The sources of the end-to-end scenario: three pages that were fetched
    and one document whose fetch failed. *)
Definition scenario : list Source :=
  [ source "seed" (Some "seed page") (Some 2400) None None;
    source "page1" (Some "first page") (Some 150) None None;
    source "page2" (Some "second page") (Some 101) None None;
    source "doc" None (Some 0) None (Some "timeout") ].

(** A short page, a page without recorded length and a page with only raw
    content. *)
Definition mixed : list Source :=
  [ source "short" (Some "tiny") (Some 100) None None;
    source "nolen" (Some "abcde") None None None;
    source "raw" None None (Some "raw text") None ].

Definition extraction (srcs : list Source) : ExtractionData :=
  {| ed_sources := Some srcs; primary_url := Some "https://bank.example/seed";
     primary_title := None; detected_card_name := None; detected_bank := None;
     extraction_id := Some "x1"; raw_extraction_id := None |}.

(** A wizard on its first step with a pasted text, with an uploaded
    document, with a card URL, and with a bank chosen. *)
Definition wizardWith (m : ExtractionWizard.Mode) (t : ExtractionWizard.SourceType)
    : ExtractionWizard.State :=
  {| ExtractionWizard.sess := ExtractionWizard.sess ExtractionWizard.initialState;
     ExtractionWizard.input :=
       {| ExtractionWizard.mode := m; ExtractionWizard.sourceType := t;
          ExtractionWizard.singleCardUrl := "https://bank.example/card";
          ExtractionWizard.textContent := "Annual fee waived";
          ExtractionWizard.selectedFile :=
            Some {| ExtractionWizard.file_name := "terms.pdf" |};
          ExtractionWizard.selectedBank := "bank1";
          ExtractionWizard.banks := ["bank1"] |};
     ExtractionWizard.advanced :=
       {| ExtractionWizard.showAdvanced := true;
          ExtractionWizard.processPdfs := false;
          ExtractionWizard.bypassCache := true;
          ExtractionWizard.maxDepth := 3;
          ExtractionWizard.followLinks := false;
          ExtractionWizard.usePlaywright := false |};
     ExtractionWizard.cardsSt := ExtractionWizard.cardsSt ExtractionWizard.initialState;
     ExtractionWizard.urlsSt := ExtractionWizard.urlsSt ExtractionWizard.initialState;
     ExtractionWizard.kw :=
       {| KeywordList.keywords := KeywordList.DEFAULT_KEYWORDS ++ ["zakat"];
          KeywordList.newKeyword := "" |};
     ExtractionWizard.sourcesSt :=
       ExtractionWizard.sourcesSt ExtractionWizard.initialState |}.

Definition session1 : ExtractionWizard.Session :=
  {| ExtractionWizard.session_id := "s1" |}.

(** A network on which the session is created and one card is found. *)
Definition network : ExtractionWizard.Network :=
  {| ExtractionWizard.create_reply := ExtractionWizard.CreateOk session1;
     ExtractionWizard.cards_reply :=
       ExtractionWizard.CardsOk
         (Some [{| ExtractionWizard.card_id := "c1";
                   ExtractionWizard.card_name := "Card One";
                   ExtractionWizard.is_selected := true |}]) |}.

(** What a discovery answers: web pages and documents of mixed relevance. *)
Definition discovery : ExtractionFormV2.DiscoveryResult :=
  {| ExtractionFormV2.discovered_links :=
       [ {| ExtractionFormV2.url := "https://bank.example/benefits";
            ExtractionFormV2.link_text := "Benefits";
            ExtractionFormV2.relevance := "high" |};
         {| ExtractionFormV2.url := "https://bank.example/about";
            ExtractionFormV2.link_text := "About";
            ExtractionFormV2.relevance := "low" |};
         {| ExtractionFormV2.url := "https://bank.example/offers";
            ExtractionFormV2.link_text := "Offers";
            ExtractionFormV2.relevance := "medium" |} ];
     ExtractionFormV2.pdf_links :=
       [ {| ExtractionFormV2.url := "https://bank.example/fees.pdf";
            ExtractionFormV2.link_text := "Schedule of fees";
            ExtractionFormV2.relevance := "high" |};
         {| ExtractionFormV2.url := "https://bank.example/report.pdf";
            ExtractionFormV2.link_text := "Annual report";
            ExtractionFormV2.relevance := "low" |} ] |}.

Definition formWithUrl : ExtractionFormV2.State :=
  ExtractionFormV2.update "" false None ["https://stale.example/"] 1
    {| ExtractionFormV2.inputType := "url";
       ExtractionFormV2.inputValue := " https://bank.example/card ";
       ExtractionFormV2.loading := false;
       ExtractionFormV2.discovering := false;
       ExtractionFormV2.error := "";
       ExtractionFormV2.success := false;
       ExtractionFormV2.showAdvanced := false;
       ExtractionFormV2.step := 1;
       ExtractionFormV2.discoveryResult := None;
       ExtractionFormV2.selectedUrls := [];
       ExtractionFormV2.kw := KeywordList.initialState;
       ExtractionFormV2.showKeywordStep := false;
       ExtractionFormV2.processPdfs := true;
       ExtractionFormV2.bypassCache := false;
       ExtractionFormV2.useFlexibleExtraction := true |}.

(** Three benefits of a pipeline run. *)
Definition benefit (id ttl : string) : PipelineResultsViewer.Benefit :=
  {| PipelineResultsViewer.benefit_id := id;
     PipelineResultsViewer.title := ttl;
     PipelineResultsViewer.description := "";
     PipelineResultsViewer.confidence_level := "high";
     PipelineResultsViewer.extraction_method := "hybrid";
     PipelineResultsViewer.value := None |}.

Definition viewer : PipelineResultsViewer.Viewer :=
  PipelineResultsViewer.mount
    {| PipelineResultsViewer.all_benefits :=
         [benefit "b1" "Lounge access"; benefit "b2" "Cashback";
          benefit "b3" "Golf"] |}
    (Some "raw1") true.

End Samples.

(** ** RawDataReviewApproval.jsx: the content preview of a card *)

Module ReviewPage.
Import RawDataReviewApproval.

(** [s.substring(0, n)] *)
Fixpoint substring0 (n : nat) (s : string) : string :=
  match n, s with
  | S n', String c s' => String c (substring0 n' s')
  | _, _ => EmptyString
  end.

Definition previewLimit : nat := N.to_nat 5000.

(** [source.cleaned_content?.substring(0, 5000) || 'No content available'] *)
Definition contentPreview (source : Source) : string :=
  match cleaned_content source with
  | Some c =>
      if String.eqb (substring0 previewLimit c) "" then "No content available"
      else substring0 previewLimit c
  | None => "No content available"
  end.

(** [source.cleaned_content?.length > 5000], the condition of the
    truncation note under the preview. *)
Definition truncationNote (source : Source) : bool :=
  match cleaned_content source with
  | Some c => Nat.ltb previewLimit (String.length c)
  | None => false
  end.

End ReviewPage.

(** ** PipelineExecution: the actions of the category step *)

Module PipelineSelection.
Import PipelineExecution.

Definition setCardChunks (chunks : option CardChunks) (st : State) : State :=
  {| step := step st; cardChunks := chunks;
     selectedCategories := selectedCategories st;
     selectedPipelines := selectedPipelines st |}.

Definition initialState : State :=
  {| step := 1; cardChunks := None; selectedCategories := [];
     selectedPipelines := [] |}.

(** What can happen to the two selections: the chunks of a card arrive, a
    category tile is clicked, Select All, Clear, and the add or remove
    button of a single pipeline. *)
Inductive Action :=
| ChunksLoaded (chunks : CardChunks)
| ToggleCategory (cat : string)
| SelectAll
| Clear
| TogglePipeline (p : string).

Definition act (m : gmap string (list string)) (a : Action) (st : State) : State :=
  match a with
  | ChunksLoaded chunks => setCardChunks (Some chunks) st
  | ToggleCategory cat => toggleCategoryWith m cat st
  | SelectAll => selectAllCategoriesWith m st
  | Clear => clearCategories st
  | TogglePipeline p => togglePipeline p st
  end.

Definition run (m : gmap string (list string)) (actions : list Action) : State :=
  foldl (λ st a, act m a st) initialState actions.

End PipelineSelection.

(** ** PipelineExecution: running the selected pipelines *)

Module PipelineRun.

(** A field of a record received as JSON: missing, [null], or a value. *)
Inductive JsField (A : Type) :=
| Missing
| Null
| Value (a : A).
Arguments Missing {A}.
Arguments Null {A}.
Arguments Value {A} a.

(** A stored record as listed by [approved-raw]; [None] stands for a field
    that is missing or [null]. *)
Record StoredRecord := {
  saved_id : string;
  detected_card_name : option string;
  bank_key : option string;
  detected_bank : JsField string;
  vector_indexed : bool
}.

Record Bank := { b_bank_key : option string; bank_name : option string }.
Record Card := { card_name : string; card_url : option string }.

(** [r.detected_bank === selectedBank?.bank_name]: equal values, or both
    undefined. *)
Definition sameBank (field : JsField string) (name : option string) : bool :=
  match field, name with
  | Value a, Some b => String.eqb a b
  | Missing, None => true
  | _, _ => false
  end.

(** [r.detected_card_name === cardName ||
     (r.bank_key === bankKey && r.detected_card_name?.includes(cardName))] *)
Definition matchesCard (bankKey cardName : string) (r : StoredRecord) : bool :=
  bool_decide (detected_card_name r = Some cardName) ||
  (bool_decide (bank_key r = Some bankKey) &&
   match detected_card_name r with
   | Some n => Js.includes n cardName
   | None => false
   end).

(** [r.vector_indexed &&
     (r.bank_key === bankKey || r.detected_bank === selectedBank?.bank_name)] *)
Definition matchesBank (bankKey : string) (bankName : option string)
    (r : StoredRecord) : bool :=
  vector_indexed r &&
  (bool_decide (bank_key r = Some bankKey) || sameBank (detected_bank r) bankName).

(** [arr.find(p)] *)
Fixpoint find {A} (p : A → bool) (l : list A) : option A :=
  match l with
  | [] => None
  | x :: l' => if p x then Some x else find p l'
  end.

(** [selectedBank?.bank_key || ''] *)
Definition bankKeyOf (bank : option Bank) : string :=
  match bank with
  | Some b => if Js.truthy_string (b_bank_key b) then default "" (b_bank_key b) else ""
  | None => ""
  end.

(** The record [runPipelines] runs on: the first record matching the card,
    otherwise the first vectorized record of the bank. *)
Definition matchedRecord (bank : option Bank) (card : Card)
    (records : list StoredRecord) : option StoredRecord :=
  match find (matchesCard (bankKeyOf bank) (card_name card)) records with
  | Some r => Some r
  | None => find (matchesBank (bankKeyOf bank) (bank ≫= bank_name)) records
  end.

Record State := {
  selection : PipelineExecution.State;
  selectedBank : option Bank;
  selectedCard : option Card;
  loading : bool;
  error : string;
  pipelineResults : option string
}.

(** What the list request gives: it throws, or it answers with the object
    whose [records] may be absent. *)
Inductive ListReply :=
| ListThrows (message : string)
| Listed (records : option (list StoredRecord)).

(** What the run request gives: it throws, the server refuses with an
    optional [detail], or it answers with the results. *)
Inductive RunReply :=
| RunThrows (message : string)
| RunRefused (detail : option string)
| RunOk (results : string).

Inductive Event :=
| ListRecords
| RunAll (savedId : string) (pipeline_names : list string).

Definition finish (stp : nat) (err : string) (res : option string) (st : State) : State :=
  {| selection :=
       {| PipelineExecution.step := stp;
          PipelineExecution.cardChunks := PipelineExecution.cardChunks (selection st);
          PipelineExecution.selectedCategories :=
            PipelineExecution.selectedCategories (selection st);
          PipelineExecution.selectedPipelines :=
            PipelineExecution.selectedPipelines (selection st) |};
     selectedBank := selectedBank st; selectedCard := selectedCard st;
     loading := false; error := err; pipelineResults := res |}.

Definition noRecordMessage : string :=
  "Could not find approved raw data record for this card. Ensure the data is saved and vectorized.".

Definition runPipelines (listed : ListReply) (ran : RunReply) (st : State)
    : State * list Event :=
  match selectedCard st, PipelineExecution.cardChunks (selection st) with
  | Some card, Some _ =>
      let stp := PipelineExecution.step (selection st) in
      match listed with
      | ListThrows msg => (finish stp msg None st, [ListRecords])
      | Listed records =>
          match matchedRecord (selectedBank st) card (default [] records) with
          | None => (finish stp noRecordMessage None st, [ListRecords])
          | Some r =>
              let call :=
                RunAll (saved_id r)
                       (PipelineExecution.pipeline_names (selection st)) in
              match ran with
              | RunThrows msg => (finish stp msg None st, [ListRecords; call])
              | RunRefused detail =>
                  (finish stp
                     (if Js.truthy_string detail then default "" detail
                      else "Pipeline execution failed") None st,
                   [ListRecords; call])
              | RunOk results =>
                  (finish 3 "" (Some results) st, [ListRecords; call])
              end
          end
      end
  | _, _ => (st, [])
  end.

End PipelineRun.

(** ** ExtractionWizard: the handlers after the first step *)

Module WizardFlow.
Import ExtractionWizard.

Definition setUrlsState (v : UrlsState) (st : State) : State :=
  {| sess := sess st; input := input st; advanced := advanced st;
     cardsSt := cardsSt st; urlsSt := v; kw := kw st; sourcesSt := sourcesSt st |}.

Definition setSourcesState (v : SourcesState) (st : State) : State :=
  {| sess := sess st; input := input st; advanced := advanced st;
     cardsSt := cardsSt st; urlsSt := urlsSt st; kw := kw st; sourcesSt := v |}.

Definition setSelectedCardIds (v : list string) (st : State) : State :=
  setCardsState {| cards := cards (cardsSt st); selectedCardIds := v |} st.

Definition setSelectedUrls (v : list string) (st : State) : State :=
  setUrlsState {| urls := urls (urlsSt st); selectedUrls := v;
                  urlViewMode := urlViewMode (urlsSt st) |} st.

Definition setSources (v : list FetchedSource) (st : State) : State :=
  setSourcesState {| sources := v;
                     expandedSources := expandedSources (sourcesSt st);
                     fetchStats := fetchStats (sourcesSt st);
                     saveResult := saveResult (sourcesSt st) |} st.

(** *** Selection helpers *)

(** [toggleAll(items, selected, setSelected, key)]: the selection it sets. *)
Definition toggleAll {A} (key : A → string) (items : list A) (selected : list string)
    : list string :=
  if Nat.eqb (length selected) (length items) then [] else map key items.

(** The click on a row:
    [prev.includes(x) ? prev.filter(y => y !== x) : [...prev, x]] *)
Definition toggleItem (x : string) (prev : list string) : list string :=
  if bool_decide (x ∈ prev) then filter (λ y, y ≠ x) prev else prev ++ [x].

Definition toggleAllCards (st : State) : State :=
  setSelectedCardIds
    (toggleAll card_id (cards (cardsSt st)) (selectedCardIds (cardsSt st))) st.

Definition toggleCard (id : string) (st : State) : State :=
  setSelectedCardIds (toggleItem id (selectedCardIds (cardsSt st))) st.

Definition toggleAllUrls (st : State) : State :=
  setSelectedUrls
    (toggleAll entry_url (urls (urlsSt st)) (selectedUrls (urlsSt st))) st.

Definition toggleUrl (u : string) (st : State) : State :=
  setSelectedUrls (toggleItem u (selectedUrls (urlsSt st))) st.

(** *** Requests and answers *)

Record DiscoverBody := {
  d_follow_links : bool;
  d_max_depth : Z;
  d_process_pdfs : bool;
  d_use_playwright : bool
}.

Record SelectUrlsBody := {
  selected_urls : list string;
  su_keywords : list string;
  su_process_pdfs : bool;
  su_use_playwright : bool;
  su_bypass_cache : bool
}.

Inductive FlowCall :=
| SelectCards (sid : string) (card_ids : list string)
| DiscoverUrls (sid : string) (body : DiscoverBody)
| GetUrls (sid : string)
| SelectUrls (sid : string) (body : SelectUrlsBody)
| FetchContent (sid : string) (use_playwright bypass_cache : bool)
| GetSources (sid : string)
| Approve (sid sourceId : string)
| Reject (sid sourceId : string)
| ApproveAll (sid : string)
| SaveApprovedRaw (sid : string).

Inductive FlowEvent :=
| Call (c : FlowCall)
| Step (n : nat).

(** A request throws with a message (also when its answer cannot be
    decoded), or it is answered. *)
Inductive Reply (A : Type) :=
| Throws (message : string)
| Answer (a : A).
Arguments Throws {A} message.
Arguments Answer {A} a.

(** The answer to [save-approved-raw]: for a refusal the optional [detail],
    otherwise the saved data. *)
Inductive SaveAnswer :=
| SaveRefused (detail : option string)
| Saved (data : string).

(** What the network answers to each request of these handlers, and the
    message of the [TypeError] raised by reading [session.session_id] when
    there is no session. *)
Record FlowNet := {
  select_cards_reply : Reply unit;
  discover_urls_reply : Reply unit;
  urls_reply : Reply (option (list UrlEntry));
  select_urls_reply : Reply unit;
  fetch_content_reply : Reply Z;
  sources_reply : Reply (option (list FetchedSource));
  approve_reply : Reply unit;
  reject_reply : Reply unit;
  approve_all_reply : Reply unit;
  save_reply : Reply SaveAnswer;
  type_error : string
}.

(** *** Steps 2 to 4: select cards and discover URLs *)

Definition discoverUrls (net : FlowNet) (sid : string) (st : State)
    : State * list FlowEvent :=
  let body :=
    {| d_follow_links := followLinks (advanced st);
       d_max_depth := maxDepth (advanced st);
       d_process_pdfs := processPdfs (advanced st);
       d_use_playwright := usePlaywright (advanced st) |} in
  match discover_urls_reply net with
  | Throws msg =>
      (setLoading false (handleError msg st), [Call (DiscoverUrls sid body)])
  | Answer _ =>
      match urls_reply net with
      | Throws msg =>
          (setLoading false (handleError msg st),
           [Call (DiscoverUrls sid body); Call (GetUrls sid)])
      | Answer us =>
          let found := default [] us in
          let st1 :=
            setUrlsState
              {| urls := found;
                 selectedUrls :=
                   map entry_url (filter (λ u, url_is_selected u) found);
                 urlViewMode := urlViewMode (urlsSt st) |} st in
          (setLoading false (setStep 4 st1),
           [Call (DiscoverUrls sid body); Call (GetUrls sid); Step 4])
      end
  end.

Definition selectCardsAndDiscover (net : FlowNet) (st0 : State)
    : State * list FlowEvent :=
  if bool_decide (selectedCardIds (cardsSt st0) = [])
  then (handleError "Select at least one card" st0, [])
  else
    let st := setError "" (setLoading true st0) in
    match session (sess st) with
    | None => (handleError (type_error net) st, [])
    | Some s =>
        let call := Call (SelectCards (session_id s) (selectedCardIds (cardsSt st))) in
        match select_cards_reply net with
        | Throws msg => (handleError msg st, [call])
        | Answer _ =>
            let '(st', tr) := discoverUrls net (session_id s) (setStep 3 st) in
            (st', call :: Step 3 :: tr)
        end
    end.

(** *** Step 4 to 5 *)

Definition proceedToKeywords (st : State) : State :=
  if bool_decide (selectedUrls (urlsSt st) = [])
  then setError "Select at least one URL" st
  else setStep 5 (setError "" st).

(** *** Steps 5 to 7: fetch the content *)

Definition fetchContent (net : FlowNet) (st0 : State) : State * list FlowEvent :=
  let st := setError "" (setLoading true st0) in
  match session (sess st) with
  | None => (setLoading false (handleError (type_error net) st), [])
  | Some s =>
      let sid := session_id s in
      let c1 :=
        Call (SelectUrls sid
                {| selected_urls := selectedUrls (urlsSt st);
                   su_keywords := KeywordList.keywords (kw st);
                   su_process_pdfs := processPdfs (advanced st);
                   su_use_playwright := usePlaywright (advanced st);
                   su_bypass_cache := bypassCache (advanced st) |}) in
      let c2 :=
        Call (FetchContent sid (usePlaywright (advanced st))
                (bypassCache (advanced st))) in
      let c3 := Call (GetSources sid) in
      match select_urls_reply net with
      | Throws msg => (setLoading false (handleError msg st), [c1])
      | Answer _ =>
          let st6 := setStep 6 st in
          match fetch_content_reply net with
          | Throws msg => (setLoading false (handleError msg st6), [c1; Step 6; c2])
          | Answer fetchData =>
              match sources_reply net with
              | Throws msg =>
                  (setLoading false (handleError msg st6), [c1; Step 6; c2; c3])
              | Answer srcs =>
                  let st7 :=
                    setSourcesState
                      {| sources := default [] srcs;
                         expandedSources := expandedSources (sourcesSt st6);
                         fetchStats := Some fetchData;
                         saveResult := saveResult (sourcesSt st6) |} st6 in
                  (setLoading false (setStep 7 st7),
                   [c1; Step 6; c2; c3; Step 7])
              end
          end
      end
  end.

(** *** Step 7: approve, reject, approve all and save *)

(** [prev.map(s => s.source_id === sourceId
                    ? {...s, approval_status: status} : s)] *)
Definition markSource (sourceId status : string) (l : list FetchedSource)
    : list FetchedSource :=
  map (λ s, if bool_decide (source_id s = sourceId)
            then {| source_id := source_id s; approval_status := status |}
            else s) l.

Definition approveSource (net : FlowNet) (sourceId : string) (st : State)
    : State * list FlowEvent :=
  match session (sess st) with
  | None => (setError "Failed to approve source" st, [])
  | Some s =>
      match approve_reply net with
      | Throws _ =>
          (setError "Failed to approve source" st,
           [Call (Approve (session_id s) sourceId)])
      | Answer _ =>
          (setSources (markSource sourceId "approved" (sources (sourcesSt st))) st,
           [Call (Approve (session_id s) sourceId)])
      end
  end.

Definition rejectSource (net : FlowNet) (sourceId : string) (st : State)
    : State * list FlowEvent :=
  match session (sess st) with
  | None => (setError "Failed to reject source" st, [])
  | Some s =>
      match reject_reply net with
      | Throws _ =>
          (setError "Failed to reject source" st,
           [Call (Reject (session_id s) sourceId)])
      | Answer _ =>
          (setSources (markSource sourceId "rejected" (sources (sourcesSt st))) st,
           [Call (Reject (session_id s) sourceId)])
      end
  end.

(** [prev.map(s => ({...s, approval_status: 'approved'}))] *)
Definition approveEvery (l : list FetchedSource) : list FetchedSource :=
  map (λ s, {| source_id := source_id s; approval_status := "approved" |}) l.

Definition setSaveResult (v : option string) (st : State) : State :=
  setSourcesState {| sources := sources (sourcesSt st);
                     expandedSources := expandedSources (sourcesSt st);
                     fetchStats := fetchStats (sourcesSt st);
                     saveResult := v |} st.

Definition approveAllAndSave (net : FlowNet) (st0 : State)
    : State * list FlowEvent :=
  let st := setError "" (setLoading true st0) in
  match session (sess st) with
  | None => (setLoading false (handleError (type_error net) st), [])
  | Some s =>
      let c1 := Call (ApproveAll (session_id s)) in
      let c2 := Call (SaveApprovedRaw (session_id s)) in
      match approve_all_reply net with
      | Throws msg => (setLoading false (handleError msg st), [c1])
      | Answer _ =>
          let st1 := setSources (approveEvery (sources (sourcesSt st))) st in
          match save_reply net with
          | Throws msg => (setLoading false (handleError msg st1), [c1; c2])
          | Answer (SaveRefused detail) =>
              (setLoading false
                 (handleError
                    (if Js.truthy_string detail then default "" detail
                     else "Failed to save") st1),
               [c1; c2])
          | Answer (Saved data) =>
              (setLoading false (setSaveResult (Some data) st1), [c1; c2])
          end
      end
  end.

(** The three counters of the review step. *)
Definition countStatus (status : string) (st : State) : nat :=
  length (filter (λ s, approval_status s = status) (sources (sourcesSt st))).

(** The steps a handler enters, in order, and the requests it makes. *)
Definition flowSteps (tr : list FlowEvent) : list nat :=
  omap (λ e, match e with Step n => Some n | Call _ => None end) tr.

Definition flowCalls (tr : list FlowEvent) : list FlowCall :=
  omap (λ e, match e with Call c => Some c | Step _ => None end) tr.

(** The input check of [createSession]: what the chosen mode and source
    need is absent. *)
Definition inputMissing (i : InputState) : bool :=
  match mode i with
  | single_card =>
      match sourceType i with
      | url => String.eqb (singleCardUrl i) ""
      | text => String.eqb (Js.trim (textContent i)) ""
      | pdf => match selectedFile i with None => true | Some _ => false end
      end
  | bank_wide => String.eqb (selectedBank i) ""
  end.

End WizardFlow.

(** ** ExtractionFormV2: URL selection and extraction *)

Module FormFlow.
Import ExtractionFormV2.

(** The cells the handlers below write, the other cells kept. *)
Definition withFlow (ld : bool) (err : string) (succ : bool) (stp : nat)
    (res : option DiscoveryResult) (sel : list string) (kwStep : bool)
    (st : State) : State :=
  {| inputType := inputType st; inputValue := inputValue st;
     loading := ld; discovering := discovering st; error := err;
     success := succ; showAdvanced := showAdvanced st; step := stp;
     discoveryResult := res; selectedUrls := sel; kw := kw st;
     showKeywordStep := kwStep; processPdfs := processPdfs st;
     bypassCache := bypassCache st;
     useFlexibleExtraction := useFlexibleExtraction st |}.

Definition setSelectedUrls (sel : list string) (st : State) : State :=
  withFlow (loading st) (error st) (success st) (step st) (discoveryResult st)
           sel (showKeywordStep st) st.

(** [prev.includes(url) ? prev.filter(u => u !== url) : [...prev, url]] *)
Definition toggleUrlSelection (u : string) (st : State) : State :=
  setSelectedUrls
    (if bool_decide (u ∈ selectedUrls st)
     then filter (λ v, v ≠ u) (selectedUrls st)
     else selectedUrls st ++ [u]) st.

(** [[...discoveryResult.discovered_links.map(l => l.url),
      ...discoveryResult.pdf_links.map(l => l.url)]] *)
Definition allUrls (result : DiscoveryResult) : list string :=
  map url (discovered_links result) ++ map url (pdf_links result).

Definition selectAllUrls (st : State) : State :=
  match discoveryResult st with
  | None => st
  | Some result => setSelectedUrls (allUrls result) st
  end.

Definition deselectAllUrls (st : State) : State := setSelectedUrls [] st.

(** *** The two extraction requests of services/api *)

(** The [config] argument of the API functions, as the form passes it. *)
Record Config := {
  c_processPdfs : option bool;
  c_bypassCache : option bool;
  c_keywords : option (list string)
}.

(** The body posted by [extractIntelligence(url, selectedUrls, config)];
    [None] for [keywords] is [null]. *)
Record IntelligenceBody := {
  i_url : string;
  i_selected_urls : list string;
  i_process_pdfs : bool;
  i_bypass_cache : bool;
  i_keywords : option (list string)
}.

Definition extractIntelligenceBody (u : string) (sel : list string) (c : Config)
    : IntelligenceBody :=
  {| i_url := u; i_selected_urls := sel;
     i_process_pdfs := default true (c_processPdfs c);
     i_bypass_cache := default false (c_bypassCache c);
     i_keywords := c_keywords c |}.

(** The body posted by [extractWithSelectedUrls]: the fixed defaults, the
    two flags, and the keys of [config] spread over them. *)
Record LegacyBody := {
  l_url : string;
  l_selected_urls : list string;
  l_follow_links : bool;
  l_process_pdfs : bool;
  l_bypass_cache : bool;
  l_store_raw_text : bool;
  l_processPdfs : option bool;
  l_bypassCache : option bool;
  l_keywords : option (list string)
}.

Definition extractWithSelectedUrlsBody (u : string) (sel : list string) (c : Config)
    : LegacyBody :=
  {| l_url := u; l_selected_urls := sel; l_follow_links := true;
     l_process_pdfs := default true (c_processPdfs c);
     l_bypass_cache := default false (c_bypassCache c);
     l_store_raw_text := true;
     l_processPdfs := c_processPdfs c; l_bypassCache := c_bypassCache c;
     l_keywords := c_keywords c |}.

(** *** handleExtract *)

(** The props of the form: which callbacks were given. *)
Record Props := { onResult : bool; onIntelligenceResult : bool }.

Inductive ExtractReply :=
| ExtractThrows (detail : option string) (message : option string)
| ExtractOk (result : string).

Inductive Event :=
| PostIntelligence (body : IntelligenceBody)
| PostLegacy (body : LegacyBody)
| IntelligenceResult (result : string) (keywords : list string)
| Result (result : string) (keywords : option (list string)).

(** [a || b || 'Extraction failed'] on possibly absent strings *)
Definition extractError (detail message : option string) : string :=
  if Js.truthy_string detail then default "" detail
  else if Js.truthy_string message then default "" message
  else "Extraction failed".

(** [handleExtract]: the cells as the handler leaves them and what it does
    to the outside, in order (the requests and the callbacks it calls, which
    are taken to return); [notAFunction] is the message of the [TypeError]
    raised by calling an [onResult] that was not given. A [Result] event
    carries the keywords the intelligence branch adds to its argument, and
    none on the legacy branch. *)
Definition handleExtract (props : Props) (notAFunction : string)
    (reply : ExtractReply) (st : State) : State * list Event :=
  let failed := λ succ err,
    withFlow false err succ 2 (discoveryResult st) (selectedUrls st) false st in
  let done := withFlow false "" true 1 None [] false st in
  if useFlexibleExtraction st then
    let call :=
      PostIntelligence
        (extractIntelligenceBody (inputValue st) (selectedUrls st)
           {| c_processPdfs := Some (processPdfs st);
              c_bypassCache := Some (bypassCache st);
              c_keywords := Some (KeywordList.keywords (kw st)) |}) in
    match reply with
    | ExtractThrows detail message =>
        (failed false (extractError detail message), [call])
    | ExtractOk result =>
        (done,
         call ::
         (if onIntelligenceResult props
          then [IntelligenceResult result (KeywordList.keywords (kw st))]
          else if onResult props
          then [Result result (Some (KeywordList.keywords (kw st)))]
          else []))
    end
  else
    let call :=
      PostLegacy
        (extractWithSelectedUrlsBody (inputValue st) (selectedUrls st)
           {| c_processPdfs := Some (processPdfs st);
              c_bypassCache := Some (bypassCache st);
              c_keywords := None |}) in
    match reply with
    | ExtractThrows detail message =>
        (failed false (extractError detail message), [call])
    | ExtractOk result =>
        if onResult props then (done, [call; Result result None])
        else (failed true (extractError None (Some notAFunction)), [call])
    end.

End FormFlow.

(** ** PipelineResultsViewer: the confidence and method counters *)

Module ResultsStats.
Import PipelineResultsViewer.

(** [results.quality_metrics], when the results carry it. *)
Record QualityMetrics := {
  high_confidence : option Z;
  medium_confidence : option Z;
  low_confidence : option Z
}.

(** [results.all_benefits?.filter(b => b.confidence_level === level).length || 0] *)
Definition countLevel (level : string) (r : Results) : Z :=
  Z.of_nat (length (filter (λ b, confidence_level b = level) (all_benefits r))).

(** [results.all_benefits?.filter(b => b.extraction_method === method).length || 0] *)
Definition countMethod (method : string) (r : Results) : Z :=
  Z.of_nat (length (filter (λ b, extraction_method b = method) (all_benefits r))).

(** The counters of [aggregateStats] that are computed from the benefits
    (its other fields sum the statistics of the pipeline results). *)
Record Counters := {
  highConfidence : Z;
  mediumConfidence : Z;
  lowConfidence : Z;
  llmExtracted : Z;
  patternExtracted : Z;
  hybridExtracted : Z
}.

(** The counters as first computed, then
    [stats.highConfidence = results.quality_metrics.high_confidence
                            || stats.highConfidence] and so on when
    [results.quality_metrics] is present. *)
Definition counters (r : Results) (q : option QualityMetrics) : Counters :=
  let high := countLevel "high" r in
  let medium := countLevel "medium" r in
  let low := countLevel "low" r in
  {| highConfidence :=
       match q with Some m => Js.number_or (high_confidence m) high | None => high end;
     mediumConfidence :=
       match q with Some m => Js.number_or (medium_confidence m) medium | None => medium end;
     lowConfidence :=
       match q with Some m => Js.number_or (low_confidence m) low | None => low end;
     llmExtracted := countMethod "llm" r;
     patternExtracted := countMethod "pattern" r;
     hybridExtracted := countMethod "hybrid" r |}.

End ResultsStats.

(** ** More sample data *)

Module MoreSamples.

Definition bank : PipelineRun.Bank :=
  {| PipelineRun.b_bank_key := Some "bank1";
     PipelineRun.bank_name := Some "Bank One" |}.

Definition card : PipelineRun.Card :=
  {| PipelineRun.card_name := "Duo"; PipelineRun.card_url := None |}.

Definition record (id : string) (name : option string) (key : option string)
    (indexed : bool) : PipelineRun.StoredRecord :=
  {| PipelineRun.saved_id := id; PipelineRun.detected_card_name := name;
     PipelineRun.bank_key := key; PipelineRun.detected_bank := PipelineRun.Null;
     PipelineRun.vector_indexed := indexed |}.

(** A vectorized record of the bank for another card, then the record of
    the card itself. *)
Definition records : list PipelineRun.StoredRecord :=
  [ record "r1" (Some "Platinum") (Some "bank1") true;
    record "r2" (Some "Duo") None false ].

Definition readyToRun : PipelineRun.State :=
  {| PipelineRun.selection :=
       {| PipelineExecution.step := 2;
          PipelineExecution.cardChunks :=
            Some {| PipelineExecution.total_chunks := 12;
                    PipelineExecution.category_breakdown :=
                      Some [("lounge", 7); ("general", 5)] |};
          PipelineExecution.selectedCategories := ["lounge"];
          PipelineExecution.selectedPipelines := ["lounge_access"] |};
     PipelineRun.selectedBank := Some bank;
     PipelineRun.selectedCard := Some card;
     PipelineRun.loading := false; PipelineRun.error := "";
     PipelineRun.pipelineResults := None |}.

(** A network that answers every request of the wizard. *)
Definition flowNet : WizardFlow.FlowNet :=
  {| WizardFlow.select_cards_reply := WizardFlow.Answer ();
     WizardFlow.discover_urls_reply := WizardFlow.Answer ();
     WizardFlow.urls_reply := WizardFlow.Answer None;
     WizardFlow.select_urls_reply := WizardFlow.Answer ();
     WizardFlow.fetch_content_reply := WizardFlow.Answer 3;
     WizardFlow.sources_reply := WizardFlow.Answer None;
     WizardFlow.approve_reply := WizardFlow.Answer ();
     WizardFlow.reject_reply := WizardFlow.Answer ();
     WizardFlow.approve_all_reply := WizardFlow.Answer ();
     WizardFlow.save_reply := WizardFlow.Throws "offline";
     WizardFlow.type_error := "Cannot read properties of null" |}.

Definition fetched (id status : string) : ExtractionWizard.FetchedSource :=
  {| ExtractionWizard.source_id := id;
     ExtractionWizard.approval_status := status |}.

(** The wizard on its review step, with one source of each status. *)
Definition reviewing : ExtractionWizard.State :=
  WizardFlow.setSources
    [fetched "a" "pending"; fetched "b" "rejected"; fetched "c" "approved"]
    (ExtractionWizard.setStep 7
       (ExtractionWizard.setSession (Some Samples.session1)
          (Samples.wizardWith ExtractionWizard.single_card ExtractionWizard.url))).

Definition cardOf (id : string) : ExtractionWizard.Card :=
  {| ExtractionWizard.card_id := id; ExtractionWizard.card_name := id;
     ExtractionWizard.is_selected := false |}.

End MoreSamples.

(** * Properties *)

(** ** Strings *)

Module JsFacts.
Import Js.

Lemma append_cons c s t : String c s +:+ t = String c (s +:+ t).
Proof. reflexivity. Qed.

Lemma startsWith_spec h n :
  startsWith h n = true ↔ ∃ post, h = n +:+ post.
Proof.
  revert h. induction n as [|a n IH]; intros h.
  - split; [intros _; exists h; reflexivity|intros _; destruct h; reflexivity].
  - destruct h as [|b h]; simpl.
    + split; [discriminate|]. intros [post Hp]. discriminate Hp.
    + rewrite andb_true_iff, IH, Ascii.eqb_eq. split.
      * intros [-> [post ->]]. exists post. reflexivity.
      * intros [post Hp]. rewrite append_cons in Hp. injection Hp as -> ->.
        split; [reflexivity|exists post; reflexivity].
Qed.

(** [includes] is substring containment. *)
Lemma includes_spec h n :
  includes h n = true ↔ ∃ pre post, h = pre +:+ n +:+ post.
Proof.
  induction h as [|c h IH].
  - cbn [includes]. rewrite orb_false_r, startsWith_spec. split.
    + intros [post Hp]. exists "", post. exact Hp.
    + intros [pre [post Hp]]. destruct pre as [|? ?]; [|discriminate Hp].
      exists post. exact Hp.
  - cbn [includes]. rewrite orb_true_iff, startsWith_spec, IH. split.
    + intros [[post Hp]|[pre [post Hp]]].
      * exists "", post. exact Hp.
      * exists (String c pre), post. rewrite append_cons. congruence.
    + intros [pre [post Hp]]. destruct pre as [|c' pre].
      * left. exists post. exact Hp.
      * right. rewrite append_cons in Hp. injection Hp as _ ->.
        exists pre, post. reflexivity.
Qed.

Lemma includes_empty h : includes h "" = true.
Proof. apply includes_spec. exists "", h. reflexivity. Qed.

Lemma lower_char_idemp c : lower_char (lower_char c) = lower_char c.
Proof. destruct c as [[] [] [] [] [] [] [] []]; reflexivity. Qed.

Lemma is_white_space_lower c : is_white_space (lower_char c) = is_white_space c.
Proof. destruct c as [[] [] [] [] [] [] [] []]; reflexivity. Qed.

Lemma toLowerCase_idemp s : toLowerCase (toLowerCase s) = toLowerCase s.
Proof. induction s as [|c s IH]; simpl; [reflexivity|]. by rewrite lower_char_idemp, IH. Qed.

Lemma toLowerCase_app s t : toLowerCase (s +:+ t) = toLowerCase s +:+ toLowerCase t.
Proof.
  induction s as [|c s IH]; [reflexivity|].
  rewrite append_cons. simpl. rewrite IH. reflexivity.
Qed.

Lemma trimStart_lower s : trimStart (toLowerCase s) = toLowerCase (trimStart s).
Proof.
  induction s as [|c s IH]; simpl; [reflexivity|].
  rewrite is_white_space_lower. destruct (is_white_space c); [exact IH|reflexivity].
Qed.

Lemma trimEnd_lower s : trimEnd (toLowerCase s) = toLowerCase (trimEnd s).
Proof.
  induction s as [|c s IH]; simpl; [reflexivity|].
  rewrite IH, is_white_space_lower.
  destruct (trimEnd s); simpl; [destruct (is_white_space c)|]; reflexivity.
Qed.

Lemma trim_lower s : trim (toLowerCase s) = toLowerCase (trim s).
Proof. unfold trim. by rewrite trimStart_lower, trimEnd_lower. Qed.

Lemma trimEnd_idemp s : trimEnd (trimEnd s) = trimEnd s.
Proof.
  induction s as [|c s IH]; simpl; [reflexivity|].
  destruct (trimEnd s) as [|d r] eqn:E.
  - destruct (is_white_space c) eqn:W; simpl; [reflexivity|by rewrite W].
  - cbn [trimEnd] in *. rewrite IH. reflexivity.
Qed.

Lemma trimStart_head s :
  trimStart s = "" ∨ ∃ c r, trimStart s = String c r ∧ is_white_space c = false.
Proof.
  induction s as [|c s IH]; simpl; [by left|].
  destruct (is_white_space c) eqn:W; [exact IH|]. right. by exists c, s.
Qed.

Lemma trimEnd_head c s :
  is_white_space c = false → ∃ r, trimEnd (String c s) = String c r.
Proof.
  intros W. simpl. destruct (trimEnd s); [rewrite W|]; eauto.
Qed.

Lemma trimStart_fixed c s :
  is_white_space c = false → trimStart (String c s) = String c s.
Proof. intros W. simpl. by rewrite W. Qed.

Lemma trim_idemp s : trim (trim s) = trim s.
Proof.
  unfold trim. destruct (trimStart_head s) as [->|(c & r & -> & W)]; [reflexivity|].
  destruct (trimEnd_head c r W) as [r' E]. rewrite E.
  rewrite (trimStart_fixed c r' W), <- E. apply trimEnd_idemp.
Qed.

Lemma normalize_idemp s : normalize (normalize s) = normalize s.
Proof.
  unfold normalize. by rewrite trim_lower, trim_idemp, toLowerCase_idemp.
Qed.

Lemma truthy_string_false o :
  truthy_string o = false ↔ o = None ∨ o = Some "".
Proof.
  destruct o as [s|]; simpl.
  - rewrite negb_false_iff, String.eqb_eq. naive_solver.
  - naive_solver.
Qed.

Lemma number_gt_true o k :
  number_gt o k = true ↔ ∃ n, o = Some n ∧ k < n.
Proof.
  destruct o as [n|]; simpl.
  - rewrite Z.ltb_lt. naive_solver.
  - naive_solver.
Qed.

End JsFacts.

(** ** Sets in insertion order *)

Module JsSetFacts.
Import JsSet.

Section facts.
Context {A : Type} `{EqDecision A}.
Implicit Types (s l : list A) (x y : A).

Lemma has_true s x : has s x = true ↔ x ∈ s.
Proof. unfold has. apply bool_decide_eq_true. Qed.

Lemma has_false s x : has s x = false ↔ x ∉ s.
Proof. unfold has. apply bool_decide_eq_false. Qed.

Lemma elem_of_add s x y : y ∈ add s x ↔ y ∈ s ∨ y = x.
Proof.
  unfold add. destruct (has s x) eqn:E.
  - apply has_true in E. naive_solver.
  - rewrite elem_of_app, list_elem_of_singleton. reflexivity.
Qed.

Lemma NoDup_add s x : NoDup s → NoDup (add s x).
Proof.
  intros Hs. unfold add. destruct (has s x) eqn:E; [exact Hs|].
  apply has_false in E. apply NoDup_app. split_and!; [exact Hs| |apply NoDup_singleton].
  intros y Hy ->%list_elem_of_singleton. contradiction.
Qed.

Lemma length_add_new s x : x ∉ s → length (add s x) = S (length s).
Proof.
  intros E%has_false. unfold add. rewrite E, length_app. simpl. lia.
Qed.

Lemma elem_of_delete s x y : y ∈ delete s x ↔ y ∈ s ∧ y ≠ x.
Proof. unfold delete. rewrite list_elem_of_filter. naive_solver. Qed.

Lemma NoDup_delete s x : NoDup s → NoDup (delete s x).
Proof. apply NoDup_filter. Qed.

Lemma elem_of_foldl_add l s y : y ∈ foldl add s l ↔ y ∈ s ∨ y ∈ l.
Proof.
  revert s. induction l as [|x l IH]; intros s; simpl.
  - rewrite elem_of_nil. naive_solver.
  - rewrite IH, elem_of_add, elem_of_cons. naive_solver.
Qed.

Lemma NoDup_foldl_add l s : NoDup s → NoDup (foldl add s l).
Proof.
  revert s. induction l as [|x l IH]; intros s Hs; simpl; [exact Hs|].
  apply IH, NoDup_add, Hs.
Qed.

Lemma elem_of_of_list l y : y ∈ of_list l ↔ y ∈ l.
Proof. unfold of_list. rewrite elem_of_foldl_add, elem_of_nil. naive_solver. Qed.

Lemma NoDup_of_list l : NoDup (of_list l).
Proof. apply NoDup_foldl_add, NoDup_nil_2. Qed.

Lemma elem_of_toggle s x y :
  y ∈ toggle s x → y ∈ s ∨ y = x.
Proof.
  unfold toggle. destruct (has s x).
  - rewrite elem_of_delete. naive_solver.
  - apply elem_of_add.
Qed.

Lemma NoDup_toggle s x : NoDup s → NoDup (toggle s x).
Proof.
  unfold toggle. destruct (has s x); [apply NoDup_delete|apply NoDup_add].
Qed.

End facts.
End JsSetFacts.

(** ** The approval gate *)

Module ApprovalGate.
Import RawDataReviewApproval.
Import JsFacts JsSetFacts.

Lemma elem_of_keywordMatches source content keywords kw :
  cleaned_content source = Some content →
  kw ∈ keywordMatches source keywords ↔
  kw ∈ keywords ∧ Js.includes (Js.toLowerCase content) (Js.toLowerCase kw) = true.
Proof.
  intros Hc. unfold keywordMatches. rewrite Hc, list_elem_of_filter.
  rewrite Is_true_true. naive_solver.
Qed.

Lemma keywordMatches_no_content source keywords :
  cleaned_content source = None → keywordMatches source keywords = [].
Proof. intros Hc. unfold keywordMatches. by rewrite Hc. Qed.

Example embedded_keyword_counts :
  keywordMatches Samples.embeddedPage ["CASH"; "golf"; "offer"] = ["CASH"; "offer"].
Proof. reflexivity. Qed.

(** The example of the specification: case does not matter on either side. *)
Example case_insensitive_example :
  length (keywordMatches (Samples.source "a" (Some "Cashback OFFER") None None None)
                         ["cashback"]) = 1%nat ∧
  length (keywordMatches (Samples.source "b" (Some "cashback offer") None None None)
                         ["CASHBACK"]) = 1%nat.
Proof. split; reflexivity. Qed.

Example five_keywords_matched :
  keywordMatches Samples.fivePage Samples.fiveKeywords = Samples.fiveKeywords.
Proof. reflexivity. Qed.

(** C6. Keyword matching is case-insensitive substring containment: for a
    source with text [content], a keyword of the list is among the matched
    keywords exactly when its lowercased form occurs somewhere inside the
    lowercased text (possibly in the middle of a longer word). The result is
    a function of the text and the keyword list alone, it keeps the order
    and multiplicity of the keyword list, and the empty keyword list gives
    the empty result. *)
Theorem keyword_matching_substring source content keywords :
  cleaned_content source = Some content →
  (∀ kw, kw ∈ keywordMatches source keywords ↔
         kw ∈ keywords ∧
         ∃ pre post, Js.toLowerCase content = pre +:+ Js.toLowerCase kw +:+ post) ∧
  (∀ source', cleaned_content source' = Some content →
              keywordMatches source' keywords = keywordMatches source keywords) ∧
  (∀ word pre post, word ∈ keywords →
      content = pre +:+ word +:+ post → word ∈ keywordMatches source keywords) ∧
  keywordMatches source keywords `sublist_of` keywords ∧
  keywordMatches source [] = [].
Proof.
  intros Hc. split_and!.
  - intros kw. rewrite (elem_of_keywordMatches _ _ _ _ Hc), includes_spec.
    reflexivity.
  - intros source' Hc'. unfold keywordMatches. by rewrite Hc, Hc'.
  - intros word pre post Hin ->.
    apply (elem_of_keywordMatches _ _ _ _ Hc). split; [exact Hin|].
    apply includes_spec. exists (Js.toLowerCase pre), (Js.toLowerCase post).
    by rewrite !toLowerCase_app.
  - unfold keywordMatches. rewrite Hc. apply sublist_filter.
  - unfold keywordMatches. by rewrite Hc.
Qed.

Lemma keyword_matching_substring_witness :
  cleaned_content Samples.embeddedPage = Some "Supercashback OFFER" ∧
  ("CASH" ∈ keywordMatches Samples.embeddedPage ["CASH"; "golf"] ↔
   "CASH" ∈ ["CASH"; "golf"] ∧
   ∃ pre post, Js.toLowerCase "Supercashback OFFER"
               = pre +:+ Js.toLowerCase "CASH" +:+ post).
Proof.
  split; [reflexivity|].
  apply (keyword_matching_substring Samples.embeddedPage "Supercashback OFFER"
           ["CASH"; "golf"]).
  reflexivity.
Defined.

(** C5, as the code has it. The High Relevance badge is shown exactly when
    more than five keywords matched, that is from six matches on; with five
    matches or fewer (so also with one to four) it is not shown. *)
Theorem high_relevance_above_five source keywords :
  (highRelevanceBadge source keywords = true ↔
   6 ≤ length (keywordMatches source keywords))%nat ∧
  (highRelevanceBadge source keywords = false ↔
   length (keywordMatches source keywords) ≤ 5)%nat.
Proof.
  unfold highRelevanceBadge. split.
  - rewrite Nat.ltb_lt. lia.
  - rewrite Nat.ltb_ge. lia.
Qed.

(** C5 as stated fails: a source in which exactly five keywords match
    reaches the cutoff of five and is not flagged. *)
Lemma five_matches_not_flagged :
  length (keywordMatches Samples.fivePage Samples.fiveKeywords) = 5%nat ∧
  highRelevanceBadge Samples.fivePage Samples.fiveKeywords = false.
Proof. split; reflexivity. Qed.

(** *** Auto-selection *)

Lemma autoSelectable_spec s :
  autoSelectable s = true ↔
  (fetch_error s = None ∨ fetch_error s = Some "") ∧
  ∃ n, cleaned_content_length s = Some n ∧ 100 < n.
Proof.
  unfold autoSelectable.
  rewrite andb_true_iff, negb_true_iff, truthy_string_false, number_gt_true.
  reflexivity.
Qed.

Lemma elem_of_validSources srcs i :
  i ∈ validSources srcs ↔ ∃ s, srcs !! i = Some s ∧ autoSelectable s = true.
Proof.
  unfold validSources. rewrite elem_of_of_list, list_elem_of_omap. split.
  - intros (o & Ho & Hid). simpl in Hid. subst o.
    apply elem_of_lookup_imap in Ho as (k & s & Heq & Hl).
    destruct (autoSelectable s) eqn:E; [|discriminate Heq].
    injection Heq as <-. eauto.
  - intros (s & Hl & Ha). exists (Some i). split; [|reflexivity].
    apply elem_of_lookup_imap. exists i, s. by rewrite Ha.
Qed.

Lemma NoDup_validSources srcs : NoDup (validSources srcs).
Proof. apply NoDup_of_list. Qed.

Example scenario_auto_selected :
  selectedSources
    (onExtractionData (Some (Samples.extraction Samples.scenario)) initialState)
  = [0; 1; 2]%nat.
Proof. reflexivity. Qed.

Example mixed_none_selected :
  selectedSources
    (onExtractionData (Some (Samples.extraction Samples.mixed)) initialState)
  = [].
Proof. reflexivity. Qed.

(** C1. When the fetched sources [srcs] arrive for review, the component
    shows them and the initially selected set holds exactly the positions of
    the sources that have no fetch error (the field is absent or empty) and
    whose recorded cleaned content length is greater than 100. A source
    with a fetch error, or with a length of at most 100 (or without a
    recorded length), is not selected. The Valid Only action selects by the
    same rule. *)
Theorem auto_selection_rule ed srcs st :
  ed_sources ed = Some srcs →
  let st' := onExtractionData (Some ed) st in
  sources st' = srcs ∧
  NoDup (selectedSources st') ∧
  (∀ i, i ∈ selectedSources st' ↔
        ∃ s, srcs !! i = Some s ∧
             (fetch_error s = None ∨ fetch_error s = Some "") ∧
             ∃ n, cleaned_content_length s = Some n ∧ 100 < n) ∧
  (∀ i s e, srcs !! i = Some s → fetch_error s = Some e → e ≠ "" →
            i ∉ selectedSources st') ∧
  (∀ i s, srcs !! i = Some s →
          (∀ n, cleaned_content_length s = Some n → n ≤ 100) →
          i ∉ selectedSources st') ∧
  selectedSources (handleSelectValid st') = selectedSources st' ∧
  (∀ st0 i, i ∈ selectedSources (handleSelectValid st0) ↔
        ∃ s, sources st0 !! i = Some s ∧
             (fetch_error s = None ∨ fetch_error s = Some "") ∧
             ∃ n, cleaned_content_length s = Some n ∧ 100 < n).
Proof.
  intros Hed st'. subst st'. unfold onExtractionData. rewrite Hed. simpl.
  assert (Hiff : ∀ l i, i ∈ validSources l ↔
        ∃ s, l !! i = Some s ∧
             (fetch_error s = None ∨ fetch_error s = Some "") ∧
             ∃ n, cleaned_content_length s = Some n ∧ 100 < n).
  { intros l i. rewrite elem_of_validSources.
    split; intros (s & Hl & Hs); exists s; (split; [exact Hl|]);
      by apply autoSelectable_spec. }
  split_and!.
  - reflexivity.
  - apply NoDup_validSources.
  - apply Hiff.
  - intros i s e Hl He Hne (s' & Hl' & [Hn|Hn] & _)%Hiff; congruence.
  - intros i s Hl Hle (s' & Hl' & _ & n & Hn & Hgt)%Hiff.
    assert (s' = s) as -> by congruence. specialize (Hle n Hn). lia.
  - reflexivity.
  - intros st0 i. apply Hiff.
Qed.

Lemma auto_selection_rule_witness :
  ed_sources (Samples.extraction Samples.scenario) = Some Samples.scenario ∧
  selectedSources
    (onExtractionData (Some (Samples.extraction Samples.scenario)) initialState)
  = [0; 1; 2]%nat ∧
  (3%nat ∉ selectedSources
     (onExtractionData (Some (Samples.extraction Samples.scenario)) initialState)).
Proof.
  split; [reflexivity|]. split; [reflexivity|].
  pose proof (auto_selection_rule (Samples.extraction Samples.scenario)
                Samples.scenario initialState eq_refl) as H.
  destruct H as (_ & _ & _ & Herr & _).
  apply (Herr 3%nat (Samples.source "doc" None (Some 0) None (Some "timeout"))
              "timeout"); [reflexivity|reflexivity|discriminate].
Defined.

(** *** Reachable states keep a well-formed selection *)

Lemma findIndex_lt {A} (p : A → bool) (l : list A) i :
  findIndex p l = Some i → (i < length l)%nat.
Proof.
  revert i. induction l as [|x l IH]; intros i; simpl; [discriminate|].
  destruct (p x).
  - intros [= <-]. lia.
  - destruct (findIndex p l) as [j|]; simpl; [|discriminate].
    intros [= <-]. specialize (IH j eq_refl). lia.
Qed.

Lemma elem_of_indices {A} (l : list A) i :
  i ∈ JsSet.of_list (imap (λ i _, i) l) → (i < length l)%nat.
Proof.
  rewrite elem_of_of_list. intros (k & x & -> & Hk)%elem_of_lookup_imap.
  by apply lookup_lt_Some in Hk.
Qed.

Lemma toggle_wf i st :
  (i < length (sources st))%nat → selection_wf st →
  selection_wf (handleToggleSelect i st).
Proof.
  intros Hi [Hnd Hlt]. split; simpl.
  - by apply NoDup_toggle.
  - intros j [Hj| ->]%elem_of_toggle; [by apply Hlt|exact Hi].
Qed.

Lemma act_wf a st : selection_wf st → selection_wf (act a st).
Proof.
  intros Hwf. destruct a as [ed|source|source| | | | | |q|t|b]; simpl;
    try exact Hwf.
  - unfold onExtractionData. destruct ed as [d|]; [|exact Hwf].
    destruct (ed_sources d) as [srcs|]; [|exact Hwf]. split; simpl.
    + apply NoDup_validSources.
    + intros i (s & Hs & _)%elem_of_validSources. by apply lookup_lt_Some in Hs.
  - destruct (bool_decide _); [|exact Hwf].
    destruct (actualIndex st source) as [i|] eqn:E; [|exact Hwf].
    apply toggle_wf; [|exact Hwf]. by apply findIndex_lt in E.
  - destruct (bool_decide _); [|exact Hwf].
    destruct (actualIndex st source); exact Hwf.
  - split; simpl; [apply NoDup_of_list|apply elem_of_indices].
  - split; simpl; [apply NoDup_nil_2|]. intros i Hi. by apply elem_of_nil in Hi.
  - split; simpl.
    + apply NoDup_validSources.
    + intros i (s & Hs & _)%elem_of_validSources. by apply lookup_lt_Some in Hs.
Qed.

Lemma run_selection_wf actions : selection_wf (run actions).
Proof.
  unfold run. induction actions as [|a actions IH] using rev_ind.
  - split; simpl; [apply NoDup_nil_2|]. intros i Hi. by apply elem_of_nil in Hi.
  - rewrite foldl_app. simpl. by apply act_wf.
Qed.

(** *** Filtering by position and summing *)

Lemma sumZ_perm (l k : list Z) : l ≡ₚ k → Js.sumZ l = Js.sumZ k.
Proof.
  induction 1 as [|x l k _ IH|x y l|l k m _ IH1 _ IH2];
    unfold Js.sumZ in *; simpl; lia.
Qed.

Lemma reduce_sum_sumZ {A} (f : A → Z) (l : list A) :
  Js.reduce_sum f l = Js.sumZ (f <$> l).
Proof.
  unfold Js.reduce_sum, Js.sumZ.
  assert (H : ∀ a, foldl (λ sum x, sum + f x) a l = a + foldr Z.add 0 (f <$> l)).
  { induction l as [|x l IH]; intros a; cbn [foldl foldr fmap list_fmap];
      [lia|]. rewrite IH. lia. }
  rewrite H. lia.
Qed.

Section by_position.
Context {A : Type} (sel : list nat).

Lemma filter_from_sum (f : A → Z) (g : nat → option A) k (l : list A) :
  (∀ j, (j < length l)%nat → g (k + j)%nat = l !! j) →
  Js.sumZ (f <$> Js.filter_from (λ _ i, JsSet.has sel i) k l) =
  Js.sumZ ((λ i, from_option f 0 (g i)) <$> filter (.∈ sel) (seq k (length l))).
Proof.
  revert k. induction l as [|x l IH]; intros k Hg; [reflexivity|].
  cbn [Js.filter_from length seq].
  assert (Hx : g k = Some x).
  { rewrite <- (Nat.add_0_r k). apply (Hg 0%nat). simpl. lia. }
  assert (Hg' : ∀ j, (j < length l)%nat → g (S k + j)%nat = l !! j).
  { intros j Hj. replace (S k + j)%nat with (k + S j)%nat by lia.
    apply (Hg (S j)). simpl. lia. }
  rewrite filter_cons. destruct (JsSet.has sel k) eqn:E.
  - apply has_true in E. rewrite decide_True by exact E.
    rewrite !fmap_cons. unfold Js.sumZ in *. cbn [foldr].
    rewrite (IH (S k) Hg'), Hx. reflexivity.
  - apply has_false in E. rewrite decide_False by exact E. apply (IH (S k) Hg').
Qed.

Lemma filter_from_length k (l : list A) :
  length (Js.filter_from (λ _ i, JsSet.has sel i) k l) =
  length (filter (.∈ sel) (seq k (length l))).
Proof.
  revert k. induction l as [|x l IH]; intros k; [reflexivity|].
  cbn [Js.filter_from length seq]. rewrite filter_cons.
  destruct (JsSet.has sel k) eqn:E.
  - apply has_true in E. rewrite decide_True by exact E. simpl. by rewrite IH.
  - apply has_false in E. rewrite decide_False by exact E. apply IH.
Qed.

Lemma elem_of_filter_from k (l : list A) x :
  x ∈ Js.filter_from (λ _ i, JsSet.has sel i) k l →
  ∃ j, l !! j = Some x ∧ (k + j)%nat ∈ sel.
Proof.
  revert k. induction l as [|y l IH]; intros k; cbn [Js.filter_from].
  - intros H. by apply elem_of_nil in H.
  - assert (Htl : x ∈ Js.filter_from (λ _ i, JsSet.has sel i) (S k) l →
                  ∃ j, (y :: l) !! j = Some x ∧ (k + j)%nat ∈ sel).
    { intros (j & Hj & Hs)%IH. exists (S j). split; [exact Hj|].
      by replace (k + S j)%nat with (S k + j)%nat by lia. }
    destruct (JsSet.has sel k) eqn:E; [|exact Htl].
    intros [->|H]%elem_of_cons; [|by apply Htl].
    exists 0%nat. split; [reflexivity|]. rewrite Nat.add_0_r. by apply has_true.
Qed.

Lemma selected_positions n :
  NoDup sel → (∀ i, i ∈ sel → (i < n)%nat) →
  filter (.∈ sel) (seq 0 n) ≡ₚ sel.
Proof.
  intros Hnd Hlt. apply NoDup_Permutation; [|exact Hnd|].
  - apply NoDup_filter, NoDup_seq.
  - intros i. rewrite list_elem_of_filter, elem_of_seq. split; [tauto|].
    intros Hi. specialize (Hlt i Hi). split; [exact Hi|lia].
Qed.

End by_position.

Lemma approvedLength_checksum stamp s :
  approvedLength (approveSource stamp s) = checksumLength s.
Proof.
  unfold approvedLength, approveSource, checksumLength, recordedLength,
    or_num, Js.number_or, Js.length_or_zero, textLength. simpl.
  assert (Hlen : ∀ c : string, String.eqb c "" = true → Z.of_nat (String.length c) = 0).
  { intros c ->%String.eqb_eq. reflexivity. }
  destruct (cleaned_content_length s) as [n|];
    destruct (cleaned_content s) as [c|];
    destruct (raw_content s) as [r|];
    repeat match goal with
    | |- context [String.eqb ?c ""] =>
        let E := fresh "E" in
        destruct (String.eqb c "") eqn:E; [rewrite ?(Hlen c E)|]
    | |- context [?a =? 0] =>
        let E := fresh "E" in
        destruct (a =? 0) eqn:E;
        [apply Z.eqb_eq in E; try rewrite E in * |apply Z.eqb_neq in E]
    end; simpl; try reflexivity; try lia; try congruence.
Qed.

Example mixed_checksum :
  total_content_length <$>
    (handleApprove (λ _, "t") (Some (Samples.extraction Samples.mixed)) []
       (handleSelectAll
          (onExtractionData (Some (Samples.extraction Samples.mixed)) initialState))).2
  = Some 113.
Proof. reflexivity. Qed.

(** C3. In every state the component can reach, approving hands over a
    record whose [total_sources] is the number of selected sources, whose
    [sources] are the selected sources (each with its fields kept, its length
    filled in and marked approved), and whose [total_content_length] is the
    sum over the selected sources of the cleaned content length, falling back
    to the raw content length when the cleaned length is absent. *)
Theorem approval_checksum clock ed keywords actions :
  let st := run actions in
  ∃ r, (handleApprove clock (Some ed) keywords st).2 = Some r ∧
       total_sources r = selectedCount st ∧
       length (ad_sources r) = total_sources r ∧
       total_content_length r =
         Js.sumZ ((λ i, from_option checksumLength 0 (sources st !! i))
                    <$> selectedSources st) ∧
       Forall (λ a, approved a = true) (ad_sources r) ∧
       Forall (λ a, ∃ i s, i ∈ selectedSources st ∧ sources st !! i = Some s ∧
                           url (base a) = url s ∧
                           cleaned_content (base a) = cleaned_content s ∧
                           fetch_error (base a) = fetch_error s)
              (ad_sources r).
Proof.
  intros st. destruct (run_selection_wf actions) as [Hnd Hlt]. fold st in Hnd, Hlt.
  eexists. split; [reflexivity|]. cbn [total_sources ad_sources total_content_length].
  assert (Hlen : length (approvedSources clock st) = selectedCount st).
  { unfold approvedSources, Js.filteri, selectedCount, JsSet.size.
    rewrite length_imap, filter_from_length.
    apply Permutation_length, selected_positions; assumption. }
  split_and!.
  - exact Hlen.
  - reflexivity.
  - rewrite reduce_sum_sumZ. unfold approvedSources, Js.filteri.
    rewrite fmap_imap.
    rewrite (imap_ext _ (λ _, checksumLength))
      by (intros; simpl; apply approvedLength_checksum).
    rewrite (imap_const checksumLength).
    rewrite (filter_from_sum _ checksumLength (λ i, sources st !! i) 0)
      by (intros; reflexivity).
    apply sumZ_perm, fmap_Permutation, selected_positions; assumption.
  - apply Forall_forall. intros a (k & s & -> & _)%elem_of_lookup_imap.
    reflexivity.
  - apply Forall_forall. intros a (k & s & -> & Hk)%elem_of_lookup_imap.
    apply list_elem_of_lookup_2, elem_of_filter_from in Hk as (j & Hj & Hs).
    exists j, s. split_and!; try reflexivity; assumption.
Qed.

End ApprovalGate.

(** ** The category to pipeline dispatcher *)

Module Dispatcher.
Import PipelineExecution.
Import JsSetFacts.





Example default_dispatch :
  pipeline_names
    (toggleCategory "general"
       (toggleCategory "lounge"
          (toggleCategory "cashback"
             {| step := 2; cardChunks := None; selectedCategories := [];
                selectedPipelines := [] |})))
  = ["cashback"; "lounge_access"].
Proof. vm_compute. reflexivity. Qed.

(** With a table in which two categories share a pipeline, selecting both
    dispatches the shared pipeline once. *)
Example shared_pipeline_once :
  mappedPipelines
    (list_to_map [("lounge", ["travel_benefits"; "lounge_access"]);
                  ("travel", ["travel_benefits"])])
    ["lounge"; "travel"]
  = ["travel_benefits"; "lounge_access"].
Proof. vm_compute. reflexivity. Qed.



End Dispatcher.

(** ** The extraction wizard *)

Module Wizard.
Import ExtractionWizard.

Example text_seed_trace :
  (createSession Samples.network (Samples.wizardWith single_card text)).2
  = [ Request (PostSessions
                 {| body_mode := single_card;
                    options := {| process_pdfs := false; bypass_cache := true;
                                  max_depth := 3; follow_links := false;
                                  use_playwright := false |};
                    single_card_url := None;
                    text_content := Some "Annual fee waived";
                    source_type := Some "text"; bank_key := None |});
      SetSession Samples.session1; SetStep 4 ].
Proof. reflexivity. Qed.

Example url_seed_steps :
  stepsEntered (createSession Samples.network (Samples.wizardWith single_card url)).2
  = [2%nat].
Proof. reflexivity. Qed.

Ltac trace_cases :=
  repeat match goal with
  | H : _ ∈ [] |- _ => apply elem_of_nil in H; destruct H
  | H : _ ∈ _ :: _ |- _ => apply elem_of_cons in H as [H|H]; try discriminate H
  | H : SetSession _ = SetSession _ |- _ => injection H as H; subst
  end.

Ltac not_in_trace :=
  let H := fresh in intros H; trace_cases.

(** C4. Whenever [createSession] creates a session: for a single-card text
    or PDF seed the wizard enters step 4 (URL selection) and no other step,
    sends no card request, and the Back button of step 4 leads to step 1,
    not to the card step; for a URL or bank seed the first thing done with
    the new session is the card discovery request, step 4 is not entered,
    and the card step (2) is entered once the cards have arrived. *)
Theorem single_document_skips_cards net st data :
  SetSession data ∈ (createSession net st).2 →
  let st' := (createSession net st).1 in
  let tr := (createSession net st).2 in
  session (sess st') = Some data ∧
  (mode (input st) = single_card → sourceType (input st) ≠ url →
     step (sess st') = 4%nat ∧
     stepsEntered tr = [4%nat] ∧
     filter isCardRequest tr = [] ∧
     step (sess (backFromUrls st')) = 1%nat) ∧
  (mode (input st) = bank_wide ∨ sourceType (input st) = url →
     (∃ req, take 3 tr = [Request req; SetSession data;
                          Request (PostDiscoverCards (session_id data))]) ∧
     (4%nat ∉ stepsEntered tr) ∧
     (stepsEntered tr = [] ∨ stepsEntered tr = [2%nat]) ∧
     (∀ cs, cards_reply net = CardsOk cs →
            step (sess st') = 2%nat ∧ stepsEntered tr = [2%nat])).
Proof.
  intros Hin st' tr. subst st' tr. revert Hin.
  unfold createSession, afterCreate, discoverCards.
  destruct st as [ss [m t u tc f b bs] adv cs us k so]. cbn [input mode sourceType
    singleCardUrl textContent selectedFile selectedBank setError setLoading withSess].
  destruct m, t; cbn [input mode sourceType singleCardUrl textContent
                      selectedFile selectedBank];
    repeat match goal with
    | |- context [if String.eqb ?a ?b then _ else _] => destruct (String.eqb a b)
    | |- context [match f with _ => _ end] => destruct f
    | |- context [match create_reply net with _ => _ end] =>
        destruct (create_reply net)
    | |- context [match cards_reply net with _ => _ end] =>
        destruct (cards_reply net)
    end; cbn; intros Hin; trace_cases;
    (split; [reflexivity|]);
    (split; [intros Hm Ht; try discriminate Hm; try (by destruct Ht);
             repeat split; reflexivity
            |intros Hor;
             try (destruct Hor as [Hor|Hor]; discriminate Hor);
             (split; [eexists; reflexivity|]);
             (split; [not_in_trace|]);
             (split; [first [by left|by right]|]);
             intros ? Hcs; try discriminate Hcs; by split]).
Qed.

Lemma single_document_skips_cards_witness :
  SetSession Samples.session1 ∈
    (createSession Samples.network (Samples.wizardWith single_card text)).2 ∧
  step (sess (createSession Samples.network
                (Samples.wizardWith single_card text)).1) = 4%nat.
Proof.
  assert (H : SetSession Samples.session1 ∈
    (createSession Samples.network (Samples.wizardWith single_card text)).2).
  { apply list_elem_of_further, list_elem_of_here. }
  split; [exact H|].
  destruct (single_document_skips_cards Samples.network
              (Samples.wizardWith single_card text) Samples.session1 H)
    as (_ & Hdoc & _).
  apply Hdoc; [reflexivity|discriminate].
Defined.

Lemma reset_keywords st : kw (reset st) = KeywordList.resetKeywords (kw st).
Proof. reflexivity. Qed.

(** C8, as the code has it. Reset discards the session, the cards, the
    URLs, the sources, the fetch statistics, the save result, the error and
    the URL, text and file inputs, and returns to step 1. The advanced
    options (max depth, follow-links, cache-bypass, process-documents and
    the scraper choice) are retained unchanged, as are the mode, the source
    type and the selected bank. The keyword list is not retained: it is set
    back to the default keywords. *)
Theorem reset_retains_options st :
  let st' := reset st in
  (session (sess st') = None ∧ step (sess st') = 1%nat ∧ error (sess st') = "") ∧
  (cards (cardsSt st') = [] ∧ selectedCardIds (cardsSt st') = []) ∧
  (urls (urlsSt st') = [] ∧ selectedUrls (urlsSt st') = []) ∧
  (sources (sourcesSt st') = [] ∧ fetchStats (sourcesSt st') = None ∧
   saveResult (sourcesSt st') = None) ∧
  (singleCardUrl (input st') = "" ∧ textContent (input st') = "" ∧
   selectedFile (input st') = None) ∧
  (maxDepth (advanced st') = maxDepth (advanced st) ∧
   followLinks (advanced st') = followLinks (advanced st) ∧
   bypassCache (advanced st') = bypassCache (advanced st) ∧
   processPdfs (advanced st') = processPdfs (advanced st) ∧
   usePlaywright (advanced st') = usePlaywright (advanced st)) ∧
  (mode (input st') = mode (input st) ∧
   sourceType (input st') = sourceType (input st) ∧
   selectedBank (input st') = selectedBank (input st)) ∧
  KeywordList.keywords (kw st') = KeywordList.DEFAULT_KEYWORDS.
Proof. repeat split; reflexivity. Qed.

Example reset_keeps_sample_options :
  advanced (reset (Samples.wizardWith single_card text))
  = advanced (Samples.wizardWith single_card text).
Proof. reflexivity. Qed.

(** C8 as stated fails for the keyword set: a wizard whose keyword list has
    a keyword of the user's loses it on reset. *)
Lemma reset_drops_custom_keywords :
  "zakat" ∈ KeywordList.keywords (kw (Samples.wizardWith single_card url)) ∧
  ("zakat" ∉ KeywordList.keywords (kw (reset (Samples.wizardWith single_card url)))) ∧
  KeywordList.keywords (kw (reset (Samples.wizardWith single_card url)))
  ≠ KeywordList.keywords (kw (Samples.wizardWith single_card url)).
Proof.
  split_and!.
  - apply (bool_decide_unpack _). vm_compute. exact I.
  - apply (bool_decide_unpack _). vm_compute. exact I.
  - intros H. apply (f_equal length) in H. vm_compute in H. discriminate H.
Qed.

End Wizard.

(** ** The keyword list *)

Module Keywords.
Import KeywordList.
Import JsFacts.

Lemma default_wf : wf initialState.
Proof.
  split.
  - apply (bool_decide_unpack _). vm_compute. exact I.
  - apply (bool_decide_unpack _). vm_compute. exact I.
Qed.

Lemma normalize_empty s : Js.trim s = "" → Js.normalize s = "".
Proof. unfold Js.normalize. by intros ->. Qed.

Lemma addKeyword_keywords st :
  keywords (addKeyword st) =
  if decide (Js.normalize (newKeyword st) ≠ "" ∧
             Js.normalize (newKeyword st) ∉ keywords st)
  then keywords st ++ [Js.normalize (newKeyword st)] else keywords st.
Proof.
  unfold addKeyword.
  destruct (String.eqb (Js.normalize (newKeyword st)) "") eqn:E; simpl.
  - apply String.eqb_eq in E. rewrite decide_False; [reflexivity|tauto].
  - apply String.eqb_neq in E.
    destruct (bool_decide _) eqn:B; simpl.
    + apply bool_decide_eq_true in B. rewrite decide_False; [reflexivity|tauto].
    + apply bool_decide_eq_false in B. rewrite decide_True; [reflexivity|tauto].
Qed.

Lemma addKeyword_wf st : wf st → wf (addKeyword st).
Proof.
  intros [Hnd Hst]. unfold wf. rewrite addKeyword_keywords.
  case_decide as Hc; [|by split]. destruct Hc as [Hne Hnew]. split.
  - apply NoDup_app. split_and!; [exact Hnd| |apply NoDup_singleton].
    intros k Hk ->%list_elem_of_singleton. contradiction.
  - apply Forall_app. split; [exact Hst|].
    apply Forall_singleton. split; [apply normalize_idemp|exact Hne].
Qed.

Lemma removeKeyword_wf k st : wf st → wf (removeKeyword k st).
Proof.
  intros [Hnd Hst]. split; simpl.
  - by apply NoDup_filter.
  - rewrite Forall_forall in *. intros x [_ Hx]%list_elem_of_filter. by apply Hst.
Qed.

Lemma apply_wf op st : wf st → wf (apply op st).
Proof.
  intros Hwf. destruct op as [text| |k|]; simpl.
  - exact Hwf.
  - by apply addKeyword_wf.
  - by apply removeKeyword_wf.
  - apply default_wf.
Qed.

Lemma run_keywords_wf ops : wf (run ops).
Proof.
  unfold run. induction ops as [|op ops IH] using rev_ind.
  - apply default_wf.
  - rewrite foldl_app. simpl. by apply apply_wf.
Qed.

(** The wizard and the V2 form run these handlers on their keyword cells,
    and the wizard's [reset] does to the list what [resetKeywords] does. *)
Lemma components_share_handlers (w : ExtractionWizard.State) (f : ExtractionFormV2.State) k :
  ExtractionWizard.kw (ExtractionWizard.addKeyword w) = addKeyword (ExtractionWizard.kw w) ∧
  ExtractionWizard.kw (ExtractionWizard.removeKeyword k w) = removeKeyword k (ExtractionWizard.kw w) ∧
  ExtractionWizard.kw (ExtractionWizard.resetKeywords w) = resetKeywords (ExtractionWizard.kw w) ∧
  ExtractionWizard.kw (ExtractionWizard.reset w) = resetKeywords (ExtractionWizard.kw w) ∧
  ExtractionFormV2.kw (ExtractionFormV2.addKeyword f) = addKeyword (ExtractionFormV2.kw f) ∧
  ExtractionFormV2.kw (ExtractionFormV2.removeKeyword k f) = removeKeyword k (ExtractionFormV2.kw f) ∧
  ExtractionFormV2.kw (ExtractionFormV2.resetKeywords f) = resetKeywords (ExtractionFormV2.kw f).
Proof. repeat split; reflexivity. Qed.

Example add_trims_and_lowercases :
  keywords (run [Type_ "  Zakat Fund "; Add; Type_ "CASHBACK"; Add; Type_ "   "; Add])
  = DEFAULT_KEYWORDS ++ ["zakat fund"].
Proof. vm_compute. reflexivity. Qed.

(** C9. After any sequence of typing, add, remove and reset operations
    the keyword list has no duplicate entry, and every entry is trimmed,
    lowercase and non-empty. Adding the text [raw] appends its trimmed and
    lowercased form when that form is non-empty and not yet in the list;
    adding the empty string, a blank string, or a keyword that is already in
    the list (as typed or in its stored form) leaves the list unchanged.
    Removing a keyword leaves a list without it. *)
Theorem keyword_list_invariant ops :
  let st := run ops in
  NoDup (keywords st) ∧
  Forall stored (keywords st) ∧
  (∀ raw,
     let added := addKeyword (setNewKeyword raw st) in
     NoDup (keywords added) ∧
     (Js.toLowerCase (Js.trim raw) ≠ "" →
      Js.toLowerCase (Js.trim raw) ∉ keywords st →
      keywords added = keywords st ++ [Js.toLowerCase (Js.trim raw)]) ∧
     (raw = "" ∨ Js.trim raw = "" ∨ raw ∈ keywords st ∨
      Js.toLowerCase (Js.trim raw) ∈ keywords st →
      keywords added = keywords st)) ∧
  (∀ k, (k ∉ keywords (removeKeyword k st)) ∧
        NoDup (keywords (removeKeyword k st))) ∧
  keywords (resetKeywords st) = DEFAULT_KEYWORDS ∧
  NoDup DEFAULT_KEYWORDS.
Proof.
  intros st. destruct (run_keywords_wf ops) as [Hnd Hst]. fold st in Hnd, Hst.
  split_and!.
  - exact Hnd.
  - exact Hst.
  - intros raw added. subst added. split_and!.
    + apply (addKeyword_wf (setNewKeyword raw st)). by split.
    + intros Hne Hnew. rewrite addKeyword_keywords. simpl.
      rewrite decide_True; [reflexivity|by split].
    + intros Hcase. rewrite addKeyword_keywords. simpl.
      rewrite decide_False; [reflexivity|]. intros [Hne Hnew].
      destruct Hcase as [->|[Ht|[Hin|Hin]]].
      * by apply Hne.
      * by apply Hne, normalize_empty.
      * apply Hnew. rewrite Forall_forall in Hst.
        destruct (Hst raw Hin) as [-> _]. exact Hin.
      * by apply Hnew.
  - intros k. split.
    + simpl. rewrite list_elem_of_filter. tauto.
    + simpl. by apply NoDup_filter.
  - reflexivity.
  - apply default_wf.
Qed.

End Keywords.

(** ** URL discovery in the V2 form *)

Module Discovery.
Import ExtractionFormV2.

Lemma elem_of_highRelevance result u :
  u ∈ highRelevance result ↔
  ∃ l, l ∈ discovered_links result ++ pdf_links result ∧
       url l = u ∧ relevance l = "high".
Proof.
  unfold highRelevance.
  rewrite elem_of_app, !list_elem_of_fmap. split.
  - intros [(l & -> & [Hr Hl]%list_elem_of_filter)|(l & -> & [Hr Hl]%list_elem_of_filter)];
      exists l; rewrite elem_of_app; auto.
  - intros (l & [Hl|Hl]%elem_of_app & <- & Hr); [left|right];
      exists l; rewrite list_elem_of_filter; auto.
Qed.

Example discovery_selects_high :
  selectedUrls (handleDiscover (DiscoverOk Samples.discovery) Samples.formWithUrl)
  = ["https://bank.example/benefits"; "https://bank.example/fees.pdf"].
Proof. reflexivity. Qed.

(** C10. When the discovery of a non-blank URL succeeds with [result],
    the form moves to step 2 and the selected URLs are exactly the URLs of
    the links of relevance [high], first those of the discovered web pages
    and then those of the discovered documents; the selection made before is
    replaced. A link of high relevance is shown selected; a link of another
    relevance (medium, low or anything else) is shown unselected, unless its
    URL is also the URL of a high-relevance link. *)
Theorem discovery_auto_selects_high result st :
  Js.trim (inputValue st) ≠ "" →
  let st' := handleDiscover (DiscoverOk result) st in
  step st' = 2%nat ∧
  discoveryResult st' = Some result ∧
  selectedUrls st' =
    (url <$> filter (λ l, relevance l = "high") (discovered_links result)) ++
    (url <$> filter (λ l, relevance l = "high") (pdf_links result)) ∧
  (∀ u, u ∈ selectedUrls st' ↔
        ∃ l, l ∈ discovered_links result ++ pdf_links result ∧
             url l = u ∧ relevance l = "high") ∧
  (∀ l, l ∈ discovered_links result ++ pdf_links result →
        relevance l = "high" → isSelected st' l = true) ∧
  (∀ l, l ∈ discovered_links result ++ pdf_links result →
        (∀ l', l' ∈ discovered_links result ++ pdf_links result →
               url l' = url l → relevance l' ≠ "high") →
        isSelected st' l = false).
Proof.
  intros Hne st'. subst st'. unfold handleDiscover.
  destruct (String.eqb (Js.trim (inputValue st)) "") eqn:E.
  { by apply String.eqb_eq in E. }
  cbn [update step discoveryResult selectedUrls]. split_and!; try reflexivity.
  - apply elem_of_highRelevance.
  - intros l Hl Hr. unfold isSelected. cbn [update selectedUrls].
    apply bool_decide_eq_true, elem_of_highRelevance. by exists l.
  - intros l Hl Hno. unfold isSelected. cbn [update selectedUrls].
    apply bool_decide_eq_false. intros (l' & Hl' & Hu & Hr)%elem_of_highRelevance.
    by apply (Hno l' Hl' Hu).
Qed.

Lemma discovery_auto_selects_high_witness :
  Js.trim (inputValue Samples.formWithUrl) ≠ "" ∧
  selectedUrls (handleDiscover (DiscoverOk Samples.discovery) Samples.formWithUrl)
  = ["https://bank.example/benefits"; "https://bank.example/fees.pdf"].
Proof.
  assert (H : Js.trim (inputValue Samples.formWithUrl) ≠ "") by discriminate.
  split; [exact H|].
  destruct (discovery_auto_selects_high Samples.discovery Samples.formWithUrl H)
    as (_ & _ & -> & _).
  reflexivity.
Defined.

End Discovery.

(** ** Deleting a benefit *)

Module BenefitDeletion.
Import PipelineResultsViewer.
Import JsSetFacts.

Lemma visible_not_deleted b w :
  b ∈ visibleBenefits w → benefit_id b ∉ deletedBenefits w.
Proof.
  unfold visibleBenefits. rewrite list_elem_of_filter.
  intros [Hb _]. apply Is_true_true, negb_true_iff in Hb. by apply has_false.
Qed.

Lemma filter_all {A} (P : A → Prop) `{∀ x, Decision (P x)} (l : list A) :
  Forall P l → filter P l = l.
Proof.
  induction 1 as [|x l Hx _ IH]; [reflexivity|].
  by rewrite filter_cons_True, IH.
Qed.

Lemma visible_after_add id w :
  filter (λ b, negb (JsSet.has (JsSet.add (deletedBenefits w) id) (benefit_id b)))
         (all_benefits (results w))
  = filter (λ b, benefit_id b ≠ id) (visibleBenefits w).
Proof.
  unfold visibleBenefits. rewrite list_filter_filter. apply list_filter_iff.
  intros b. rewrite !Is_true_true, !negb_true_iff, !has_false, elem_of_add.
  tauto.
Qed.

Lemma delete_ok_state id ttl w :
  Js.truthy_string (rawDataId w) = true →
  let w' := (handleDeleteBenefit true DeleteOk id ttl w).1 in
  results w' = results w ∧
  deletedBenefits w' = JsSet.add (deletedBenefits w) id ∧
  (handleDeleteBenefit true DeleteOk id ttl w).2 =
    [Confirm ttl; DeleteRequest (default "" (rawDataId w)) id] ++
    (if onBenefitDeleted w then [BenefitDeleted id] else []).
Proof.
  intros Hraw. unfold handleDeleteBenefit. rewrite Hraw. split_and!; reflexivity.
Qed.

(** A deletion that is declined, that fails, or for which no raw data id
    is known leaves the deleted set, and with it the visible list and the
    badge, as they were. *)
Lemma no_deletion_no_change confirmed reply id ttl w :
  confirmed = false ∨ (∃ msg, reply = DeleteThrows msg) ∨
  Js.truthy_string (rawDataId w) = false →
  let w' := (handleDeleteBenefit confirmed reply id ttl w).1 in
  results w' = results w ∧ deletedBenefits w' = deletedBenefits w ∧
  visibleBenefits w' = visibleBenefits w ∧ badge w' = badge w.
Proof.
  intros Hcase. unfold handleDeleteBenefit.
  destruct (Js.truthy_string (rawDataId w)) eqn:Hraw; simpl; [|by repeat split].
  destruct confirmed; simpl; [|by repeat split].
  destruct Hcase as [Hc|[[msg ->]|Hc]]; try discriminate Hc.
  by repeat split.
Qed.

Example delete_second_of_three :
  title <$> visibleBenefits
    (handleDeleteBenefit true DeleteOk "b2" "Cashback" Samples.viewer).1
  = ["Lounge access"; "Golf"] ∧
  badge (handleDeleteBenefit true DeleteOk "b2" "Cashback" Samples.viewer).1 = 2.
Proof. split; reflexivity. Qed.

(** C7. Deleting a visible benefit [b] (the raw data id is known, the user
    confirms, the request succeeds) is local. The benefits array of the
    results is unchanged; the visible list afterwards is the visible list
    before without the entries carrying the id of [b], in the same order and
    with every remaining benefit unchanged; the only things done are the
    delete request and the notification of the parent, nothing is merged or
    recomputed; and the displayed count drops by exactly one. When benefit
    ids are distinct, exactly the one entry [b] leaves the visible list. *)
Theorem benefit_deletion_local b w :
  Js.truthy_string (rawDataId w) = true →
  b ∈ visibleBenefits w →
  let w' := (handleDeleteBenefit true DeleteOk (benefit_id b) (title b) w).1 in
  let events := (handleDeleteBenefit true DeleteOk (benefit_id b) (title b) w).2 in
  all_benefits (results w') = all_benefits (results w) ∧
  visibleBenefits w' =
    filter (λ x, benefit_id x ≠ benefit_id b) (visibleBenefits w) ∧
  (b ∉ visibleBenefits w') ∧
  (∀ x, x ∈ visibleBenefits w → benefit_id x ≠ benefit_id b →
        x ∈ visibleBenefits w') ∧
  visibleBenefits w' `sublist_of` visibleBenefits w ∧
  badge w' = badge w - 1 ∧
  events = [Confirm (title b);
            DeleteRequest (default "" (rawDataId w)) (benefit_id b)] ++
           (if onBenefitDeleted w then [BenefitDeleted (benefit_id b)] else []) ∧
  (NoDup (benefit_id <$> all_benefits (results w)) →
   length (visibleBenefits w') = pred (length (visibleBenefits w)) ∧
   ∃ l1 l2, visibleBenefits w = l1 ++ (b :: l2) ∧ visibleBenefits w' = l1 ++ l2).
Proof.
  intros Hraw Hb w' events.
  destruct (delete_ok_state (benefit_id b) (title b) w Hraw) as (Hres & Hdel & Hev).
  fold w' in Hres, Hdel. fold events in Hev.
  assert (Hvis : visibleBenefits w'
          = filter (λ x, benefit_id x ≠ benefit_id b) (visibleBenefits w)).
  { unfold visibleBenefits at 1. rewrite Hres, Hdel. apply visible_after_add. }
  rewrite Hvis. split_and!.
  - by rewrite Hres.
  - reflexivity.
  - rewrite list_elem_of_filter. tauto.
  - intros x Hx Hne. rewrite list_elem_of_filter. tauto.
  - apply sublist_filter.
  - unfold badge, totalBenefits, JsSet.size. rewrite Hres, Hdel.
    rewrite length_add_new by (by apply visible_not_deleted). lia.
  - exact Hev.
  - intros Hnd.
    assert (Hsplit : ∃ l1 l2, visibleBenefits w = l1 ++ (b :: l2) ∧
              filter (λ x, benefit_id x ≠ benefit_id b) (visibleBenefits w) = l1 ++ l2).
    { assert (Hndv : NoDup (benefit_id <$> visibleBenefits w)).
      { eapply sublist_NoDup; [exact Hnd|].
        apply fmap_sublist. unfold visibleBenefits. apply sublist_filter. }
      apply list_elem_of_split in Hb as (l1 & l2 & Hv). rewrite Hv in Hndv |- *.
      exists l1, l2. split; [reflexivity|].
      rewrite fmap_app, fmap_cons in Hndv.
      apply NoDup_app in Hndv as (_ & Hl1 & [Hl2 _]%NoDup_cons).
      rewrite filter_app, filter_cons_False by tauto.
      rewrite !filter_all; [reflexivity| |].
      - apply Forall_forall. intros x Hx Heq. apply Hl2. rewrite <- Heq.
        by apply list_elem_of_fmap_2.
      - apply Forall_forall. intros x Hx Heq.
        apply (Hl1 (benefit_id x)); [by apply list_elem_of_fmap_2|].
        rewrite Heq. apply list_elem_of_here. }
    destruct Hsplit as (l1 & l2 & Hv & Hf). split; [|by exists l1, l2].
    rewrite Hf, Hv, !length_app. simpl. lia.
Qed.

Lemma benefit_deletion_local_witness :
  Js.truthy_string (rawDataId Samples.viewer) = true ∧
  Samples.benefit "b2" "Cashback" ∈ visibleBenefits Samples.viewer ∧
  badge (handleDeleteBenefit true DeleteOk "b2" "Cashback" Samples.viewer).1
  = badge Samples.viewer - 1.
Proof.
  assert (Hraw : Js.truthy_string (rawDataId Samples.viewer) = true) by reflexivity.
  assert (Hb : Samples.benefit "b2" "Cashback" ∈ visibleBenefits Samples.viewer).
  { apply list_elem_of_further, list_elem_of_here. }
  split; [exact Hraw|]. split; [exact Hb|].
  destruct (benefit_deletion_local (Samples.benefit "b2" "Cashback")
              Samples.viewer Hraw Hb) as (_ & _ & _ & _ & _ & Hbadge & _).
  exact Hbadge.
Defined.

End BenefitDeletion.

(** ** More on the review page: selection, display and counters *)

Module ReviewExtras.
Import RawDataReviewApproval.
Import JsFacts JsSetFacts.

Lemma filter_keeps_all {A} (P : A → Prop) `{∀ x, Decision (P x)} (l : list A) :
  Forall P l → filter P l = l.
Proof.
  induction 1 as [|x l Hx _ IH]; [reflexivity|].
  by rewrite filter_cons_True, IH.
Qed.

Lemma length_delete_present (s : list nat) i :
  NoDup s → i ∈ s → S (length (JsSet.delete s i)) = length s.
Proof.
  intros Hnd (l1 & l2 & ->)%list_elem_of_split.
  apply NoDup_app in Hnd as (_ & Hl1 & [Hl2 _]%NoDup_cons).
  unfold JsSet.delete. rewrite filter_app, filter_cons_False by tauto.
  rewrite !filter_keeps_all.
  - rewrite !length_app. simpl. lia.
  - apply Forall_forall. intros x Hx ->. contradiction.
  - apply Forall_forall. intros x Hx ->. apply (Hl1 i Hx), list_elem_of_here.
Qed.

Lemma elem_of_toggle_iff (s : list nat) i j :
  j ∈ JsSet.toggle s i ↔ (j ≠ i ∧ j ∈ s) ∨ (j = i ∧ i ∉ s).
Proof.
  unfold JsSet.toggle. destruct (JsSet.has s i) eqn:E.
  - apply has_true in E. rewrite elem_of_delete. split; [tauto|].
    intros [?|[-> ?]]; tauto.
  - apply has_false in E. rewrite elem_of_add. split.
    + intros [Hj| ->]; [|tauto]. left. split; [|exact Hj]. by intros ->.
    + tauto.
Qed.

Example toggle_moves_to_the_end :
  selectedSources
    (handleToggleSelect 0 (handleToggleSelect 0
       (onExtractionData (Some (Samples.extraction Samples.scenario)) initialState)))
  = [1; 2; 0]%nat.
Proof. reflexivity. Qed.

(** X1. In every state the page can reach, the checkbox of a source flips
    the selection of that position only, moves the selected count by
    exactly one (down when it was selected, up when it was not), and a
    second click restores the selected set. *)
Theorem toggle_select_counts actions i :
  let st := run actions in
  let st' := handleToggleSelect i st in
  (∀ j, j ≠ i → j ∈ selectedSources st' ↔ j ∈ selectedSources st) ∧
  (i ∈ selectedSources st' ↔ i ∉ selectedSources st) ∧
  (if decide (i ∈ selectedSources st)
   then S (selectedCount st') = selectedCount st
   else selectedCount st' = S (selectedCount st)) ∧
  NoDup (selectedSources st') ∧
  (∀ j, j ∈ selectedSources (handleToggleSelect i st') ↔ j ∈ selectedSources st).
Proof.
  intros st st'. destruct (ApprovalGate.run_selection_wf actions) as [Hnd _].
  change (run actions) with st in Hnd. clearbody st.
  subst st'. cbn [handleToggleSelect selectedSources setSelectedSources].
  split_and!.
  - intros j Hj. rewrite elem_of_toggle_iff. tauto.
  - rewrite elem_of_toggle_iff. tauto.
  - unfold selectedCount, JsSet.size.
    cbn [handleToggleSelect selectedSources setSelectedSources].
    unfold JsSet.toggle. case_decide as Hi.
    + apply has_true in Hi as Hh. rewrite Hh. by apply length_delete_present.
    + apply has_false in Hi as Hh. rewrite Hh. by apply length_add_new.
  - by apply NoDup_toggle.
  - intros j. rewrite elem_of_toggle_iff, (elem_of_toggle_iff _ i i),
      (elem_of_toggle_iff _ i j).
    destruct (decide (j = i)) as [->|Hne];
      destruct (decide (i ∈ selectedSources st)); tauto.
Qed.

Lemma filter_from_all {A} (p : A → nat → bool) k (l : list A) :
  (∀ j x, l !! j = Some x → p x (k + j)%nat = true) → Js.filter_from p k l = l.
Proof.
  revert k. induction l as [|x l IH]; intros k Hp; [reflexivity|].
  cbn [Js.filter_from]. rewrite <- (Nat.add_0_r k) at 1.
  rewrite (Hp 0%nat x eq_refl). f_equal. apply IH. intros j y Hj.
  replace (S k + j)%nat with (k + S j)%nat by lia. by apply (Hp (S j)).
Qed.

Lemma filter_from_none {A} k (l : list A) :
  Js.filter_from (λ _ i, JsSet.has ([] : list nat) i) k l = [].
Proof.
  revert k. induction l as [|x l IH]; intros k; [reflexivity|].
  cbn [Js.filter_from].
  replace (JsSet.has [] k) with false
    by (symmetry; apply has_false, not_elem_of_nil).
  apply IH.
Qed.

Lemma elem_of_all_positions {A} (l : list A) i :
  i ∈ JsSet.of_list (imap (λ i _, i) l) ↔ (i < length l)%nat.
Proof.
  rewrite elem_of_of_list. split.
  - intros (k & x & -> & Hk)%elem_of_lookup_imap. by apply lookup_lt_Some in Hk.
  - intros [x Hx]%lookup_lt_is_Some_2. apply elem_of_lookup_imap. by exists i, x.
Qed.

(** X2. Select All selects every position, whatever was selected before:
    the selected count is the number of sources, and approving then hands
    over every source, in the order of the list. Select None leaves nothing
    selected and nothing to approve. *)
Theorem select_all_approves_all clock ed keywords st :
  let all := handleSelectAll st in
  let none := handleSelectNone st in
  (∀ i, i ∈ selectedSources all ↔ (i < length (sources st))%nat) ∧
  selectedCount all = totalSources st ∧
  (∃ r, (handleApprove clock (Some ed) keywords all).2 = Some r ∧
        total_sources r = totalSources st ∧
        url ∘ base <$> ad_sources r = url <$> sources st) ∧
  selectedCount none = 0%nat ∧
  (∃ r, (handleApprove clock (Some ed) keywords none).2 = Some r ∧
        ad_sources r = [] ∧ total_sources r = 0%nat ∧ total_content_length r = 0).
Proof.
  intros all none.
  assert (Hall : Js.filteri (λ _ i, JsSet.has (selectedSources all) i) (sources st)
                 = sources st).
  { apply filter_from_all. intros j x Hj. apply has_true.
    apply elem_of_all_positions. by apply lookup_lt_Some in Hj. }
  assert (Hnone : Js.filteri (λ _ i, JsSet.has (selectedSources none) i) (sources st)
                  = []).
  { apply filter_from_none. }
  split_and!.
  - intros i. apply elem_of_all_positions.
  - unfold selectedCount, JsSet.size, totalSources.
    assert (Hp : selectedSources all ≡ₚ seq 0 (length (sources st))).
    { apply NoDup_Permutation; [apply NoDup_of_list|apply NoDup_seq|].
      intros i. subst all. cbn [handleSelectAll selectedSources setSelectedSources].
      rewrite elem_of_all_positions, elem_of_seq. lia. }
    rewrite Hp. apply length_seq.
  - eexists. split; [reflexivity|].
    cbn [total_sources ad_sources]. unfold approvedSources.
    change (sources all) with (sources st). rewrite Hall. split.
    + by rewrite length_imap.
    + rewrite fmap_imap. rewrite (imap_ext _ (λ _, url)) by done.
      apply (imap_const url).
  - reflexivity.
  - eexists. split; [reflexivity|].
    cbn [total_sources ad_sources total_content_length]. unfold approvedSources.
    change (sources none) with (sources st). rewrite Hnone. by split_and!.
Qed.

(** *** The filtered view *)

Lemma filter_from_sublist {A} (p : A → nat → bool) k (l : list A) :
  Js.filter_from p k l `sublist_of` l.
Proof.
  revert k. induction l as [|x l IH]; intros k; [reflexivity|].
  cbn [Js.filter_from]. destruct (p x k).
  - apply sublist_skip, IH.
  - apply sublist_cons, IH.
Qed.

Lemma elem_of_filter_from_gen {A} (p : A → nat → bool) k (l : list A) x :
  x ∈ Js.filter_from p k l ↔ ∃ j, l !! j = Some x ∧ p x (k + j)%nat = true.
Proof.
  revert k. induction l as [|y l IH]; intros k; cbn [Js.filter_from].
  - split; [intros H; by apply elem_of_nil in H|intros (j & Hj & _); discriminate Hj].
  - assert (Htl : x ∈ Js.filter_from p (S k) l ↔
                  ∃ j, (y :: l) !! S j = Some x ∧ p x (k + S j)%nat = true).
    { rewrite IH. by setoid_rewrite Nat.add_succ_r. }
    assert (Hcases : (∃ j, (y :: l) !! j = Some x ∧ p x (k + j)%nat = true) ↔
              (y = x ∧ p x k = true) ∨
              ∃ j, (y :: l) !! S j = Some x ∧ p x (k + S j)%nat = true).
    { split.
      - intros ([|j] & Hj & Hp).
        + left. rewrite Nat.add_0_r in Hp. by injection Hj as ->.
        + right. by exists j.
      - intros [[-> Hp]|(j & Hj & Hp)].
        + exists 0%nat. by rewrite Nat.add_0_r.
        + by exists (S j). }
    rewrite Hcases, <- Htl. destruct (p y k) eqn:E.
    + rewrite elem_of_cons. split.
      * intros [->|H]; [left; by split|by right].
      * intros [[-> _]|H]; [by left|by right].
    + split; [by right|]. intros [[-> Hp]|H]; [congruence|exact H].
Qed.

(** X3. The list of cards is the source list with some sources left out,
    in the same order. With no search text, type [all] and Selected Only
    off it is the whole list; with Selected Only on instead, it holds as
    many cards as the selected count shows, in every state the page can
    reach. With a search text, every card shown contains the text, case
    ignored, in its URL, its title or its cleaned content. *)
Theorem filtered_view actions st :
  let plain := λ b s, setShowSelectedOnly b (setFilterType "all" (setSearchQuery "" s)) in
  filteredSources st `sublist_of` sources st ∧
  filteredSources (plain false st) = sources st ∧
  length (filteredSources (plain true (run actions))) = selectedCount (run actions) ∧
  (∀ source, source ∈ filteredSources st → searchQuery st ≠ "" →
     let q := Js.toLowerCase (searchQuery st) in
     Js.includes (Js.toLowerCase (url source)) q = true ∨
     (∃ t, title source = Some t ∧ Js.includes (Js.toLowerCase t) q = true) ∨
     (∃ c, cleaned_content source = Some c ∧ Js.includes (Js.toLowerCase c) q = true)).
Proof.
  intros plain. split_and!.
  - apply filter_from_sublist.
  - unfold filteredSources, Js.filteri. apply filter_from_all. reflexivity.
  - destruct (ApprovalGate.run_selection_wf actions) as [Hnd Hlt].
    unfold filteredSources, Js.filteri, selectedCount, JsSet.size.
    change (Js.filter_from (matchesFilters (plain true (run actions))) 0
              (sources (plain true (run actions))))
      with (Js.filter_from (λ _ i, JsSet.has (selectedSources (run actions)) i) 0
              (sources (run actions))).
    rewrite ApprovalGate.filter_from_length.
    by apply Permutation_length, ApprovalGate.selected_positions.
  - intros source (j & Hj & Hp)%elem_of_filter_from_gen Hq q.
    unfold matchesFilters in Hp.
    apply andb_true_iff in Hp as [[Hs _]%andb_true_iff _].
    destruct (String.eqb (searchQuery st) "") eqn:E.
    { by apply String.eqb_eq in E. }
    cbn [orb] in Hs. apply orb_true_iff in Hs as [[Hs|Hs]%orb_true_iff|Hs].
    + by left.
    + right. left. unfold includes_opt in Hs.
      destruct (title source) as [t|]; [|discriminate Hs]. by exists t.
    + right. right. unfold includes_opt in Hs.
      destruct (cleaned_content source) as [c|]; [|discriminate Hs]. by exists c.
Qed.

(** *** The position handed to a card *)

Lemma findIndex_spec {A} (p : A → bool) (l : list A) i :
  findIndex p l = Some i ↔
  ∃ x, l !! i = Some x ∧ p x = true ∧
       ∀ j y, (j < i)%nat → l !! j = Some y → p y = false.
Proof.
  revert i. induction l as [|x l IH]; intros i; cbn [findIndex].
  - split; [discriminate|]. intros (y & Hy & _). discriminate Hy.
  - destruct (p x) eqn:E.
    + split.
      * intros [= <-]. exists x. split_and!; [reflexivity|exact E|]. intros; lia.
      * intros (y & Hy & Hpy & Hmin). destruct i as [|i]; [reflexivity|].
        specialize (Hmin 0%nat x (Nat.lt_0_succ i) eq_refl). congruence.
    + destruct i as [|i].
      * split.
        -- destruct (findIndex p l); discriminate.
        -- intros (y & [= <-] & Hpy & _). congruence.
      * assert (Hi : S <$> findIndex p l = Some (S i) ↔ findIndex p l = Some i).
        { destruct (findIndex p l); simpl; split; congruence. }
        rewrite Hi, IH. split; intros (y & Hy & Hpy & Hmin); exists y;
          (split_and!; [exact Hy|exact Hpy|]).
        -- intros [|j] z Hj Hz; [injection Hz as <-; exact E|].
           apply (Hmin j z); [lia|exact Hz].
        -- intros j z Hj Hz. apply (Hmin (S j) z); [lia|exact Hz].
Qed.

Lemma findIndex_found {A} (p : A → bool) (l : list A) x :
  x ∈ l → p x = true → is_Some (findIndex p l).
Proof.
  induction 1 as [y l|y z l _ IH]; intros Hp; cbn [findIndex].
  - rewrite Hp. by eexists.
  - destruct (p z); [by eexists|]. destruct (IH Hp) as [i ->]. by eexists.
Qed.

(** The two sources of this example have the same URL and id: the card of
    the second one is handed the position of the first. *)
Example duplicate_sources_share_a_position :
  let twin := Samples.source "twin" (Some "second copy") (Some 500) None None in
  let st := setSources [Samples.source "twin" (Some "first copy") (Some 20) None None;
                        twin] initialState in
  actualIndex st twin = Some 0%nat.
Proof. reflexivity. Qed.

(** X4. Every source of the list gets a position from [actualIndex]: the
    first position whose source has the same URL and the same id. When no
    two sources of the list agree on URL and id, that is the position of the
    source itself; otherwise a later twin is handed the position of the
    first, so its checkbox acts on the first. *)
Theorem actual_index_first_match st source :
  source ∈ sources st →
  ∃ i found,
    actualIndex st source = Some i ∧
    sources st !! i = Some found ∧
    url found = url source ∧ source_id found = source_id source ∧
    (∀ j other, (j < i)%nat → sources st !! j = Some other →
                ¬ (url other = url source ∧ source_id other = source_id source)) ∧
    (NoDup ((λ s, (url s, source_id s)) <$> sources st) → found = source).
Proof.
  intros Hin. unfold actualIndex.
  set (p := λ s : Source, bool_decide (url s = url source) &&
                          bool_decide (source_id s = source_id source)).
  assert (Hp : ∀ s, p s = true ↔ url s = url source ∧ source_id s = source_id source).
  { intros s. unfold p. by rewrite andb_true_iff, !bool_decide_eq_true. }
  destruct (findIndex_found p (sources st) source Hin) as [i Hi].
  { by apply Hp. }
  pose proof Hi as (found & Hf & Hpf & Hmin)%findIndex_spec.
  apply Hp in Hpf as [Hu Hid].
  exists i, found. split_and!; try done.
  - intros j other Hj Ho Hsame%Hp. specialize (Hmin j other Hj Ho). congruence.
  - intros Hnd. apply list_elem_of_lookup in Hin as [k Hk].
    assert (i = k) as ->; [|congruence].
    eapply NoDup_lookup; [exact Hnd| |].
    + rewrite list_lookup_fmap, Hf. reflexivity.
    + rewrite list_lookup_fmap, Hk. simpl. by rewrite Hu, Hid.
Qed.

Lemma actual_index_first_match_witness :
  Samples.source "page1" (Some "first page") (Some 150) None None
    ∈ sources (setSources Samples.scenario initialState) ∧
  actualIndex (setSources Samples.scenario initialState)
    (Samples.source "page1" (Some "first page") (Some 150) None None) = Some 1%nat.
Proof.
  assert (H : Samples.source "page1" (Some "first page") (Some 150) None None
                ∈ sources (setSources Samples.scenario initialState)).
  { apply list_elem_of_further, list_elem_of_here. }
  split; [exact H|].
  destruct (actual_index_first_match _ _ H) as (i & found & _).
  reflexivity.
Defined.

(** *** The two character totals *)

Lemma sumZ_le {A} (f g : A → Z) (l : list A) :
  (∀ x, x ∈ l → f x ≤ g x) → Js.sumZ (f <$> l) ≤ Js.sumZ (g <$> l).
Proof.
  induction l as [|x l IH]; intros H; [reflexivity|].
  unfold Js.sumZ in *. cbn [fmap list_fmap foldr].
  specialize (H x (list_elem_of_here _ _)) as Hx.
  assert (Hl : ∀ y, y ∈ l → f y ≤ g y) by (intros y Hy; by apply H, list_elem_of_further).
  specialize (IH Hl). cbn [fmap] in IH. lia.
Qed.

Lemma sumZ_ext {A} (f g : A → Z) (l : list A) :
  (∀ x, x ∈ l → f x = g x) → Js.sumZ (f <$> l) = Js.sumZ (g <$> l).
Proof.
  intros H. f_equal. apply list_fmap_ext. intros i x Hx. apply H.
  by eapply list_elem_of_lookup_2.
Qed.

Lemma displayed_length_le s :
  Js.number_or (cleaned_content_length s) 0 ≤ checksumLength s.
Proof.
  unfold checksumLength, recordedLength, Js.number_or, textLength.
  destruct (cleaned_content_length s) as [n|]; [destruct (n =? 0) eqn:E|];
    try lia;
    destruct (cleaned_content s), (raw_content s);
    repeat match goal with |- context [?a =? 0] => destruct (a =? 0) end; lia.
Qed.

Lemma displayed_length_eq s :
  recordedLength s ≠ None ∨
  (textLength (cleaned_content s) = 0 ∧ textLength (raw_content s) = 0) →
  Js.number_or (cleaned_content_length s) 0 = checksumLength s.
Proof.
  unfold checksumLength, recordedLength, Js.number_or.
  destruct (cleaned_content_length s) as [n|]; [destruct (n =? 0) eqn:E|].
  - intros [H|[-> ->]]; [done|reflexivity].
  - reflexivity.
  - intros [H|[-> ->]]; [done|reflexivity].
Qed.

Example display_misses_fallback_lengths :
  let st := handleSelectAll
              (onExtractionData (Some (Samples.extraction Samples.mixed)) initialState) in
  totalChars st = 100 ∧
  total_content_length <$>
    (handleApprove (λ _, "t") (Some (Samples.extraction Samples.mixed)) [] st).2
  = Some 113.
Proof. split; reflexivity. Qed.

(** X5. The Characters Selected figure of the page never exceeds the
    [total_content_length] that approving hands over, and the two agree when
    every selected source has a recorded non-zero length or has neither
    cleaned nor raw text: the figure counts only recorded lengths, the
    checksum also the lengths it falls back to. *)
Theorem displayed_chars_below_checksum clock ed keywords st :
  ∃ r, (handleApprove clock (Some ed) keywords st).2 = Some r ∧
       totalChars st ≤ total_content_length r ∧
       ((∀ i s, i ∈ selectedSources st → sources st !! i = Some s →
                recordedLength s ≠ None ∨
                (textLength (cleaned_content s) = 0 ∧
                 textLength (raw_content s) = 0)) →
        totalChars st = total_content_length r).
Proof.
  eexists. split; [reflexivity|]. cbn [total_content_length].
  assert (Htotal : Js.reduce_sum approvedLength (approvedSources clock st) =
            Js.sumZ (checksumLength <$>
              Js.filteri (λ _ i, JsSet.has (selectedSources st) i) (sources st))).
  { rewrite ApprovalGate.reduce_sum_sumZ. unfold approvedSources.
    rewrite fmap_imap.
    rewrite (imap_ext _ (λ _, checksumLength))
      by (intros; simpl; apply ApprovalGate.approvedLength_checksum).
    by rewrite (imap_const checksumLength). }
  rewrite Htotal. unfold totalChars. rewrite ApprovalGate.reduce_sum_sumZ. split.
  - apply sumZ_le. intros; apply displayed_length_le.
  - intros Hrec. apply sumZ_ext. intros x Hx.
    apply ApprovalGate.elem_of_filter_from in Hx as (j & Hj & Hs).
    apply displayed_length_eq. by apply (Hrec (0 + j)%nat).
Qed.

(** *** Errors and the initial selection *)

Lemma marks_sublist (a : Source → bool) k (l : list Source) :
  omap id (imap (λ i s, if a s then Some (k + i)%nat else None) l)
    `sublist_of` seq k (length l).
Proof.
  revert k. induction l as [|x l IH]; intros k; [reflexivity|].
  rewrite imap_cons. cbn [omap list_omap length seq].
  rewrite (imap_ext _ (λ i s, if a s then Some (S k + i)%nat else None)).
  2:{ intros i y _. simpl. by rewrite Nat.add_succ_r. }
  rewrite Nat.add_0_r. destruct (a x); cbn [id].
  - apply sublist_skip, IH.
  - apply sublist_cons, IH.
Qed.

Lemma marks_length (a : Source → bool) k (l : list Source) :
  length (omap id (imap (λ i s, if a s then Some (k + i)%nat else None) l))
  = length (filter (λ s, a s = true) l).
Proof.
  revert k. induction l as [|x l IH]; intros k; [reflexivity|].
  rewrite imap_cons. cbn [omap list_omap].
  rewrite (imap_ext _ (λ i s, if a s then Some (S k + i)%nat else None)).
  2:{ intros i y _. simpl. by rewrite Nat.add_succ_r. }
  rewrite filter_cons. destruct (a x) eqn:E; cbn [id].
  - rewrite decide_True by done. cbn [length]. f_equal. apply IH.
  - rewrite decide_False by congruence. apply IH.
Qed.

Lemma of_list_NoDup (l acc : list nat) :
  NoDup (acc ++ l) → foldl JsSet.add acc l = acc ++ l.
Proof.
  revert acc. induction l as [|x l IH]; intros acc Hnd; simpl.
  - by rewrite app_nil_r.
  - assert (Hx : x ∉ acc).
    { apply NoDup_app in Hnd as (_ & Hd & _). intros Hin.
      apply (Hd x Hin), list_elem_of_here. }
    unfold JsSet.add at 2. apply has_false in Hx. rewrite Hx.
    rewrite IH; rewrite <- app_assoc; [reflexivity|exact Hnd].
Qed.

Lemma validSources_length srcs :
  length (validSources srcs) = length (filter (λ s, autoSelectable s = true) srcs).
Proof.
  unfold validSources, JsSet.of_list.
  rewrite (of_list_NoDup _ []).
  - apply (marks_length autoSelectable 0).
  - eapply sublist_NoDup; [apply NoDup_seq|apply (marks_sublist autoSelectable 0)].
Qed.

(** X6. When sources arrive for review, the number of sources selected at
    first is the number of sources that pass the rule, and it leaves out at
    least the sources counted as errors: selected plus errors never exceeds
    the total. *)
Theorem errors_never_auto_selected ed srcs st :
  ed_sources ed = Some srcs →
  let st' := onExtractionData (Some ed) st in
  selectedCount st' = length (filter (λ s, autoSelectable s = true) srcs) ∧
  (selectedCount st' + errorCount st' ≤ totalSources st')%nat ∧
  (errorCount st' = totalSources st' → selectedCount st' = 0%nat).
Proof.
  intros Hed st'. subst st'. unfold onExtractionData. rewrite Hed.
  unfold selectedCount, errorCount, totalSources, JsSet.size.
  cbn [selectedSources sources setSelectedSources setSources].
  rewrite validSources_length.
  assert (Hle : (length (filter (λ s, autoSelectable s = true) srcs) +
                 length (filter (λ s, Js.truthy_string (fetch_error s)) srcs)
                 ≤ length srcs)%nat).
  { clear Hed. induction srcs as [|x l IH]; [reflexivity|].
    rewrite !filter_cons. repeat case_decide; cbn [length]; try lia.
    exfalso.
    match goal with
    | Ha : autoSelectable x = true, He : Is_true _ |- _ =>
        unfold autoSelectable in Ha;
        apply andb_true_iff in Ha as [Hn%negb_true_iff _];
        rewrite Hn in He; exact He
    end. }
  split_and!; [reflexivity|exact Hle|lia].
Qed.

Lemma errors_never_auto_selected_witness :
  ed_sources (Samples.extraction Samples.scenario) = Some Samples.scenario ∧
  (selectedCount
     (onExtractionData (Some (Samples.extraction Samples.scenario)) initialState) +
   errorCount
     (onExtractionData (Some (Samples.extraction Samples.scenario)) initialState)
   ≤ 4)%nat.
Proof.
  split; [reflexivity|].
  apply (errors_never_auto_selected (Samples.extraction Samples.scenario)
           Samples.scenario initialState eq_refl).
Defined.

End ReviewExtras.

(** ** More on the dispatcher: unmapped categories, the two selections, counts *)

Module DispatcherExtras.
Import PipelineExecution PipelineSelection.
Import JsSetFacts.







(** *** How many pipelines a selection gives *)





Example two_of_three_categories_have_a_pipeline :
  pipeline_names (run CATEGORY_PIPELINE_MAP
                    [ToggleCategory "fee"; ToggleCategory "general";
                     ToggleCategory "movie"])
  = ["fee_waiver"; "movie"].
Proof. vm_compute. reflexivity. Qed.


End DispatcherExtras.

(** ** The content preview of a card *)

Module PreviewExtras.
Import RawDataReviewApproval ReviewPage.

Lemma substring0_prefix n s :
  ∃ rest, s = substring0 n s +:+ rest ∧
          (rest ≠ "" ↔ (n < String.length s)%nat) ∧
          String.length (substring0 n s) = Nat.min n (String.length s).
Proof.
  revert s. induction n as [|n IH]; intros s.
  - exists s. destruct s; simpl; split_and!; try done; split; try done; lia.
  - destruct s as [|c s]; simpl.
    + exists "". split_and!; try done. split; [done|lia].
    + destruct (IH s) as (rest & Hs & Hr & Hl). exists rest. split_and!.
      * rewrite JsFacts.append_cons. by rewrite <- Hs.
      * rewrite Hr. lia.
      * by rewrite Hl.
Qed.

Lemma previewLimit_pos : (0 < previewLimit)%nat.
Proof. unfold previewLimit. lia. Qed.

Example short_content_is_shown_whole :
  contentPreview Samples.embeddedPage = "Supercashback OFFER" ∧
  truncationNote Samples.embeddedPage = false.
Proof. split; vm_compute; reflexivity. Qed.

(** X10. The preview of a card is a prefix of the cleaned content of at
    most 5000 characters: the content is the preview followed by a rest, the
    preview has the length of the content capped at 5000, and the truncation
    note is shown exactly when the rest is not empty. A source without
    content, or with empty content, shows the text [No content available]
    and no note. *)
Theorem content_preview_bounds source :
  (∀ c, cleaned_content source = Some c → c ≠ "" →
     ∃ rest, c = contentPreview source +:+ rest ∧
             String.length (contentPreview source)
               = Nat.min previewLimit (String.length c) ∧
             (truncationNote source = true ↔ rest ≠ "") ∧
             (truncationNote source = false → contentPreview source = c)) ∧
  (cleaned_content source = None ∨ cleaned_content source = Some "" →
     contentPreview source = "No content available" ∧
     truncationNote source = false).
Proof.
  split.
  - intros c Hc Hne. unfold contentPreview, truncationNote. rewrite Hc.
    destruct (substring0_prefix previewLimit c) as (rest & Hs & Hr & Hl).
    destruct (String.eqb (substring0 previewLimit c) "") eqn:E.
    { apply String.eqb_eq in E. rewrite E in Hl. simpl in Hl.
      pose proof previewLimit_pos. destruct c; [done|]. simpl in Hl. lia. }
    exists rest. split_and!; [exact Hs|exact Hl| |].
    + rewrite Nat.ltb_lt. by rewrite Hr.
    + intros Hn%Nat.ltb_ge. destruct rest as [|a rest].
      * rewrite Hs at 2. clear. induction (substring0 previewLimit c) as [|a t IH];
          [reflexivity|]. rewrite JsFacts.append_cons. by rewrite <- IH.
      * assert (String a rest ≠ "") as Hx%Hr by done. lia.
  - unfold contentPreview, truncationNote.
    intros [-> | ->]; [by split|]. split; [reflexivity|].
    apply Nat.ltb_ge. simpl. lia.
Qed.

End PreviewExtras.

(** ** Running the pipelines *)

Module RunExtras.
Import PipelineRun.
Import JsFacts.

Lemma find_Some {A} (p : A → bool) (l : list A) x :
  find p l = Some x →
  p x = true ∧ ∃ l1 l2, l = l1 ++ (x :: l2) ∧ ∀ y, y ∈ l1 → p y = false.
Proof.
  induction l as [|y l IH]; cbn [find]; [discriminate|].
  destruct (p y) eqn:E.
  - intros [= <-]. split; [exact E|]. exists [], l. split; [reflexivity|].
    intros z Hz. by apply elem_of_nil in Hz.
  - intros (Hp & l1 & l2 & -> & Hl1)%IH. split; [exact Hp|].
    exists (y :: l1), l2. split; [reflexivity|].
    intros z [->|Hz]%elem_of_cons; [exact E|by apply Hl1].
Qed.

Lemma find_None {A} (p : A → bool) (l : list A) :
  find p l = None ↔ ∀ x, x ∈ l → p x = false.
Proof.
  induction l as [|y l IH]; cbn [find].
  - split; [|done]. intros _ x Hx. by apply elem_of_nil in Hx.
  - destruct (p y) eqn:E.
    + split; [discriminate|]. intros H. specialize (H y (list_elem_of_here _ _)).
      congruence.
    + rewrite IH. split.
      * intros H x [->|Hx]%elem_of_cons; [exact E|by apply H].
      * intros H x Hx. by apply H, list_elem_of_further.
Qed.

Lemma matchesCard_spec bankKey cardName r :
  matchesCard bankKey cardName r = true ↔
  detected_card_name r = Some cardName ∨
  (bank_key r = Some bankKey ∧
   ∃ n pre post, detected_card_name r = Some n ∧ n = pre +:+ cardName +:+ post).
Proof.
  unfold matchesCard.
  rewrite orb_true_iff, andb_true_iff, !bool_decide_eq_true.
  destruct (detected_card_name r) as [n|].
  - rewrite includes_spec. naive_solver.
  - naive_solver.
Qed.

Example exact_name_beats_earlier_bank_record :
  saved_id <$> matchedRecord (Some MoreSamples.bank) MoreSamples.card MoreSamples.records
  = Some "r2".
Proof. reflexivity. Qed.

(** X11. The record the pipelines run on is a record of the list. It is
    the first record that names the card (its card name is the card's name,
    or it has the bank's key and its card name contains the card's name);
    only when no record names the card is it the first vectorized record of
    the bank (same bank key or same bank name). So a record naming the card
    is preferred to a bank record wherever it stands in the list, and no
    record is found exactly when no record satisfies either condition. *)
Theorem matched_record_preference bank card records :
  let names := matchesCard (bankKeyOf bank) (card_name card) in
  let ofBank := matchesBank (bankKeyOf bank) (bank ≫= bank_name) in
  (∀ r, matchedRecord bank card records = Some r →
     ∃ l1 l2, records = l1 ++ (r :: l2) ∧
       ((names r = true ∧ ∀ y, y ∈ l1 → names y = false) ∨
        ((∀ y, y ∈ records → names y = false) ∧
         ofBank r = true ∧ vector_indexed r = true ∧
         ∀ y, y ∈ l1 → ofBank y = false))) ∧
  (matchedRecord bank card records = None ↔
     ∀ r, r ∈ records → names r = false ∧ ofBank r = false) ∧
  (∀ r, r ∈ records → detected_card_name r = Some (card_name card) →
     ∃ r', matchedRecord bank card records = Some r' ∧ names r' = true).
Proof.
  intros names ofBank. unfold matchedRecord. fold names ofBank.
  destruct (find names records) as [r0|] eqn:E1.
  - apply find_Some in E1 as (Hp & l1 & l2 & Hl & Hl1). split_and!.
    + intros r [= <-]. exists l1, l2. split; [exact Hl|]. by left.
    + split; [discriminate|]. intros H.
      assert (Hin : r0 ∈ records).
      { rewrite Hl. apply elem_of_app. right. apply list_elem_of_here. }
      destruct (H r0 Hin). congruence.
    + intros r _ _. by exists r0.
  - pose proof (proj1 (find_None names records) E1) as Hno. split_and!.
    + intros r (Hp & l1 & l2 & Hl & Hl1)%find_Some. exists l1, l2.
      split; [exact Hl|]. right. split_and!; try done.
      unfold ofBank, matchesBank in Hp. by apply andb_true_iff in Hp as [? _].
    + rewrite find_None. split.
      * intros H r Hr. split; [by apply Hno|by apply H].
      * intros H r Hr. by apply H.
    + intros r Hr Hn. exfalso. specialize (Hno r Hr).
      assert (names r = true); [|congruence].
      apply matchesCard_spec. by left.
Qed.

Lemma run_needs_card_and_chunks listed ran st :
  selectedCard st = None ∨ PipelineExecution.cardChunks (selection st) = None →
  runPipelines listed ran st = (st, []).
Proof.
  unfold runPipelines. intros [-> | ->]; [reflexivity|].
  by destruct (selectedCard st).
Qed.

(** X12. When a card and its chunks are loaded, [runPipelines] leaves the
    selected categories and pipelines as they are and ends with the loading
    flag cleared. It asks the server to run at most once, and then with
    exactly the selected pipeline names on the matched record. Results are
    stored, and step 3 entered, only when that request succeeded; in every
    other case the step is unchanged, and when no record matches no run is
    requested and the error says so. *)
Theorem run_pipelines_request listed ran st card chunks :
  selectedCard st = Some card →
  PipelineExecution.cardChunks (selection st) = Some chunks →
  let st' := (runPipelines listed ran st).1 in
  let tr := (runPipelines listed ran st).2 in
  loading st' = false ∧
  PipelineExecution.selectedCategories (selection st')
    = PipelineExecution.selectedCategories (selection st) ∧
  PipelineExecution.pipeline_names (selection st')
    = PipelineExecution.pipeline_names (selection st) ∧
  (tr = [ListRecords] ∨ ∃ id names, tr = [ListRecords; RunAll id names]) ∧
  (∀ id names, RunAll id names ∈ tr →
     names = PipelineExecution.pipeline_names (selection st) ∧
     ∃ records r, listed = Listed records ∧
       matchedRecord (selectedBank st) card (default [] records) = Some r ∧
       saved_id r = id) ∧
  (∀ res, pipelineResults st' = Some res →
     ran = RunOk res ∧ PipelineExecution.step (selection st') = 3%nat ∧
     error st' = "" ∧ ∃ id names, RunAll id names ∈ tr) ∧
  (pipelineResults st' = None →
     PipelineExecution.step (selection st')
       = PipelineExecution.step (selection st)) ∧
  (∀ records, listed = Listed records →
     matchedRecord (selectedBank st) card (default [] records) = None →
     tr = [ListRecords] ∧ error st' = noRecordMessage).
Proof.
  intros Hcard Hchunks st' tr. subst st' tr. unfold runPipelines.
  rewrite Hcard, Hchunks.
  destruct listed as [msg|records]; cbn [fst snd];
    [|destruct (matchedRecord (selectedBank st) card (default [] records))
        as [r|] eqn:Em; cbn [fst snd];
      [destruct ran as [msg|detail|results]; cbn [fst snd]|]].
  all: split; [reflexivity|].
  all: split; [reflexivity|].
  all: split; [reflexivity|].
  all: split; [first [by left | right; by eexists _, _]|].
  all: split;
    [intros id names H;
     repeat (apply elem_of_cons in H as [H|H]; [try discriminate H|]);
     try (by apply elem_of_nil in H);
     injection H as -> ->; (split; [reflexivity|by eexists _, _])|].
  all: split;
    [intros res Hres; try discriminate Hres; injection Hres as <-;
     split_and!; try reflexivity;
     eexists _, _; apply list_elem_of_further, list_elem_of_here|].
  all: split; [intros Hres; try discriminate Hres; reflexivity|].
  all: intros records' Hl Hn; try discriminate Hl; injection Hl as <-;
    try congruence; by split.
Qed.

Lemma run_pipelines_request_witness :
  selectedCard MoreSamples.readyToRun = Some MoreSamples.card ∧
  (runPipelines (Listed (Some MoreSamples.records)) (RunOk "done")
     MoreSamples.readyToRun).2
  = [ListRecords; RunAll "r2" ["lounge_access"]].
Proof.
  split; [reflexivity|].
  pose proof (run_pipelines_request (Listed (Some MoreSamples.records)) (RunOk "done")
                MoreSamples.readyToRun MoreSamples.card _ eq_refl eq_refl) as H.
  destruct H as (_ & _ & _ & _ & _ & _ & _ & _). reflexivity.
Defined.

End RunExtras.

(** ** The wizard: input checks, selections and the review step *)

Module WizardExtras.
Import ExtractionWizard WizardFlow.

Ltac create_cases net f :=
  repeat match goal with
  | |- context [if String.eqb ?a ?b then _ else _] => destruct (String.eqb a b)
  | |- context [match f with _ => _ end] => destruct f
  | |- context [match create_reply net with _ => _ end] =>
      destruct (create_reply net)
  | |- context [match cards_reply net with _ => _ end] =>
      destruct (cards_reply net)
  end.

(** X13. [createSession] checks its input before anything is sent. When
    the input its mode and source type need is absent (the card URL, a
    non-blank text, the file, the bank), no request is made, the loading
    flag ends cleared, and the session, the step and every other cell but
    the error message are unchanged. Otherwise the first thing done is the
    session request: the upload request, with the chosen file and the
    current options, exactly for a single-card PDF seed, and else the JSON
    request, whose body carries the mode and the current options. *)
Theorem create_session_checks_input net st :
  let st' := (createSession net st).1 in
  let tr := (createSession net st).2 in
  (inputMissing (input st) = true →
     tr = [] ∧ loading (sess st') = false ∧
     session (sess st') = session (sess st) ∧
     step (sess st') = step (sess st) ∧
     input st' = input st ∧ advanced st' = advanced st ∧
     cardsSt st' = cardsSt st ∧ urlsSt st' = urlsSt st ∧ kw st' = kw st ∧
     sourcesSt st' = sourcesSt st) ∧
  (inputMissing (input st) = false →
     ∃ req rest, tr = Request req :: rest ∧
       match req with
       | PostSessionsUpload f opts =>
           mode (input st) = single_card ∧ sourceType (input st) = pdf ∧
           selectedFile (input st) = Some f ∧ opts = currentOptions st
       | PostSessions b =>
           ¬ (mode (input st) = single_card ∧ sourceType (input st) = pdf) ∧
           body_mode b = mode (input st) ∧ options b = currentOptions st
       | _ => False
       end).
Proof.
  intros st' tr. subst st' tr.
  unfold createSession, afterCreate, discoverCards, inputMissing.
  destruct st as [ss [m t u tc f b bs] adv cs us k so].
  cbn [input mode sourceType singleCardUrl textContent selectedFile
       selectedBank setError setLoading withSess].
  destruct m, t;
    cbn [input mode sourceType singleCardUrl textContent selectedFile
         selectedBank];
    create_cases net f; cbn;
    (split; [intros Hm; try discriminate Hm; by repeat split
            |intros Hm; try discriminate Hm;
             eexists _, _; (split; [reflexivity|]); cbn;
             repeat split; try reflexivity;
             try (intros [Hx Hy]; discriminate)]).
Qed.

(** X14. [createSession] turns the loading flag on and clears it on every
    path but one: the flag is still set when it returns exactly when the
    session was created for a single-card text or PDF seed, the path on
    which the wizard goes straight to step 4. *)
Theorem create_session_leaves_loading net st :
  loading (sess (createSession net st).1) = true ↔
  inputMissing (input st) = false ∧
  (∃ data, create_reply net = CreateOk data) ∧
  mode (input st) = single_card ∧ sourceType (input st) ≠ url.
Proof.
  unfold createSession, afterCreate, discoverCards, inputMissing.
  destruct st as [ss [m t u tc f b bs] adv cs us k so].
  cbn [input mode sourceType singleCardUrl textContent selectedFile
       selectedBank setError setLoading withSess].
  destruct m, t;
    cbn [input mode sourceType singleCardUrl textContent selectedFile
         selectedBank];
    create_cases net f; cbn;
    (split;
     [intros H; try discriminate H;
      repeat split; try reflexivity; try discriminate; by eexists
     |intros (Hm & (created & Hd) & Hmode & Ht);
      try discriminate Hm; try discriminate Hd; try discriminate Hmode;
      try (by destruct Ht); reflexivity]).
Qed.

Lemma same_length_all_selected (keys selected : list string) :
  NoDup selected → NoDup keys → (∀ k, k ∈ selected → k ∈ keys) →
  length selected = length keys ↔ (∀ k, k ∈ keys → k ∈ selected).
Proof.
  intros Hs Hk Hsub.
  pose proof (NoDup_submseteq _ _ Hs Hsub) as Hle.
  split.
  - intros Hlen k Hin.
    assert (Hp : selected ≡ₚ keys).
    { apply submseteq_length_Permutation; [exact Hle|lia]. }
    by rewrite Hp.
  - intros Hall.
    pose proof (NoDup_submseteq _ _ Hk Hall) as Hge.
    apply submseteq_length in Hle. apply submseteq_length in Hge. lia.
Qed.

(** X15. The Select All / Deselect All button of the card and URL steps
    decides by comparing two lengths. For a selection without repetition
    that holds only keys of the listed items, whose keys are distinct, this
    is the expected switch: when every item is selected the selection is
    emptied, and as soon as one item is not selected every item becomes
    selected, in list order. *)
Theorem toggle_all_switch {A} (key : A → string) (items : list A)
    (selected : list string) :
  NoDup selected → NoDup (map key items) →
  (∀ k, k ∈ selected → k ∈ map key items) →
  ((∀ k, k ∈ map key items → k ∈ selected) →
     toggleAll key items selected = []) ∧
  (∀ k, k ∈ map key items → (k ∉ selected) →
     toggleAll key items selected = map key items ∧
     (∀ x, x ∈ items → key x ∈ toggleAll key items selected)).
Proof.
  intros Hs Hk Hsub.
  pose proof (same_length_all_selected (map key items) selected Hs Hk Hsub) as Hiff.
  rewrite length_map in Hiff.
  unfold toggleAll. split.
  - intros Hall.
    by rewrite (proj2 (Nat.eqb_eq _ _) (proj2 Hiff Hall)).
  - intros k Hin Hnot.
    destruct (Nat.eqb_spec (length selected) (length items)) as [Heq|Hne].
    + destruct Hnot. by apply (proj1 Hiff Heq).
    + split; [reflexivity|]. intros x Hx.
      apply list_elem_of_fmap. by exists x.
Qed.

Lemma toggle_all_switch_witness :
  toggleAll card_id [MoreSamples.cardOf "c1"; MoreSamples.cardOf "c2"] ["c2"]
  = ["c1"; "c2"].
Proof.
  refine (proj1 (proj2 (toggle_all_switch card_id
            [MoreSamples.cardOf "c1"; MoreSamples.cardOf "c2"] ["c2"] _ _ _)
            "c1" _ _)).
  - apply (bool_decide_unpack _). vm_compute. exact I.
  - apply (bool_decide_unpack _). vm_compute. exact I.
  - intros k Hk. apply list_elem_of_singleton in Hk. subst k.
    apply (bool_decide_unpack _). vm_compute. exact I.
  - apply (bool_decide_unpack _). vm_compute. exact I.
  - apply (bool_decide_unpack _). vm_compute. exact I.
Defined.

(** X16. The click on a card or URL row, in the wizard and in
    [toggleUrlSelection] of the extraction form alike, flips whether that
    key is selected and changes the status of no other key; it removes
    every copy of the key, so the key is absent afterwards even from a
    selection that held it twice; and on a selection without repetition it
    leaves one without repetition whose length moved by exactly one. *)
Theorem toggle_item_flips (x : string) (prev : list string) :
  (x ∈ toggleItem x prev ↔ x ∉ prev) ∧
  (∀ y, y ≠ x → (y ∈ toggleItem x prev ↔ y ∈ prev)) ∧
  (NoDup prev → NoDup (toggleItem x prev)) ∧
  (NoDup prev →
     if bool_decide (x ∈ prev)
     then S (length (toggleItem x prev)) = length prev
     else length (toggleItem x prev) = S (length prev)) ∧
  (∀ st, ExtractionFormV2.selectedUrls (FormFlow.toggleUrlSelection x st)
         = toggleItem x (ExtractionFormV2.selectedUrls st)).
Proof.
  unfold toggleItem. split_and!.
  - case_bool_decide as Hin.
    + rewrite list_elem_of_filter. split; [intros [Hne _]; by destruct Hne|tauto].
    + rewrite elem_of_app, list_elem_of_singleton. tauto.
  - intros y Hy. case_bool_decide as Hin.
    + rewrite list_elem_of_filter. tauto.
    + rewrite elem_of_app, list_elem_of_singleton. tauto.
  - intros Hnd. case_bool_decide as Hin.
    + by apply NoDup_filter.
    + apply NoDup_app. split_and!; [exact Hnd| |apply NoDup_singleton].
      intros y Hy Hy'. apply list_elem_of_singleton in Hy'. by subst y.
  - intros Hnd. case_bool_decide as Hin.
    + apply list_elem_of_split in Hin as (l1 & l2 & ->).
      apply NoDup_app in Hnd as (_ & Hdis & Hnd2).
      apply NoDup_cons in Hnd2 as (Hx2 & _).
      assert (Hx1 : x ∉ l1).
      { intros Hx. apply (Hdis x Hx). apply list_elem_of_here. }
      rewrite filter_app, filter_cons_False by (intros Hne; by apply Hne).
      rewrite !ReviewExtras.filter_keeps_all.
      * rewrite !length_app. cbn [length]. lia.
      * apply Forall_forall. intros y Hy ->. by apply Hx2.
      * apply Forall_forall. intros y Hy ->. by apply Hx1.
    + rewrite length_app. cbn [length]. lia.
  - intros st. reflexivity.
Qed.

Lemma markSource_other id status (l : list FetchedSource) :
  (∀ y, y ∈ l → source_id y ≠ id) → markSource id status l = l.
Proof.
  intros Hne. unfold markSource.
  induction l as [|y l IH]; [reflexivity|].
  cbn [map]. rewrite IH by (intros z Hz; apply Hne; by apply list_elem_of_further).
  rewrite bool_decide_eq_false_2; [reflexivity|].
  apply Hne, list_elem_of_here.
Qed.

Lemma markSource_split id status (l : list FetchedSource) x :
  NoDup (map source_id l) → x ∈ l → source_id x = id →
  ∃ l1 l2, l = l1 ++ x :: l2 ∧
    markSource id status l
    = l1 ++ {| source_id := id; approval_status := status |} :: l2.
Proof.
  intros Hnd Hin Hid.
  apply list_elem_of_split in Hin as (l1 & l2 & ->).
  exists l1, l2. split; [reflexivity|].
  rewrite map_app in Hnd. cbn [map] in Hnd.
  apply NoDup_app in Hnd as (_ & Hdis & Hnd2).
  apply NoDup_cons in Hnd2 as (Hx2 & _).
  unfold markSource. rewrite map_app. cbn [map].
  fold (markSource id status l1). fold (markSource id status l2).
  rewrite !markSource_other.
  - rewrite bool_decide_eq_true_2 by exact Hid. by rewrite Hid.
  - intros y Hy Heq. apply Hx2. rewrite Hid, <- Heq.
    apply list_elem_of_fmap. by exists y.
  - intros y Hy Heq. apply (Hdis (source_id y)).
    + apply list_elem_of_fmap. by exists y.
    + rewrite Heq, <- Hid. apply list_elem_of_here.
Qed.

Lemma count_at (P : FetchedSource → Prop) `{∀ s, Decision (P s)} l1 x l2 :
  length (filter P (l1 ++ x :: l2))
  = (length (filter P l1) + (if decide (P x) then 1 else 0)
     + length (filter P l2))%nat.
Proof.
  rewrite filter_app, length_app.
  destruct (decide (P x)).
  - rewrite filter_cons_True by done. cbn [length]. lia.
  - rewrite filter_cons_False by done. lia.
Qed.

Lemma markSource_counts id old new (l : list FetchedSource) x :
  NoDup (map source_id l) → x ∈ l → source_id x = id →
  approval_status x = old → old ≠ new →
  let count := λ status l, length (filter (λ s, approval_status s = status) l) in
  count new (markSource id new l) = S (count new l) ∧
  S (count old (markSource id new l)) = count old l ∧
  (∀ other, other ≠ old → other ≠ new →
     count other (markSource id new l) = count other l) ∧
  length (markSource id new l) = length l ∧
  (∀ y, y ∈ l → source_id y ≠ id → y ∈ markSource id new l).
Proof.
  intros Hnd Hin Hid Hold Hne count. subst count. cbv beta.
  destruct (markSource_split id new l x Hnd Hin Hid) as (l1 & l2 & -> & ->).
  rewrite !(count_at (λ s, approval_status s = new)).
  rewrite !(count_at (λ s, approval_status s = old)).
  cbn [approval_status]. rewrite Hold.
  rewrite (decide_False (P := old = new)) by exact Hne.
  rewrite (decide_True (P := new = new)) by reflexivity.
  rewrite (decide_False (P := new = old)) by (intros Heq; by apply Hne).
  rewrite (decide_True (P := old = old)) by reflexivity.
  split_and!; [lia|lia| | |].
  - intros other Ho Hn.
    rewrite !(count_at (λ s, approval_status s = other)).
    cbn [approval_status]. rewrite Hold.
    rewrite (decide_False (P := new = other)) by (intros Heq; by apply Hn).
    rewrite (decide_False (P := old = other)) by (intros Heq; by apply Ho).
    reflexivity.
  - rewrite !length_app. reflexivity.
  - intros y Hy Hyid. rewrite elem_of_app, elem_of_cons in *.
    destruct Hy as [Hy|[->|Hy]]; [by left|by destruct Hyid|by right; right].
Qed.

(** X17. The Approve and Reject buttons of a pending source, with source
    ids distinct. When the request is answered, the counter of the new
    status rises by one, the pending counter falls by one, the third
    counter and the number of sources are unchanged, and every source with
    another id is still listed as it was. When the request fails, no source
    changes and the fixed message is shown. Either way exactly one request
    is made, for that session and that source. *)
Theorem review_decision_moves_one_source net id st s x :
  session (sess st) = Some s →
  NoDup (map source_id (sources (sourcesSt st))) →
  x ∈ sources (sourcesSt st) → source_id x = id →
  approval_status x = "pending" →
  let decided := λ (reply : Reply ()) (st' : State) (new other failure : string),
    match reply with
    | Answer _ =>
        countStatus new st' = S (countStatus new st) ∧
        S (countStatus "pending" st') = countStatus "pending" st ∧
        countStatus other st' = countStatus other st ∧
        length (sources (sourcesSt st')) = length (sources (sourcesSt st)) ∧
        (∀ y, y ∈ sources (sourcesSt st) → source_id y ≠ id →
              y ∈ sources (sourcesSt st')) ∧
        error (sess st') = error (sess st)
    | Throws _ =>
        sources (sourcesSt st') = sources (sourcesSt st) ∧
        error (sess st') = failure
    end in
  decided (approve_reply net) (approveSource net id st).1
          "approved" "rejected" "Failed to approve source" ∧
  (approveSource net id st).2 = [Call (Approve (session_id s) id)] ∧
  decided (reject_reply net) (rejectSource net id st).1
          "rejected" "approved" "Failed to reject source" ∧
  (rejectSource net id st).2 = [Call (Reject (session_id s) id)].
Proof.
  intros Hs Hnd Hin Hid Hpending decided. subst decided. cbv beta.
  unfold approveSource, rejectSource, countStatus. rewrite Hs.
  pose proof (markSource_counts id "pending" "approved" _ x Hnd Hin Hid Hpending
                ltac:(discriminate)) as (Ha1 & Ha2 & Ha3 & Ha4 & Ha5).
  pose proof (markSource_counts id "pending" "rejected" _ x Hnd Hin Hid Hpending
                ltac:(discriminate)) as (Hr1 & Hr2 & Hr3 & Hr4 & Hr5).
  split_and!.
  - destruct (approve_reply net); cbn; [by split|].
    split_and!; try assumption; [|reflexivity].
    apply Ha3; discriminate.
  - by destruct (approve_reply net).
  - destruct (reject_reply net); cbn; [by split|].
    split_and!; try assumption; [|reflexivity].
    apply Hr3; discriminate.
  - by destruct (reject_reply net).
Qed.

Lemma review_decision_moves_one_source_witness :
  countStatus "approved"
    (approveSource MoreSamples.flowNet "a" MoreSamples.reviewing).1 = 2%nat.
Proof.
  pose proof (review_decision_moves_one_source MoreSamples.flowNet "a"
                MoreSamples.reviewing Samples.session1
                (MoreSamples.fetched "a" "pending") eq_refl) as H.
  destruct H as ((H & _) & _).
  - apply (bool_decide_unpack _). vm_compute. exact I.
  - apply list_elem_of_here.
  - reflexivity.
  - reflexivity.
  - exact H.
Defined.

Lemma approveEvery_all (l : list FetchedSource) :
  Forall (λ s, approval_status s = "approved") (approveEvery l) ∧
  map source_id (approveEvery l) = map source_id l.
Proof.
  unfold approveEvery. split.
  - apply Forall_forall. intros y Hy.
    apply list_elem_of_fmap in Hy as (z & -> & _). reflexivity.
  - induction l as [|y l IH]; [reflexivity|]. cbn [map] in *. by rewrite IH.
Qed.

Lemma count_all_none (P : FetchedSource → Prop) `{∀ s, Decision (P s)} l :
  (Forall P l → length (filter P l) = length l) ∧
  (Forall (λ s, ¬ P s) l → length (filter P l) = 0%nat).
Proof.
  split; induction 1 as [|y l' Hy _ IH]; try reflexivity.
  - rewrite filter_cons_True by done. cbn [length]. by rewrite IH.
  - by rewrite filter_cons_False.
Qed.

(** X18. Approve All and Save, with a session. Once the approve-all request
    is answered every listed source is marked approved, also one that had
    been rejected, and it stays so when the save that follows is refused or
    fails: the approved counter then equals the number of sources, the
    other two are zero, and only the save result tells the outcomes apart
    (it is set exactly when the save succeeded). When the approve-all
    request itself fails no source changes and no save is attempted. The
    wizard stays on its step and the loading flag ends cleared. *)
Theorem approve_all_marks_before_save net st s :
  session (sess st) = Some s →
  let st' := (approveAllAndSave net st).1 in
  let tr := (approveAllAndSave net st).2 in
  loading (sess st') = false ∧ step (sess st') = step (sess st) ∧
  match approve_all_reply net with
  | Throws msg =>
      sources (sourcesSt st') = sources (sourcesSt st) ∧
      saveResult (sourcesSt st') = saveResult (sourcesSt st) ∧
      error (sess st') = msg ∧
      flowCalls tr = [ApproveAll (session_id s)]
  | Answer _ =>
      Forall (λ x, approval_status x = "approved") (sources (sourcesSt st')) ∧
      map source_id (sources (sourcesSt st')) = map source_id (sources (sourcesSt st)) ∧
      countStatus "approved" st' = length (sources (sourcesSt st)) ∧
      countStatus "pending" st' = 0%nat ∧
      countStatus "rejected" st' = 0%nat ∧
      flowCalls tr = [ApproveAll (session_id s); SaveApprovedRaw (session_id s)] ∧
      match save_reply net with
      | Answer (Saved data) =>
          saveResult (sourcesSt st') = Some data ∧ error (sess st') = ""
      | Answer (SaveRefused detail) =>
          saveResult (sourcesSt st') = saveResult (sourcesSt st) ∧
          error (sess st') ≠ "" ∧
          (∀ d, detail = Some d → d ≠ "" → error (sess st') = d)
      | Throws msg =>
          saveResult (sourcesSt st') = saveResult (sourcesSt st) ∧
          error (sess st') = msg
      end
  end.
Proof.
  intros Hs st' tr. subst st' tr.
  unfold approveAllAndSave.
  cbn [setError setLoading withSess sess session]. rewrite Hs.
  destruct (approve_all_reply net) as [msg|[]].
  { by repeat split. }
  assert (Hcounts :
    ∀ st1, sources (sourcesSt st1) = approveEvery (sources (sourcesSt st)) →
      Forall (λ x, approval_status x = "approved") (sources (sourcesSt st1)) ∧
      map source_id (sources (sourcesSt st1)) = map source_id (sources (sourcesSt st)) ∧
      countStatus "approved" st1 = length (sources (sourcesSt st)) ∧
      countStatus "pending" st1 = 0%nat ∧ countStatus "rejected" st1 = 0%nat).
  { intros st1 Hst1. unfold countStatus. rewrite Hst1.
    destruct (approveEvery_all (sources (sourcesSt st))) as [Hall Hids].
    split_and!; [exact Hall|exact Hids| | |].
    - rewrite (proj1 (count_all_none _ _) Hall).
      unfold approveEvery. by rewrite length_map.
    - apply count_all_none. eapply Forall_impl; [exact Hall|].
      intros y Hy Hp. rewrite Hy in Hp. discriminate Hp.
    - apply count_all_none. eapply Forall_impl; [exact Hall|].
      intros y Hy Hp. rewrite Hy in Hp. discriminate Hp. }
  destruct (save_reply net) as [msg|[detail|data]]; cbn;
    (split; [reflexivity|]); (split; [reflexivity|]);
    destruct (Hcounts
      (setSources (approveEvery (sources (sourcesSt st))) st) eq_refl)
      as (H1 & H2 & H3 & H4 & H5);
    (split; [exact H1|]); (split; [exact H2|]); (split; [exact H3|]);
    (split; [exact H4|]); (split; [exact H5|]); (split; [reflexivity|]).
  - by split.
  - split; [reflexivity|]. destruct detail as [d|]; cbn.
    + unfold Js.truthy_string. cbn.
      destruct (String.eqb_spec d "") as [->|Hd]; cbn.
      * split; [discriminate|]. intros d' Hd' Hne. by injection Hd' as <-.
      * split; [exact Hd|]. intros d' Hd' _. by injection Hd' as <-.
    + split; [discriminate|]. intros d Hd. discriminate Hd.
  - by split.
Qed.

Lemma approve_all_marks_before_save_witness :
  countStatus "approved"
    (approveAllAndSave MoreSamples.flowNet MoreSamples.reviewing).1 = 3%nat ∧
  saveResult (sourcesSt
    (approveAllAndSave MoreSamples.flowNet MoreSamples.reviewing).1) = None.
Proof.
  pose proof (approve_all_marks_before_save MoreSamples.flowNet
                MoreSamples.reviewing Samples.session1 eq_refl) as H.
  destruct H as (_ & _ & _ & _ & H & _ & _ & _ & Hsave & _).
  split; [exact H|exact Hsave].
Defined.

(** X19. Select cards and discover URLs. With no card selected nothing is
    sent and the message asks for a card. Otherwise the requests made are an
    initial part of: the card selection (carrying exactly the selected
    ids), the URL discovery (carrying the advanced options), the URL list;
    step 3 is entered once the card selection is answered and step 4 once
    the URL list has arrived, so a failed discovery leaves the wizard on
    step 3. On arrival at step 4 the error is cleared and the selected URLs
    are the URLs the server flagged, in list order. The cards and their
    selection are never changed and the loading flag ends cleared. *)
Theorem select_cards_then_discover net st :
  let st' := (selectCardsAndDiscover net st).1 in
  let tr := (selectCardsAndDiscover net st).2 in
  loading (sess st') = false ∧ cardsSt st' = cardsSt st ∧
  (selectedCardIds (cardsSt st) = [] →
     tr = [] ∧ error (sess st') = "Select at least one card" ∧
     step (sess st') = step (sess st)) ∧
  (flowSteps tr = [] ∧ step (sess st') = step (sess st) ∧ urlsSt st' = urlsSt st
   ∨ flowSteps tr = [3%nat] ∧ step (sess st') = 3%nat ∧ urlsSt st' = urlsSt st
   ∨ flowSteps tr = [3%nat; 4%nat] ∧ step (sess st') = 4%nat ∧
     error (sess st') = "" ∧
     selectedUrls (urlsSt st')
     = map entry_url (filter (λ u, url_is_selected u) (urls (urlsSt st')))) ∧
  (flowCalls tr = [] ∨
   ∃ s n, session (sess st) = Some s ∧ (0 < n)%nat ∧
     flowCalls tr
     = take n [SelectCards (session_id s) (selectedCardIds (cardsSt st));
               DiscoverUrls (session_id s)
                 {| d_follow_links := followLinks (advanced st);
                    d_max_depth := maxDepth (advanced st);
                    d_process_pdfs := processPdfs (advanced st);
                    d_use_playwright := usePlaywright (advanced st) |};
               GetUrls (session_id s)]).
Proof.
  intros st' tr. subst st' tr.
  unfold selectCardsAndDiscover, discoverUrls.
  destruct st as [[se stp ld er] inp adv [cs sel] us k so].
  cbn [cardsSt selectedCardIds setError setLoading withSess sess session].
  case_bool_decide as Hsel.
  { cbn. subst sel. repeat split; auto. }
  destruct se as [s|]; cbn.
  2:{ repeat split; auto; congruence. }
  destruct (select_cards_reply net) as [msg|[]]; cbn.
  { repeat split; auto; try congruence.
    right. exists s, 1%nat. repeat split; auto. }
  destruct (discover_urls_reply net) as [msg|[]]; cbn.
  { repeat split; auto; try congruence.
    right. exists s, 2%nat. repeat split; auto. }
  destruct (urls_reply net) as [msg|found]; cbn.
  { repeat split; auto; try congruence.
    right. exists s, 3%nat. repeat split; auto. }
  repeat split; auto; try congruence.
  - right; right. repeat split; auto.
  - right. exists s, 3%nat. repeat split; auto.
Qed.

(** X20. Fetch content. The requests made are an initial part of: the URL
    selection (carrying the selected URLs, the keyword list and the three
    options as they are), the fetch request, the source list; step 6 is
    entered once the URL selection is answered and step 7 once the sources
    have arrived, with the error cleared, the arrived sources listed and
    the fetch statistics set. A failure after the URL selection leaves the
    wizard on step 6 with the previous sources. The URL selection and the
    keywords are never changed and the loading flag ends cleared. *)
Theorem fetch_content_steps net st :
  let st' := (fetchContent net st).1 in
  let tr := (fetchContent net st).2 in
  loading (sess st') = false ∧ urlsSt st' = urlsSt st ∧ kw st' = kw st ∧
  (flowSteps tr = [] ∧ step (sess st') = step (sess st) ∧
     sourcesSt st' = sourcesSt st
   ∨ flowSteps tr = [6%nat] ∧ step (sess st') = 6%nat ∧
     sourcesSt st' = sourcesSt st
   ∨ flowSteps tr = [6%nat; 7%nat] ∧ step (sess st') = 7%nat ∧
     error (sess st') = "" ∧
     ∃ srcs stats, sources_reply net = Answer srcs ∧
       fetch_content_reply net = Answer stats ∧
       sources (sourcesSt st') = default [] srcs ∧
       fetchStats (sourcesSt st') = Some stats) ∧
  (flowCalls tr = [] ∨
   ∃ s n, session (sess st) = Some s ∧ (0 < n)%nat ∧
     flowCalls tr
     = take n [SelectUrls (session_id s)
                 {| selected_urls := selectedUrls (urlsSt st);
                    su_keywords := KeywordList.keywords (kw st);
                    su_process_pdfs := processPdfs (advanced st);
                    su_use_playwright := usePlaywright (advanced st);
                    su_bypass_cache := bypassCache (advanced st) |};
               FetchContent (session_id s) (usePlaywright (advanced st))
                 (bypassCache (advanced st));
               GetSources (session_id s)]).
Proof.
  intros st' tr. subst st' tr.
  unfold fetchContent.
  destruct st as [[se stp ld er] inp adv cs us k so].
  cbn [setError setLoading withSess sess session].
  destruct se as [s|]; cbn.
  2:{ repeat split; auto. }
  destruct (select_urls_reply net) as [msg|[]]; cbn.
  { repeat split; auto. right. exists s, 1%nat. repeat split; auto. }
  destruct (fetch_content_reply net) as [msg|stats]; cbn.
  { repeat split; auto. right. exists s, 2%nat. repeat split; auto. }
  destruct (sources_reply net) as [msg|srcs]; cbn.
  { repeat split; auto. right. exists s, 3%nat. repeat split; auto. }
  repeat split; auto.
  - right; right. repeat split; auto. by exists srcs, stats.
  - right. exists s, 3%nat. repeat split; auto.
Qed.

End WizardExtras.

(** ** The extraction form: URL selection and extraction *)

Module FormExtras.
Import ExtractionFormV2 FormFlow.

Lemma map_filter_sublist {A B} (f : A → B) (P : A → Prop)
    `{∀ x, Decision (P x)} (l : list A) :
  map f (filter P l) `sublist_of` map f l.
Proof. apply (fmap_sublist f), sublist_filter. Qed.

(** X21. Select All of the extraction form selects the URL of every
    discovered link, web pages first and documents after, so every row is
    shown selected; the selection the discovery had made on its own (the
    links of high relevance) is a sublist of it. Deselect All leaves no row
    selected. Without a discovery result Select All changes nothing. *)
Theorem select_all_urls_covers st :
  match discoveryResult st with
  | Some result =>
      let st' := selectAllUrls st in
      (∀ l, l ∈ discovered_links result ++ pdf_links result →
            isSelected st' l = true) ∧
      (∀ u, u ∈ selectedUrls st' →
            ∃ l, l ∈ discovered_links result ++ pdf_links result ∧ url l = u) ∧
      length (selectedUrls st')
      = (length (discovered_links result) + length (pdf_links result))%nat ∧
      highRelevance result `sublist_of` selectedUrls st' ∧
      discoveryResult st' = Some result
  | None => selectAllUrls st = st
  end ∧
  (∀ l, isSelected (deselectAllUrls st) l = false).
Proof.
  split.
  - unfold selectAllUrls. destruct (discoveryResult st) as [result|] eqn:Hres;
      [|reflexivity].
    cbn. unfold allUrls, isSelected. cbn. split_and!.
    + intros l Hl. apply bool_decide_eq_true_2.
      apply elem_of_app in Hl. apply elem_of_app.
      destruct Hl as [Hl|Hl]; [left|right]; apply list_elem_of_fmap; by exists l.
    + intros u Hu. apply elem_of_app in Hu.
      destruct Hu as [Hu|Hu]; apply list_elem_of_fmap in Hu as (l & -> & Hl);
        exists l; (split; [|reflexivity]); apply elem_of_app; first [by left|by right].
    + by rewrite length_app, !length_map.
    + unfold highRelevance. apply sublist_app; apply map_filter_sublist.
    + exact Hres.
  - intros l. unfold isSelected, deselectAllUrls. cbn.
    apply bool_decide_eq_false_2, not_elem_of_nil.
Qed.

Lemma extractError_nonempty detail message : extractError detail message ≠ "".
Proof.
  unfold extractError, Js.truthy_string.
  destruct detail as [d|]; cbn.
  - destruct (String.eqb_spec d "") as [->|Hd]; cbn; [|exact Hd].
    destruct message as [m|]; cbn; [|discriminate].
    destruct (String.eqb_spec m "") as [->|Hm]; cbn; [discriminate|exact Hm].
  - destruct message as [m|]; cbn; [|discriminate].
    destruct (String.eqb_spec m "") as [->|Hm]; cbn; [discriminate|exact Hm].
Qed.

(** X22. What [handleExtract] sends. It makes exactly one request, first of
    all it does: with flexible extraction on, the intelligence request,
    whose body carries the form's URL, the selected URLs, the keyword list,
    and the two options as the form has them (an option switched off is
    sent as false, not replaced by the default true); with it off, the
    legacy request, with the same URL, selection and options,
    [follow_links] and [store_raw_text] true, and no keywords. *)
Theorem extract_request_carries_form props notAFunction reply st :
  ∃ rest, (handleExtract props notAFunction reply st).2
          = (if useFlexibleExtraction st
             then PostIntelligence
                    {| i_url := inputValue st;
                       i_selected_urls := selectedUrls st;
                       i_process_pdfs := processPdfs st;
                       i_bypass_cache := bypassCache st;
                       i_keywords := Some (KeywordList.keywords (kw st)) |}
             else PostLegacy
                    {| l_url := inputValue st;
                       l_selected_urls := selectedUrls st;
                       l_follow_links := true;
                       l_process_pdfs := processPdfs st;
                       l_bypass_cache := bypassCache st;
                       l_store_raw_text := true;
                       l_processPdfs := Some (processPdfs st);
                       l_bypassCache := Some (bypassCache st);
                       l_keywords := None |}) :: rest ∧
    Forall (λ e, match e with
                 | PostIntelligence _ | PostLegacy _ => False
                 | _ => True
                 end) rest.
Proof.
  unfold handleExtract.
  destruct (useFlexibleExtraction st), reply as [d m|r];
    try destruct (onIntelligenceResult props);
    try destruct (onResult props);
    eexists; (split; [reflexivity|]); repeat constructor.
Qed.

(** X23. How [handleExtract] ends. The loading flag and the keyword step
    are off, and the URL input and the keyword list are as before. Either
    the form is back on step 1 with the success flag set, no error, the
    selection emptied and the discovery result dropped, which happens only
    when the request was answered; or it is on step 2 with an error message
    and the selection and the discovery result kept for another attempt.
    On that second path the success flag is set exactly when the legacy
    request was answered but no [onResult] callback had been given. At most
    one callback is called, only with the answer of the request;
    [onIntelligenceResult] takes precedence over [onResult]. *)
Theorem extract_outcome props notAFunction reply st :
  let st' := (handleExtract props notAFunction reply st).1 in
  let tr := (handleExtract props notAFunction reply st).2 in
  let answered := ∃ result, reply = ExtractOk result in
  loading st' = false ∧ showKeywordStep st' = false ∧
  inputValue st' = inputValue st ∧ kw st' = kw st ∧
  (step st' = 1%nat ∧ success st' = true ∧ error st' = "" ∧
     selectedUrls st' = [] ∧ discoveryResult st' = None ∧ answered
   ∨ step st' = 2%nat ∧ error st' ≠ "" ∧
     selectedUrls st' = selectedUrls st ∧
     discoveryResult st' = discoveryResult st ∧
     (success st' = true ↔
        answered ∧ useFlexibleExtraction st = false ∧ onResult props = false)) ∧
  (∀ result keywords, IntelligenceResult result keywords ∈ tr →
     reply = ExtractOk result ∧ keywords = KeywordList.keywords (kw st) ∧
     useFlexibleExtraction st = true ∧ onIntelligenceResult props = true) ∧
  (∀ result keywords, Result result keywords ∈ tr →
     reply = ExtractOk result ∧ onResult props = true ∧
     (useFlexibleExtraction st = true →
        onIntelligenceResult props = false ∧
        keywords = Some (KeywordList.keywords (kw st))) ∧
     (useFlexibleExtraction st = false → keywords = None)) ∧
  (length tr ≤ 2)%nat.
Proof.
  intros st' tr answered. subst st' tr answered.
  unfold handleExtract.
  pose proof (extractError_nonempty) as Hne.
  destruct (useFlexibleExtraction st) eqn:Hflex, reply as [d m|r];
    destruct (onIntelligenceResult props) eqn:Hi;
    destruct (onResult props) eqn:Hr; cbn -[extractError];
    (split; [reflexivity|]); (split; [reflexivity|]);
    (split; [reflexivity|]); (split; [reflexivity|]);
    (split;
     [first
        [left; repeat split; try reflexivity; by eexists
        |right; (split; [reflexivity|]); (split; [apply Hne|]);
         (split; [reflexivity|]); (split; [reflexivity|]);
         (split;
          [intros Hs; try discriminate Hs; repeat split; by eexists
          |intros ((result & Hx) & Hf & Ho);
           try discriminate Hx; try discriminate Hf; try discriminate Ho;
           reflexivity])]
     |]);
    (split;
     [intros result keywords Hin; Wizard.trace_cases;
      try (injection Hin as <- <-; by repeat split)
     |]);
    (split;
     [intros result keywords Hin; Wizard.trace_cases;
      try (injection Hin as <- <-;
           (split; [reflexivity|]); (split; [reflexivity|]);
           split; intros Hf; try discriminate Hf; by repeat split)
     |lia]).
Qed.

End FormExtras.

(** ** The results viewer: the counters of the quality summary *)

Module StatsExtras.
Import PipelineResultsViewer ResultsStats.

Lemma three_way_count {A} (f : A → string) (a b c : string) (l : list A) :
  a ≠ b → a ≠ c → b ≠ c →
  (length (filter (λ x, f x = a) l) + length (filter (λ x, f x = b) l)
   + length (filter (λ x, f x = c) l) ≤ length l)%nat ∧
  (length (filter (λ x, f x = a) l) + length (filter (λ x, f x = b) l)
   + length (filter (λ x, f x = c) l) = length l
   ↔ Forall (λ x, f x = a ∨ f x = b ∨ f x = c) l)%nat.
Proof.
  intros Hab Hac Hbc.
  induction l as [|x l [IHle IHeq]]; [split; [reflexivity|by split]|].
  rewrite Forall_cons, <- IHeq.
  rewrite !filter_cons.
  destruct (decide (f x = a)) as [Ha|Ha], (decide (f x = b)) as [Hb|Hb],
    (decide (f x = c)) as [Hc|Hc]; cbn [length];
    try congruence; (split; [lia|]); split;
    try (intros [[?|[?|?]] ?]; try congruence); try lia;
    intros ?; try (split; [tauto|lia]).
Qed.

(** X24. The counters of the quality summary are computed from the
    benefits as they were received. Without reported quality metrics the
    three confidence counters never add up to more than the total, and add
    up to it exactly when every benefit has one of the levels high, medium
    or low; the same holds of the three extraction-method counters. A
    reported metric replaces the computed counter only when it is a
    non-zero number. A click on a delete button changes none of them, nor
    the total, whatever its outcome: the counters keep counting a benefit
    that was deleted. *)
Theorem quality_counters r :
  let c := counters r None in
  let total := Z.of_nat (length (all_benefits r)) in
  (highConfidence c + mediumConfidence c + lowConfidence c ≤ total ∧
   (highConfidence c + mediumConfidence c + lowConfidence c = total ↔
    Forall (λ b, confidence_level b = "high" ∨ confidence_level b = "medium" ∨
                 confidence_level b = "low") (all_benefits r))) ∧
  (llmExtracted c + patternExtracted c + hybridExtracted c ≤ total ∧
   (llmExtracted c + patternExtracted c + hybridExtracted c = total ↔
    Forall (λ b, extraction_method b = "llm" ∨ extraction_method b = "pattern" ∨
                 extraction_method b = "hybrid") (all_benefits r))) ∧
  (∀ m, highConfidence (counters r (Some m))
        = match high_confidence m with
          | Some n => if decide (n = 0) then highConfidence c else n
          | None => highConfidence c
          end) ∧
  (∀ confirmed reply id ttl w q,
     results w = r →
     let w' := (handleDeleteBenefit confirmed reply id ttl w).1 in
     counters (results w') q = counters r q ∧ totalBenefits w' = total).
Proof.
  intros c total. subst c total. unfold counters, countLevel, countMethod.
  cbn [highConfidence mediumConfidence lowConfidence llmExtracted
       patternExtracted hybridExtracted].
  pose proof (three_way_count confidence_level "high" "medium" "low"
                (all_benefits r) ltac:(discriminate) ltac:(discriminate)
                ltac:(discriminate)) as [Hle Heq].
  pose proof (three_way_count extraction_method "llm" "pattern" "hybrid"
                (all_benefits r) ltac:(discriminate) ltac:(discriminate)
                ltac:(discriminate)) as [Hle' Heq'].
  split_and!.
  - lia.
  - rewrite <- Heq. lia.
  - lia.
  - rewrite <- Heq'. lia.
  - intros m. unfold Js.number_or. destruct (high_confidence m) as [n|];
      [|reflexivity].
    destruct (Z.eqb_spec n 0) as [->|Hn].
    + by rewrite decide_True.
    + by rewrite decide_False.
  - intros confirmed reply id ttl w q <-. unfold handleDeleteBenefit, totalBenefits.
    destruct (negb (Js.truthy_string (rawDataId w))); [by split|].
    destruct (negb confirmed); [by split|].
    destruct reply; by split.
Qed.

End StatsExtras.
